(** * faceRecog: the matching engine and the identity store

    A shallow embedding of [backend/face_service.py] (class [FaceService]),
    [backend/database.py] (class [MongoDB]) and the augmentation endpoint of
    [backend/app.py] ([improve_recognition]).

    - Embeddings are [np.ndarray]s of [float64]: lists of binary64 floats
      ([PrimFloat.float]), with IEEE 754 arithmetic and comparisons.
    - Python exceptions are values of [exn]; a computation that may raise
      returns a [res].
    - The MongoDB collections are lists of documents in insertion order; the
      operations of the driver thread the store explicitly (monad [M]), and
      the effects done before an exception is raised are kept.
    - DeepFace and the file system are collaborators of the service: they are
      variables of the section [Service]. *)

From Stdlib Require Import Floats ZArith String Ascii Bool Arith Lia List.
From Stdlib Require Import DecimalString.
Import ListNotations.

Local Open Scope string_scope.
Local Open Scope list_scope.

(** ** Python exceptions and results *)

Inductive exn : Type :=
| ValueError (msg : string)
| FileNotFoundError (msg : string)
| Exception (msg : string)
| PyMongoError (msg : string)
| DuplicateKeyError (msg : string)
| HTTPException (status_code : nat) (detail : string).

(** [str(e)] *)
Definition str_exn (e : exn) : string :=
  match e with
  | ValueError msg | FileNotFoundError msg | Exception msg
  | PyMongoError msg | DuplicateKeyError msg => msg
  | HTTPException _ detail => detail
  end.

Inductive res (A : Type) : Type :=
| Ok (a : A)
| Raise (e : exn).
Arguments Ok {A} a.
Arguments Raise {A} e.

(** [str(n)] for a natural number, as an f-string renders it. *)
Definition str_nat (n : nat) : string := NilEmpty.string_of_uint (Nat.to_uint n).

(** ** numpy on one-dimensional float64 arrays *)

Definition ndarray := list float.

(** The accumulation of [np.dot], left to right from [0.0], each product and
    each sum rounded. (numpy leaves the order of the additions, and the use
    of fused multiply-adds, to its BLAS, so its result may differ in the
    last bits. The general facts below hold for every value of the
    distances, and on the vectors of the worked examples every product and
    sum is exact, so every order gives the same float.) *)
Fixpoint dot_acc (acc : float) (a b : list float) : float :=
  match a, b with
  | x :: a', y :: b' => dot_acc (acc + x * y)%float a' b'
  | _, _ => acc
  end.

(** [np.dot(a, b)]: shapes that are not aligned raise [ValueError], with
    both shapes in the message, in the order of the arguments. *)
Definition np_dot (a b : ndarray) : res float :=
  if Nat.eqb (length a) (length b) then Ok (dot_acc 0%float a b)
  else Raise (ValueError
                ("shapes (" ++ str_nat (length a) ++ ",) and ("
                 ++ str_nat (length b) ++ ",) not aligned: "
                 ++ str_nat (length a) ++ " (dim 0) != "
                 ++ str_nat (length b) ++ " (dim 0)")%string).

(** [np.linalg.norm(x)] of a real vector: [sqrt(x.dot(x))]. *)
Definition np_linalg_norm (x : ndarray) : float := PrimFloat.sqrt (dot_acc 0%float x x).

(** [FaceService.cosine_distance]. The float64 division follows IEEE 754:
    dividing by zero raises nothing. *)
Definition cosine_distance (emb1 emb2 : ndarray) : res float :=
  match np_dot emb1 emb2 with
  | Raise e => Raise e
  | Ok d => Ok (1 - d / (np_linalg_norm emb1 * np_linalg_norm emb2))%float
  end.

(** ** Python built-ins on lists of floats *)

(** The loop of [min]: the running minimum is replaced on strict [<] only. *)
Fixpoint min_from (m : float) (l : list float) : float :=
  match l with
  | [] => m
  | x :: l' => min_from (if (x <? m)%float then x else m) l'
  end.

(** [min(l)]; the text of the message is that of CPython up to 3.11. *)
Definition py_min (l : list float) : res float :=
  match l with
  | [] => Raise (ValueError "min() arg is an empty sequence")
  | x :: l' => Ok (min_from x l')
  end.


(** A distance that is a number strictly below [+inf], the value
    [best_distance] starts from. A NaN is not: every comparison with it is
    false. *)
Definition proper (d : float) : bool := (d <? infinity)%float.

(** ** The store: [database.py] *)

Definition ObjectId := nat.

(** [Binary(pickle.dumps(emb, protocol=2))]: the stored blob of an embedding.
    Pickling keeps every float64 bit for bit. *)
Record Binary : Type := { pickled : ndarray }.
Definition pickle_dumps (emb : ndarray) : Binary := {| pickled := emb |}.
Definition pickle_loads (b : Binary) : ndarray := pickled b.

(** A document of the [students] collection. The key [embeddings] may be
    missing ([None]); the other keys are the ones [add_student] writes. *)
Record student_doc : Type := {
  doc_id : ObjectId;
  doc_name : string;
  doc_student_id : string;
  doc_embeddings : option (list Binary);
  doc_image_count : nat;
  doc_image_paths : list string;
  doc_is_active : bool;
  doc_created_at : option string
}.

(** A document of the [attendance] collection. *)
Record attendance_doc : Type := {
  att_id : ObjectId;
  att_student_id : string;
  att_check_in : option string;
  att_date : option string;
  att_image_path : option string;
  att_verified : bool
}.

(** The database behind a [MongoDB] object: both collections in insertion
    order, the next [ObjectId] the server hands out, and the outcome awaiting
    each coming call of the driver ([Some msg]: that call raises
    [PyMongoError msg]; [None], or nothing scheduled: it goes through). *)
Record MongoDB : Type := {
  students : list student_doc;
  attendance : list attendance_doc;
  next_oid : ObjectId;
  faults : list (option string)
}.

(** Computations over the store that may raise. The store reached when the
    exception was raised is kept: nothing is rolled back. *)
Definition M (A : Type) : Type := MongoDB -> res A * MongoDB.

Definition ret {A} (a : A) : M A := fun db => (Ok a, db).
Definition raise {A} (e : exn) : M A := fun db => (Raise e, db).
Definition bind {A B} (m : M A) (k : A -> M B) : M B :=
  fun db => match m db with
            | (Ok a, db') => k a db'
            | (Raise e, db') => (Raise e, db')
            end.
(** [try: m except Exception as e: h e] *)
Definition try_except {A} (m : M A) (h : exn -> M A) : M A :=
  fun db => match m db with
            | (Ok a, db') => (Ok a, db')
            | (Raise e, db') => h e db'
            end.
Definition lift {A} (r : res A) : M A := fun db => (r, db).

Declare Scope py_scope.
Delimit Scope py_scope with py.
Notation "x <- m ;; k" := (bind m (fun x => k))
  (at level 61, m at next level, right associativity) : py_scope.
Local Open Scope py_scope.

(** One round trip to the server: it takes the next scheduled outcome. *)
Definition driver_call : M unit := fun db =>
  match faults db with
  | [] => (Ok tt, db)
  | None :: fs =>
      (Ok tt, {| students := students db; attendance := attendance db;
                 next_oid := next_oid db; faults := fs |})
  | Some msg :: fs =>
      (Raise (PyMongoError msg),
       {| students := students db; attendance := attendance db;
          next_oid := next_oid db; faults := fs |})
  end.

Definition has_student_id (student_id : string) (d : student_doc) : bool :=
  String.eqb (doc_student_id d) student_id.

(** [self.students.find_one({"student_id": student_id})] *)
Definition students_find_one (student_id : string) : M (option student_doc) :=
  _ <- driver_call ;;
  fun db => (Ok (find (has_student_id student_id) (students db)), db).

(** [self.students.find({"is_active": True})], read to the end. *)
Definition students_find_active : M (list student_doc) :=
  _ <- driver_call ;;
  fun db => (Ok (filter doc_is_active (students db)), db).

(** [self.students.insert_one(student_data)], under the unique index on
    [student_id] that [__init__] creates. The argument builds the document
    from its fresh [_id]. *)
Definition students_insert_one (student_id : string)
    (student_data : ObjectId -> student_doc) : M ObjectId :=
  _ <- driver_call ;;
  fun db =>
    if existsb (has_student_id student_id) (students db)
    then (Raise (DuplicateKeyError "E11000 duplicate key error"), db)
    else (Ok (next_oid db),
          {| students := students db ++ [student_data (next_oid db)];
             attendance := attendance db;
             next_oid := S (next_oid db);
             faults := faults db |}).

(** [self.attendance.insert_one(attendance_record)] *)
Definition attendance_insert_one (attendance_record : ObjectId -> attendance_doc)
    : M ObjectId :=
  _ <- driver_call ;;
  fun db =>
    (Ok (next_oid db),
     {| students := students db;
        attendance := attendance db ++ [attendance_record (next_oid db)];
        next_oid := S (next_oid db);
        faults := faults db |}).

(** Replaces the first document the filter matches, as [update_one] does. *)
Fixpoint update_first (p : student_doc -> bool) (f : student_doc -> student_doc)
    (l : list student_doc) : list student_doc :=
  match l with
  | [] => []
  | d :: l' => if p d then f d :: l' else d :: update_first p f l'
  end.

(** [self.students.update_one({"student_id": student_id}, {"$set": ...})]:
    [changed] tells whether the [$set] changes the matched document; the
    result is [modified_count]. *)
Definition students_update_one (student_id : string)
    (set : student_doc -> student_doc) (changed : student_doc -> bool) : M nat :=
  _ <- driver_call ;;
  fun db =>
    match find (has_student_id student_id) (students db) with
    | None => (Ok 0, db)
    | Some d =>
        if changed d
        then (Ok 1,
              {| students := update_first (has_student_id student_id) set (students db);
                 attendance := attendance db;
                 next_oid := next_oid db;
                 faults := faults db |})
        else (Ok 0, db)
    end.

(** The dictionary [_deserialize_student] returns. *)
Record student : Type := {
  st_id : ObjectId;
  st_name : string;
  st_student_id : string;
  st_embeddings : list ndarray;
  st_image_count : nat;
  st_image_paths : list string;
  st_is_active : bool;
  st_created_at : option string
}.

(** An entry of [get_all_embeddings]. *)
Record student_embeddings : Type := {
  se_student_id : string;
  se_name : string;
  se_embeddings : list ndarray
}.

Definition _deserialize_student (d : student_doc) : student :=
  {| st_id := doc_id d;
     st_name := doc_name d;
     st_student_id := doc_student_id d;
     st_embeddings :=
       match doc_embeddings d with
       | Some (emb :: embs) => map pickle_loads (emb :: embs)
       | _ => []
       end;
     st_image_count := doc_image_count d;
     st_image_paths := doc_image_paths d;
     st_is_active := doc_is_active d;
     st_created_at := doc_created_at d |}.

Definition add_student (name student_id : string) (embeddings : list ndarray)
    (image_paths : list string) : M ObjectId :=
  students_insert_one student_id (fun oid =>
    {| doc_id := oid;
       doc_name := name;
       doc_student_id := student_id;
       doc_embeddings := Some (map pickle_dumps embeddings);
       doc_image_count := length embeddings;
       doc_image_paths := image_paths;
       doc_is_active := true;
       doc_created_at := None |}).

Definition get_student_by_id (student_id : string) : M (option student) :=
  found <- students_find_one student_id ;;
  match found with
  | Some d => ret (Some (_deserialize_student d))
  | None => ret None
  end.

Definition get_all_embeddings : M (list student_embeddings) :=
  docs <- students_find_active ;;
  ret (map (fun d =>
              let student_data := _deserialize_student d in
              {| se_student_id := st_student_id student_data;
                 se_name := st_name student_data;
                 se_embeddings := st_embeddings student_data |}) docs).

(** [check_in_time.split('T')[0]] *)
Fixpoint before_T (s : string) : string :=
  match s with
  | EmptyString => EmptyString
  | String c s' => if Ascii.eqb c "T"%char then EmptyString else String c (before_T s')
  end.

Definition record_attendance (student_id : string) (check_in_time : option string)
    (image_path : option string) : M ObjectId :=
  attendance_insert_one (fun oid =>
    {| att_id := oid;
       att_student_id := student_id;
       att_check_in := check_in_time;
       att_date :=
         match check_in_time with
         | Some (String c t) => Some (before_T (String c t))
         | _ => None
         end;
       att_image_path := image_path;
       att_verified := true |}).

Fixpoint list_eqb {A} (eqb : A -> A -> bool) (l1 l2 : list A) : bool :=
  match l1, l2 with
  | [], [] => true
  | x :: l1', y :: l2' => eqb x y && list_eqb eqb l1' l2'
  | _, _ => false
  end.

Definition Binary_eqb (b1 b2 : Binary) : bool :=
  list_eqb PrimFloat.Leibniz.eqb (pickled b1) (pickled b2).

Definition update_student_embeddings (student_id : string)
    (new_embeddings : list ndarray) (new_image_paths : list string) : M bool :=
  current_student <- students_find_one student_id ;;
  match current_student with
  | None => ret false
  | Some cur =>
      let current_embeddings :=
        map pickle_loads (match doc_embeddings cur with Some l => l | None => [] end) in
      let all_embeddings := current_embeddings ++ new_embeddings in
      let current_paths := doc_image_paths cur in
      let all_paths := current_paths ++ new_image_paths in
      let update_data (d : student_doc) :=
        {| doc_id := doc_id d;
           doc_name := doc_name d;
           doc_student_id := doc_student_id d;
           doc_embeddings := Some (map pickle_dumps all_embeddings);
           doc_image_count := length all_embeddings;
           doc_image_paths := all_paths;
           doc_is_active := doc_is_active d;
           doc_created_at := doc_created_at d |} in
      let changed (d : student_doc) :=
        negb (match doc_embeddings d with
              | Some l => list_eqb Binary_eqb l (map pickle_dumps all_embeddings)
              | None => false
              end
              && Nat.eqb (doc_image_count d) (length all_embeddings)
              && list_eqb String.eqb (doc_image_paths d) all_paths) in
      modified_count <- students_update_one student_id update_data changed ;;
      ret (Nat.ltb 0 modified_count)
  end.

(** Soft delete: [is_active] is set to [False]. *)
Definition delete_student (student_id : string) : M bool :=
  modified_count <-
    students_update_one student_id
      (fun d =>
         {| doc_id := doc_id d;
            doc_name := doc_name d;
            doc_student_id := doc_student_id d;
            doc_embeddings := doc_embeddings d;
            doc_image_count := doc_image_count d;
            doc_image_paths := doc_image_paths d;
            doc_is_active := false;
            doc_created_at := doc_created_at d |})
      doc_is_active ;;
  ret (Nat.ltb 0 modified_count).

(** ** The engine: [face_service.py] *)

Record FaceService : Type := {
  model_name : string;
  detector_backend : string;
  confidence_threshold : float
}.

(** [FaceService.__init__] with the default model; the threshold is the
    float64 that the literal [0.6] denotes. *)
Definition FaceService_init : FaceService :=
  {| model_name := "Facenet";
     detector_backend := "opencv";
     confidence_threshold := 0x1.3333333333333p-1%float |}.

(** An entry of [all_distances], and the shape of [best_match]. *)
Record candidate : Type := {
  c_student_id : string;
  c_name : string;
  c_distance : float
}.

(** An entry of [failed_images]. *)
Record failed_image : Type := {
  fi_path : string;
  fi_error : string
}.

(** The dictionaries [register_student] returns, one constructor for each
    shape:
    - [RegisterError]: success false and the error (a check on the inputs
      that failed, the identifier already taken, or an exception);
    - [RegisterInsufficient]: success false, the error with the count, and
      the failed images;
    - [Registered]: success true and the summary of the registration. *)
Inductive register_result : Type :=
| RegisterError (error : string)
| RegisterInsufficient (error : string) (failed_images : list failed_image)
| Registered (student_id name : string) (db_id : ObjectId)
    (total_images successful_embeddings : nat)
    (failed_images : list failed_image) (message : string).

(** The dictionaries [verify_face] returns:
    - [VerifyNoStudents]: success true, matched false and, under the key
      error, the notice that no student is registered;
    - [VerifyMatched]: success true, matched true, the student, the
      confidence, the distance and the five closest;
    - [VerifyNotMatched]: success true, matched false, the best match (or
      [None]), the confidence, the distance and the five closest;
    - [VerifyError]: success false and the error. *)
Inductive verify_result : Type :=
| VerifyNoStudents
| VerifyMatched (student : candidate) (confidence distance : float)
    (all_matches : list candidate)
| VerifyNotMatched (best_match : option candidate) (confidence distance : float)
    (all_matches : list candidate)
| VerifyError (error : string).

(** The dictionaries [mark_attendance] returns:
    - [AttendanceMarked]: success true, attendance marked, the handle of the
      record, the student and the confidence;
    - [AttendanceNotMarked]: success true, attendance not marked, and what
      the verification carries under best match, confidence and matches;
    - [AttendanceError]: success false and the error (a failed verification
      is returned as it is). *)
Inductive attendance_result : Type :=
| AttendanceMarked (attendance_id : ObjectId) (student_id name : string)
    (confidence : float)
| AttendanceNotMarked (best_match : option candidate) (confidence : option float)
    (all_matches : list candidate)
| AttendanceError (error : string).

(** The dictionary the endpoint [improve_recognition] returns. *)
Record improve_result : Type := {
  ir_message : string;
  ir_added_embeddings : nat;
  ir_failed_images : list failed_image
}.

(** [sorted(all_distances, key=lambda x: x['distance'])]: a stable sort that
    compares with [<] only. (With a NaN among the keys [<] is no order and
    the list Python returns depends on its merge strategy: the insertion
    sort is Python's sort on keys that are numbers only. The properties
    below look at the order of the ranking under that condition only;
    without it they speak of its members and of its length.) *)
Fixpoint insert_sorted (c : candidate) (l : list candidate) : list candidate :=
  match l with
  | [] => [c]
  | x :: l' =>
      if (c_distance x <? c_distance c)%float then x :: insert_sorted c l'
      else c :: x :: l'
  end.

Definition sorted_by_distance (l : list candidate) : list candidate :=
  fold_right insert_sorted [] l.

(** The inner loop of [verify_face]: the distances to one student's stored
    embeddings, appended in order. *)
Fixpoint student_distances_loop (input_embedding : ndarray)
    (stored : list ndarray) (student_distances : list float) : res (list float) :=
  match stored with
  | [] => Ok student_distances
  | stored_embedding :: rest =>
      match cosine_distance input_embedding stored_embedding with
      | Raise e => Raise e
      | Ok distance =>
          student_distances_loop input_embedding rest (student_distances ++ [distance])
      end
  end.

(** One student's [min_student_distance]. *)
Definition min_student_distance (input_embedding : ndarray)
    (s : student_embeddings) : res float :=
  match student_distances_loop input_embedding (se_embeddings s) [] with
  | Raise e => Raise e
  | Ok student_distances => py_min student_distances
  end.

Definition candidate_of (s : student_embeddings) (d : float) : candidate :=
  {| c_student_id := se_student_id s; c_name := se_name s; c_distance := d |}.

(** The outer loop of [verify_face] over [all_students], from the current
    [best_match], [best_distance] and [all_distances]. *)
Fixpoint compare_students (input_embedding : ndarray)
    (all_students : list student_embeddings)
    (best_match : option candidate) (best_distance : float)
    (all_distances : list candidate)
    : res (option candidate * float * list candidate) :=
  match all_students with
  | [] => Ok (best_match, best_distance, all_distances)
  | s :: rest =>
      match min_student_distance input_embedding s with
      | Raise e => Raise e
      | Ok d =>
          let all_distances' := all_distances ++ [candidate_of s d] in
          if (d <? best_distance)%float
          then compare_students input_embedding rest
                 (Some (candidate_of s d)) d all_distances'
          else compare_students input_embedding rest
                 best_match best_distance all_distances'
      end
  end.

Section Service.

(** [os.path.exists] *)
Variable path_exists : string -> bool.

(** [DeepFace.represent(img_path, model_name, detector_backend,
    enforce_detection=True)]: the embeddings of the faces found, or an
    exception. *)
Variable DeepFace_represent : string -> string -> string -> res (list ndarray).

Variable self : FaceService.

Definition generate_embedding (image_path : string) : res ndarray :=
  if negb (path_exists image_path)
  then Raise (FileNotFoundError ("Image not found: " ++ image_path)%string)
  else
    match DeepFace_represent image_path (model_name self) (detector_backend self) with
    | Raise e => Raise e
    | Ok (embedding :: _) => Ok embedding
    | Ok [] => Raise (Exception "No face detected in the image")
    end.

(** The loop of [register_student] over [image_paths] (the endpoint
    [improve_recognition] runs the same statements over [temp_paths]). *)
Fixpoint process_images (image_paths : list string)
    (successful_embeddings : list ndarray) (failed_images : list failed_image)
    : list ndarray * list failed_image :=
  match image_paths with
  | [] => (successful_embeddings, failed_images)
  | image_path :: rest =>
      match generate_embedding image_path with
      | Ok embedding =>
          process_images rest (successful_embeddings ++ [embedding]) failed_images
      | Raise e =>
          process_images rest successful_embeddings
            (failed_images ++ [{| fi_path := image_path; fi_error := str_exn e |}])
      end
  end.

Definition register_student (name student_id : string) (image_paths : list string)
    : M register_result :=
  try_except
    (if String.eqb name "" || String.eqb student_id ""
     then ret (RegisterError "Name and student ID are required")
     else
       match image_paths with
       | [] => ret (RegisterError "At least one image is required")
       | _ :: _ =>
           existing_student <- get_student_by_id student_id ;;
           match existing_student with
           | Some _ =>
               ret (RegisterError ("Student ID " ++ student_id ++ " already exists")%string)
           | None =>
               let '(successful_embeddings, failed_images) :=
                 process_images image_paths [] [] in
               if Nat.ltb (length successful_embeddings) 3
               then ret (RegisterInsufficient
                           ("Only " ++ str_nat (length successful_embeddings)
                            ++ " images processed successfully. Need at least 3.")%string
                           failed_images)
               else
                 student_db_id <-
                   add_student name student_id successful_embeddings image_paths ;;
                 ret (Registered student_id name student_db_id
                        (length image_paths) (length successful_embeddings)
                        failed_images
                        ("Student registered with "
                         ++ str_nat (length successful_embeddings)
                         ++ " face embeddings")%string)
           end
       end)
    (fun e => ret (RegisterError (str_exn e))).

Definition verify_face (image_path : string) : M verify_result :=
  try_except
    (input_embedding <- lift (generate_embedding image_path) ;;
     all_students <- get_all_embeddings ;;
     match all_students with
     | [] => ret VerifyNoStudents
     | _ :: _ =>
         r <- lift (compare_students input_embedding all_students
                      None infinity []) ;;
         let '(best_match, best_distance, all_distances) := r in
         let confidence := (1 - best_distance)%float in
         match best_match with
         | Some student =>
             if (best_distance <=? confidence_threshold self)%float
             then ret (VerifyMatched student confidence best_distance
                         (firstn 5 (sorted_by_distance all_distances)))
             else ret (VerifyNotMatched best_match confidence best_distance
                         (firstn 5 (sorted_by_distance all_distances)))
         | None =>
             ret (VerifyNotMatched best_match confidence best_distance
                    (firstn 5 (sorted_by_distance all_distances)))
         end
     end)
    (fun e => ret (VerifyError (str_exn e))).

Definition mark_attendance (image_path : string) (timestamp : option string)
    : M attendance_result :=
  try_except
    (verification_result <- verify_face image_path ;;
     match verification_result with
     | VerifyError error => ret (AttendanceError error)
     | VerifyMatched student confidence _ _ =>
         attendance_id <-
           record_attendance (c_student_id student) timestamp (Some image_path) ;;
         ret (AttendanceMarked attendance_id (c_student_id student)
                (c_name student) confidence)
     | VerifyNotMatched best_match confidence _ all_matches =>
         ret (AttendanceNotMarked best_match (Some confidence) all_matches)
     | VerifyNoStudents => ret (AttendanceNotMarked None None [])
     end)
    (fun e => ret (AttendanceError (str_exn e))).

(** The endpoint [improve_recognition] of [app.py], from the temporary files
    the uploads were saved to. An [HTTPException] leaves the handler as it
    is; any other exception leaves it as status 500. *)
Definition improve_recognition (student_id : string) (temp_paths : list string)
    : M improve_result :=
  try_except
    (let '(new_embeddings, failed_images) := process_images temp_paths [] [] in
     match new_embeddings with
     | _ :: _ =>
         success <- update_student_embeddings student_id new_embeddings temp_paths ;;
         if success : bool
         then ret {| ir_message :=
                       ("Added " ++ str_nat (length new_embeddings)
                        ++ " new embeddings for student " ++ student_id)%string;
                     ir_added_embeddings := length new_embeddings;
                     ir_failed_images := failed_images |}
         else raise (HTTPException 404 "Student not found")
     | [] =>
         raise (HTTPException 400 "No valid embeddings generated from provided images")
     end)
    (fun e =>
       match e with
       | HTTPException _ _ => raise e
       | _ => raise (HTTPException 500
                       ("Recognition improvement failed: " ++ str_exn e)%string)
       end).

(** What the loop collects, said image by image: the embeddings of the
    images that gave one, and the failures of the others, each in the order
    of [image_paths]. *)
Definition extracted (image_paths : list string) : list ndarray :=
  flat_map (fun image_path =>
              match generate_embedding image_path with
              | Ok embedding => [embedding]
              | Raise _ => []
              end) image_paths.

Definition failures (image_paths : list string) : list failed_image :=
  flat_map (fun image_path =>
              match generate_embedding image_path with
              | Ok _ => []
              | Raise e => [{| fi_path := image_path; fi_error := str_exn e |}]
              end) image_paths.

End Service.

(** ** Reading the results and the store *)

(** The key ["success"] of a result of [verify_face]. *)
Definition verify_success (r : verify_result) : bool :=
  match r with
  | VerifyError _ => false
  | _ => true
  end.

(** The key ["matched"]; the failure dictionary has none. *)
Definition verify_matched (r : verify_result) : option bool :=
  match r with
  | VerifyNoStudents => Some false
  | VerifyMatched _ _ _ _ => Some true
  | VerifyNotMatched _ _ _ _ => Some false
  | VerifyError _ => None
  end.

(** The key ["error"]. *)
Definition verify_error (r : verify_result) : option string :=
  match r with
  | VerifyNoStudents => Some "No students registered in the system"
  | VerifyError error => Some error
  | _ => None
  end.

(** The identity a result carries: ["student"] of a match, ["best_match"]
    otherwise. *)
Definition verify_best_match (r : verify_result) : option candidate :=
  match r with
  | VerifyMatched student _ _ _ => Some student
  | VerifyNotMatched best_match _ _ _ => best_match
  | _ => None
  end.

(** The key ["distance"]. *)
Definition verify_distance (r : verify_result) : option float :=
  match r with
  | VerifyMatched _ _ distance _ | VerifyNotMatched _ _ distance _ => Some distance
  | _ => None
  end.

(** The key ["confidence"]. *)
Definition verify_confidence (r : verify_result) : option float :=
  match r with
  | VerifyMatched _ confidence _ _ | VerifyNotMatched _ confidence _ _ => Some confidence
  | _ => None
  end.

(** The key ["success"] of a result of [mark_attendance]. *)
Definition attendance_success (r : attendance_result) : bool :=
  match r with
  | AttendanceError _ => false
  | _ => true
  end.

(** The key ["attendance_marked"]; the failure dictionary has none. *)
Definition attendance_marked (r : attendance_result) : option bool :=
  match r with
  | AttendanceMarked _ _ _ _ => Some true
  | AttendanceNotMarked _ _ _ => Some false
  | AttendanceError _ => None
  end.

(** The embeddings stored for an identity, active or not, as
    [get_student_by_id] reads them. *)
Definition stored_embeddings (db : MongoDB) (student_id : string)
    : option (list ndarray) :=
  match find (has_student_id student_id) (students db) with
  | Some d => Some (st_embeddings (_deserialize_student d))
  | None => None
  end.

(** The active identities with their embeddings, in the order of the
    collection: what [get_all_embeddings] reads when the driver answers. *)
Definition active_identities (db : MongoDB) : list student_embeddings :=
  map (fun d =>
         {| se_student_id := st_student_id (_deserialize_student d);
            se_name := st_name (_deserialize_student d);
            se_embeddings := st_embeddings (_deserialize_student d) |})
      (filter doc_is_active (students db)).

(** The identifier is taken, by an active identity or a soft-deleted one. *)
Definition identity_exists (db : MongoDB) (student_id : string) : bool :=
  existsb (has_student_id student_id) (students db).

(** The next [n] calls of the driver go through. *)
Fixpoint calm (n : nat) (fs : list (option string)) : bool :=
  match n, fs with
  | O, _ => true
  | S _, [] => true
  | S n', None :: fs' => calm n' fs'
  | S _, Some _ :: _ => false
  end.

(** A student the probe can be measured against: at least one stored
    embedding, and every distance to one is a number below [+inf]. *)
Definition measurable (input_embedding : ndarray) (s : student_embeddings) : bool :=
  match se_embeddings s with
  | [] => false
  | _ :: _ =>
      forallb (fun e => match cosine_distance input_embedding e with
                        | Ok d => proper d
                        | Raise _ => false
                        end) (se_embeddings s)
  end.

(** The aggregate distance as the specification words it: [d] is the
    distance from the probe to one of the stored embeddings of [s], and no
    stored embedding of [s] is closer. *)
Definition aggregate_distance (input_embedding : ndarray) (s : student_embeddings)
    (d : float) : Prop :=
  (exists e, In e (se_embeddings s) /\ cosine_distance input_embedding e = Ok d) /\
  (forall e, In e (se_embeddings s) ->
     exists d', cosine_distance input_embedding e = Ok d' /\ (d <=? d')%float = true).

(** [s], at aggregate distance [d], is the first of [all_students] among
    those of globally minimal aggregate distance: strictly closer than every
    student before it, at least as close as every student after it. *)
Definition first_global_minimum (input_embedding : ndarray)
    (all_students : list student_embeddings) (s : student_embeddings) (d : float)
    : Prop :=
  exists before after,
    all_students = before ++ s :: after /\
    aggregate_distance input_embedding s d /\
    (forall s', In s' before ->
       exists d', aggregate_distance input_embedding s' d' /\ (d <? d')%float = true) /\
    (forall s', In s' after ->
       exists d', aggregate_distance input_embedding s' d' /\ (d <=? d')%float = true).

(** A result that is no finite number: NaN, [+inf] or [-inf]. *)
Definition degenerate (d : float) : bool := negb (is_finite d).

(** ** A small deployment, used by the worked examples *)

Module Campus.

(** Every file is there but ["missing.jpg"]. *)
Definition path_exists (image_path : string) : bool :=
  negb (String.eqb image_path "missing.jpg").

(** The faces the model finds in each file, as 4-dimensional embeddings. *)
Definition DeepFace_represent (img_path model detector : string)
    : res (list ndarray) :=
  if String.eqb img_path "probe.jpg" then Ok [[1; 0; 0; 0]%float]
  else if String.eqb img_path "a1.jpg" then Ok [[2; 4; 2; 1]%float]
  else if String.eqb img_path "a2.jpg" then Ok [[1; 1; 0; 0]%float]
  else if String.eqb img_path "a3.jpg" then Ok [[1; 0; 0; 1]%float]
  else if String.eqb img_path "b1.jpg" then Ok [[3; 0; 4; 0]%float]
  else if String.eqb img_path "b2.jpg" then Ok [[4; 0; 3; 0]%float]
  else if String.eqb img_path "b3.jpg" then Ok [[0; 1; 0; 0]%float]
  else if String.eqb img_path "d2.jpg" then Ok [[0; 0; 1; 0]%float]
  else if String.eqb img_path "blank.jpg" then Ok [[0; 0; 0; 0]%float]
  else if String.eqb img_path "wall.jpg" then Ok []
  else Raise (ValueError "Face could not be detected").

Definition service : FaceService := FaceService_init.

Definition probe : ndarray := [1; 0; 0; 0]%float.

Definition empty_db : MongoDB :=
  {| students := []; attendance := []; next_oid := 0; faults := [] |}.

Definition register := register_student path_exists DeepFace_represent service.
Definition verify := verify_face path_exists DeepFace_represent service.
Definition mark := mark_attendance path_exists DeepFace_represent service.
Definition improve := improve_recognition path_exists DeepFace_represent service.

(** Alice alone. *)
Definition db_alice : MongoDB :=
  snd (register "Alice" "s1" ["a1.jpg"; "a2.jpg"; "a3.jpg"] empty_db).

(** Alice, then Bob. *)
Definition db_alice_bob : MongoDB :=
  snd (register "Bob" "s2" ["b1.jpg"; "blurred.jpg"; "b2.jpg"; "b3.jpg"] db_alice).

(** Alice, Bob soft-deleted, then Carol with the embeddings of Alice. *)
Definition db_alice_carol : MongoDB :=
  snd (register "Carol" "s3" ["a1.jpg"; "a2.jpg"; "a3.jpg"]
         (snd (delete_student "s2" db_alice_bob))).

(** Dave alone; his closest reference is at distance 0.6 of the probe. *)
Definition db_dave : MongoDB :=
  snd (register "Dave" "s4" ["a1.jpg"; "b3.jpg"; "d2.jpg"] empty_db).

(** The candidate Dave makes for the probe. *)
Definition dave : candidate :=
  {| c_student_id := "s4"; c_name := "Dave";
     c_distance := 0x1.3333333333333p-1%float |}.

(** Eve, written to the store with no embedding at all. *)
Definition db_eve : MongoDB := snd (add_student "Eve" "s5" [] [] db_alice).

(** Alice and Bob, with a store that answers the next call and fails the
    one after. *)
Definition db_failing : MongoDB :=
  {| students := students db_alice_bob;
     attendance := attendance db_alice_bob;
     next_oid := next_oid db_alice_bob;
     faults := [None; Some "connection reset by peer"] |}.

(** Alice, whose first reference is the blank image and whose second is
    the image of the probe, then Bob. *)
Definition db_alice_blank : MongoDB :=
  snd (register "Bob" "s2" ["b1.jpg"; "b2.jpg"; "b3.jpg"]
         (snd (register "Alice" "s1" ["blank.jpg"; "probe.jpg"; "a1.jpg"] empty_db))).

End Campus.

(** * The rest of the code *)

From Stdlib Require Uint63.

(** ** [database.py]: the remaining queries *)

Definition get_all_students : M (list student) :=
  docs <- students_find_active ;;
  ret (map _deserialize_student docs).

(** The filter [{"date": date}]. *)
Definition has_date (date : string) (r : attendance_doc) : bool :=
  match att_date r with
  | Some d => String.eqb d date
  | None => false
  end.

(** [self.attendance.find({"date": date})], read to the end. *)
Definition attendance_find_date (date : string) : M (list attendance_doc) :=
  _ <- driver_call ;;
  fun db => (Ok (filter (has_date date) (attendance db)), db).

(** An entry of [get_attendance_by_date]. *)
Record attendance_record : Type := {
  ar_id : ObjectId;
  ar_student_id : string;
  ar_check_in : option string;
  ar_image_path : option string
}.

Definition get_attendance_by_date (date : string) : M (list attendance_record) :=
  records <- attendance_find_date date ;;
  ret (map (fun record =>
              {| ar_id := att_id record;
                 ar_student_id := att_student_id record;
                 ar_check_in := att_check_in record;
                 ar_image_path := att_image_path record |}) records).

(** ** [face_service.py]: the statistics *)

(** A Python number: the average is an [int] when there is no student and a
    [float] otherwise. *)
Inductive py_number : Type :=
| PyInt (n : Z)
| PyFloat (f : float).

(** [float(n)] of a count (exact below 2^53; the conversion is that of a
    63-bit integer). *)
Definition float_of_count (n : nat) : float :=
  PrimFloat.of_uint63 (Uint63.of_Z (Z.of_nat n)).

(** The dictionaries [get_system_stats] returns. *)
Inductive stats_result : Type :=
| Stats (total_students total_embeddings : nat) (model : string)
    (threshold : float) (average_embeddings_per_student : py_number)
| StatsError (error : string).

(** [sum(student['image_count'] for student in all_students)] *)
Definition sum_image_count (all_students : list student) : nat :=
  fold_left (fun total s => total + st_image_count s) all_students 0.

Definition get_system_stats (self : FaceService) : M stats_result :=
  try_except
    (all_students <- get_all_students ;;
     let total_students := length all_students in
     let total_embeddings := sum_image_count all_students in
     ret (Stats total_students total_embeddings (model_name self)
            (confidence_threshold self)
            (if Nat.ltb 0 total_students
             then PyFloat (float_of_count total_embeddings
                           / float_of_count total_students)%float
             else PyInt 0)))
    (fun e => ret (StatsError (str_exn e))).

(** The key ["success"] of a result of [register_student]. *)
Definition register_success (r : register_result) : bool :=
  match r with
  | Registered _ _ _ _ _ _ _ => true
  | _ => false
  end.

(** ** Python built-ins on strings (ASCII) *)

(** [s.replace(old, new)] for one-character [old] and [new]. *)
Fixpoint replace_char (old new : ascii) (s : string) : string :=
  match s with
  | EmptyString => EmptyString
  | String c s' =>
      String (if Ascii.eqb c old then new else c) (replace_char old new s')
  end.

(** [c.lower()] on an ASCII character; the other bytes are left alone. *)
Definition lower_char (c : ascii) : ascii :=
  let n := nat_of_ascii c in
  if Nat.leb 65 n && Nat.leb n 90 then ascii_of_nat (n + 32) else c.

(** [s.lower()] on an ASCII string ([str.lower] also lowers the letters
    outside ASCII, which this leaves alone). *)
Fixpoint lower (s : string) : string :=
  match s with
  | EmptyString => EmptyString
  | String c s' => String (lower_char c) (lower s')
  end.

(** ** [app.py]: the endpoints *)

Module app.

(** The content of the 201 response of [/register]. *)
Record register_response : Type := {
  rr_message : string;
  rr_student_id : string;
  rr_name : string;
  rr_total_images : nat;
  rr_successful_embeddings : nat;
  rr_failed_images : list failed_image
}.

(** The dictionaries [/attendance] returns. *)
Inductive attendance_response : Type :=
| Marked (student_id name : string) (confidence : float)
    (attendance_id : ObjectId) (timestamp : string) (message : string)
| NotMarked (best_match : option candidate) (confidence : float)
    (all_matches : list candidate) (message : string).

(** An entry of the list [/students] returns. *)
Record student_summary : Type := {
  ss_id : ObjectId;
  ss_name : string;
  ss_student_id : string;
  ss_image_count : nat;
  ss_is_active : bool
}.

(** The dictionary [/students] returns. *)
Record students_response : Type := {
  sr_count : nat;
  sr_students : list student_summary
}.

(** [except HTTPException: raise], then
    [except Exception as e: raise HTTPException(500, prefix + str(e))]. *)
Definition reraise_as_500 {A} (prefix : string) (e : exn) : M A :=
  match e with
  | HTTPException _ _ => raise e
  | _ => raise (HTTPException 500 (prefix ++ str_exn e)%string)
  end.

Local Abbreviation service_register_student := register_student.
Local Abbreviation service_mark_attendance := mark_attendance.
Local Abbreviation db_get_all_students := get_all_students.

Section Endpoints.

Variable path_exists : string -> bool.
Variable DeepFace_represent : string -> string -> string -> res (list ndarray).

(** The module's [face_service]. *)
Variable face_service : FaceService.

(** [datetime.now().isoformat()] *)
Variable now : string.

(** [round(x, 4)] on a float64. *)
Variable round4 : float -> float.

(** [POST /register]. [temp_paths] are the temporary files the uploaded
    [images] are saved to, one for each, in order; the checks on [images]
    come before any is saved. *)
Definition register_student (name student_id : string) (temp_paths : list string)
    : M register_response :=
  try_except
    (match temp_paths with
     | [] => raise (HTTPException 400 "At least one image is required")
     | _ :: _ =>
         if Nat.ltb (length temp_paths) 3
         then raise (HTTPException 400
                       "At least 3 images are recommended for reliable recognition")
         else
           result <-
             service_register_student path_exists DeepFace_represent face_service
               name student_id temp_paths ;;
           match result with
           | Registered student_id' name' _ total_images successful_embeddings
               failed_images message =>
               ret {| rr_message := message;
                      rr_student_id := student_id';
                      rr_name := name';
                      rr_total_images := total_images;
                      rr_successful_embeddings := successful_embeddings;
                      rr_failed_images := failed_images |}
           | RegisterError error | RegisterInsufficient error _ =>
               raise (HTTPException 400 error)
           end
     end)
    (reraise_as_500 "Registration failed: ").

(** [POST /attendance], from the content type of the upload and the
    temporary file it is saved to. An upload with no content type fails on
    [startswith] (an [AttributeError]), and a result whose confidence is
    [None] fails on [round] (a [TypeError]); only their messages are used. *)
Definition mark_attendance (content_type : option string) (temp_path : string)
    (timestamp : option string) : M attendance_response :=
  try_except
    (match content_type with
     | None => raise (Exception "'NoneType' object has no attribute 'startswith'")
     | Some ct =>
         if negb (String.prefix "image/" ct)
         then raise (HTTPException 400 "Uploaded file must be an image")
         else
           let timestamp' :=
             match timestamp with
             | Some (String c t) => String c t
             | _ => now
             end in
           result <-
             service_mark_attendance path_exists DeepFace_represent face_service
               temp_path (Some timestamp') ;;
           match result with
           | AttendanceMarked attendance_id student_id name confidence =>
               ret (Marked student_id name (round4 confidence) attendance_id
                      timestamp' ("Attendance marked for " ++ name)%string)
           | AttendanceNotMarked best_match (Some confidence) all_matches =>
               ret (NotMarked best_match (round4 confidence) all_matches
                      "No matching student found with sufficient confidence")
           | AttendanceNotMarked _ None _ =>
               raise (Exception "type NoneType doesn't define __round__ method")
           | AttendanceError error => raise (HTTPException 400 error)
           end
     end)
    (reraise_as_500 "Attendance marking failed: ").

(** [GET /students] *)
Definition get_all_students : M students_response :=
  try_except
    (students <- db_get_all_students ;;
     ret {| sr_count := length students;
            sr_students :=
              map (fun s => {| ss_id := st_id s;
                               ss_name := st_name s;
                               ss_student_id := st_student_id s;
                               ss_image_count := st_image_count s;
                               ss_is_active := st_is_active s |}) students |})
    (fun e => raise (HTTPException 500 ("Failed to fetch students: " ++ str_exn e)%string)).

End Endpoints.

End app.

(** ** [initial_setup.py]: the one-time loader *)

Module initial_setup.

(** An entry of [discover_students]. *)
Record student_data : Type := {
  sd_name : string;
  sd_student_id : string;
  sd_folder_path : string;
  sd_image_paths : list string
}.

Definition students_dir : string := "students".

Definition image_extensions : list string :=
  ["*.jpg"; "*.jpeg"; "*.png"; "*.JPG"; "*.JPEG"; "*.PNG"].

(** [folder.replace('_', ' ')] *)
Definition student_name (folder : string) : string :=
  replace_char "_"%char " "%char folder.

(** [folder.lower().replace(' ', '_')] *)
Definition student_id (folder : string) : string :=
  replace_char " "%char "_"%char (lower folder).

Local Abbreviation service_register_student := register_student.

Section Setup.

(** [os.path.exists(self.students_dir)] *)
Variable students_dir_exists : bool.

(** The subdirectories [os.listdir] and [os.path.isdir] leave. *)
Variable student_folders : list string.

Variable os_path_join : string -> string -> string.

(** [glob.glob(pattern)] *)
Variable glob_glob : string -> list string.

Variable path_exists : string -> bool.
Variable DeepFace_represent : string -> string -> string -> res (list ndarray).

(** [self.face_service] *)
Variable face_service : FaceService.

(** The paths of one folder: the matches of each extension, in the order of
    [image_extensions]. *)
Definition folder_images (folder_path : string) : list string :=
  flat_map (fun extension => glob_glob (os_path_join folder_path extension))
    image_extensions.

(** The loop of [discover_students] over the folders. *)
Fixpoint discover_loop (folders : list string) (students_data : list student_data)
    : list student_data :=
  match folders with
  | [] => students_data
  | folder :: rest =>
      let folder_path := os_path_join students_dir folder in
      match folder_images folder_path with
      | [] => discover_loop rest students_data
      | image_paths =>
          discover_loop rest
            (students_data ++
             [{| sd_name := student_name folder;
                 sd_student_id := student_id folder;
                 sd_folder_path := folder_path;
                 sd_image_paths := image_paths |}])
      end
  end.

Definition discover_students : list student_data :=
  if negb students_dir_exists then []
  else
    match student_folders with
    | [] => []
    | _ :: _ => discover_loop student_folders []
    end.

Definition register_student_batch (sd : student_data) : M register_result :=
  try_except
    (service_register_student path_exists DeepFace_represent face_service
       (sd_name sd) (sd_student_id sd) (sd_image_paths sd))
    (fun e => ret (RegisterError (str_exn e))).

(** The loop of [run_initial_setup]: the counters and the results. *)
Fixpoint setup_loop (students_data : list student_data)
    (total_success total_failed : nat) (results : list register_result)
    : M (nat * nat * list register_result) :=
  match students_data with
  | [] => ret (total_success, total_failed, results)
  | sd :: rest =>
      result <- register_student_batch sd ;;
      if register_success result
      then setup_loop rest (total_success + 1) total_failed (results ++ [result])
      else setup_loop rest total_success (total_failed + 1) (results ++ [result])
  end.

(** [run_initial_setup]: [None] when there is nothing to register, the
    results otherwise; the counters and the statistics are only logged. *)
Definition run_initial_setup : M (option (list register_result)) :=
  match discover_students with
  | [] => ret None
  | students_data =>
      r <- setup_loop students_data 0 0 [] ;;
      let '(total_success, total_failed, results) := r in
      stats <- get_system_stats face_service ;;
      ret (Some results)
  end.

End Setup.

End initial_setup.

(** ** The operations the callers run on the store *)

(** A call of [app.py], [cli.py] or [initial_setup.py] on the service or on
    the store, and a direct call of the two writers of [database.py]. *)
Inductive call : Type :=
| CallRegister (name student_id : string) (image_paths : list string)
| CallVerify (image_path : string)
| CallMarkAttendance (image_path : string) (timestamp : option string)
| CallImprove (student_id : string) (temp_paths : list string)
| CallDelete (student_id : string)
| CallStats
| CallGetStudent (student_id : string)
| CallAttendanceByDate (date : string)
| CallAddStudent (name student_id : string) (embeddings : list ndarray)
    (image_paths : list string)
| CallUpdateEmbeddings (student_id : string) (new_embeddings : list ndarray)
    (new_image_paths : list string).

(** The calls the callers make: they write students through
    [register_student] and [update_student_embeddings] only. *)
Definition caller_call (c : call) : bool :=
  match c with
  | CallAddStudent _ _ _ _ => false
  | _ => true
  end.

Section Calls.

Variable path_exists : string -> bool.
Variable DeepFace_represent : string -> string -> string -> res (list ndarray).
Variable self : FaceService.

(** The store a call leaves. *)
Definition run_call (db : MongoDB) (c : call) : MongoDB :=
  match c with
  | CallRegister name student_id image_paths =>
      snd (register_student path_exists DeepFace_represent self
             name student_id image_paths db)
  | CallVerify image_path =>
      snd (verify_face path_exists DeepFace_represent self image_path db)
  | CallMarkAttendance image_path timestamp =>
      snd (mark_attendance path_exists DeepFace_represent self image_path timestamp db)
  | CallImprove student_id temp_paths =>
      snd (improve_recognition path_exists DeepFace_represent self
             student_id temp_paths db)
  | CallDelete student_id => snd (delete_student student_id db)
  | CallStats => snd (get_system_stats self db)
  | CallGetStudent student_id => snd (get_student_by_id student_id db)
  | CallAttendanceByDate date => snd (get_attendance_by_date date db)
  | CallAddStudent name student_id embeddings image_paths =>
      snd (add_student name student_id embeddings image_paths db)
  | CallUpdateEmbeddings student_id new_embeddings new_image_paths =>
      snd (update_student_embeddings student_id new_embeddings new_image_paths db)
  end.

(** The store a sequence of calls leaves. *)
Definition run_calls (db : MongoDB) (calls : list call) : MongoDB :=
  fold_left run_call calls db.

End Calls.

(** ** Invariants of the store *)

(** No two identities, active or not, share a [student_id]. *)
Definition unique_ids (db : MongoDB) : Prop :=
  NoDup (map doc_student_id (students db)).

(** [image_count] is the number of stored embeddings. *)
Definition counts_consistent (db : MongoDB) : Prop :=
  forall d, In d (students db) ->
    doc_image_count d = length (st_embeddings (_deserialize_student d)).

(** Every identity holds at least 3 embeddings. *)
Definition three_references (db : MongoDB) : Prop :=
  forall d, In d (students db) ->
    3 <= length (st_embeddings (_deserialize_student d)).

(** How a call may change the students: not at all; by one new document,
    under an identifier that was free, with a consistent count and at least
    [k] embeddings; or by rewriting the first document of an identifier,
    keeping its identifier, a consistent count, and all the embeddings it
    had. *)
Inductive students_change (k : nat) (l : list student_doc)
    : list student_doc -> Prop :=
| change_none : students_change k l l
| change_insert (d : student_doc) :
    existsb (has_student_id (doc_student_id d)) l = false ->
    doc_image_count d = length (st_embeddings (_deserialize_student d)) ->
    k <= length (st_embeddings (_deserialize_student d)) ->
    students_change k l (l ++ [d])
| change_rewrite (student_id : string) (cur : student_doc)
    (f : student_doc -> student_doc) :
    find (has_student_id student_id) l = Some cur ->
    (forall d, doc_student_id (f d) = doc_student_id d) ->
    (doc_image_count cur = length (st_embeddings (_deserialize_student cur)) ->
     doc_image_count (f cur) = length (st_embeddings (_deserialize_student (f cur)))) ->
    length (st_embeddings (_deserialize_student cur))
      <= length (st_embeddings (_deserialize_student (f cur))) ->
    students_change k l (update_first (has_student_id student_id) f l).

(** ** Reading the results and the store, continued *)

(** The key ["all_matches"] of a result of [verify_face]. *)
Definition verify_all_matches (r : verify_result) : list candidate :=
  match r with
  | VerifyMatched _ _ _ all_matches | VerifyNotMatched _ _ _ all_matches => all_matches
  | _ => []
  end.

(** Each entry is at most as far as the next one. *)
Fixpoint ascending (l : list candidate) : bool :=
  match l with
  | a :: (b :: _) as rest => (c_distance a <=? c_distance b)%float && ascending rest
  | _ => true
  end.

(** The records of a date, in insertion order: what [get_attendance_by_date]
    reads when the driver answers. *)
Definition attendance_on (db : MongoDB) (date : string) : list attendance_record :=
  map (fun record =>
         {| ar_id := att_id record;
            ar_student_id := att_student_id record;
            ar_check_in := att_check_in record;
            ar_image_path := att_image_path record |})
      (filter (has_date date) (attendance db)).

(** The number of successes among the results of registrations. *)
Definition count_success (results : list register_result) : nat :=
  length (filter register_success results).

(** One turn of the outer loop of [verify_face] on the running best, once
    the distance of the student is known. *)
Definition best_step (best : option candidate * float) (c : candidate)
    : option candidate * float :=
  if (c_distance c <? snd best)%float then (Some c, c_distance c) else best.

(** [c] is the first of [l] among its closest candidates: strictly closer
    than every candidate before it, at least as close as every one after. *)
Definition closest_first (l : list candidate) (c : candidate) : Prop :=
  exists before after,
    l = before ++ c :: after /\
    (forall x, In x before -> (c_distance c <? c_distance x)%float = true) /\
    (forall x, In x after -> (c_distance c <=? c_distance x)%float = true).

(** The distance of the candidate is a number, not a NaN. *)
Definition number (c : candidate) : Prop := Prim2SF (c_distance c) <> S754_nan.

(** ** A deployment, for the examples *)

Module Deployment.

(** The clock of the examples. *)
Definition now : string := "2024-03-05T08:30:00.000000".

(** [round(x, 4)] on the confidences of the examples: they have one decimal,
    so rounding returns them as they are. *)
Definition round4 (x : float) : float := x.

Definition post_register :=
  app.register_student Campus.path_exists Campus.DeepFace_represent Campus.service.
Definition post_attendance :=
  app.mark_attendance Campus.path_exists Campus.DeepFace_represent Campus.service
    now round4.

(** A day of calls on the store of Alice: Bob registers, someone tries his
    identifier again, Alice is soft-deleted and then augmented, and probes
    are verified. *)
Definition day : list call :=
  [CallRegister "Bob" "s2" ["b1.jpg"; "blurred.jpg"; "b2.jpg"; "b3.jpg"];
   CallRegister "Rob" "s2" ["a1.jpg"; "a2.jpg"; "a3.jpg"];
   CallMarkAttendance "probe.jpg" (Some "2024-03-05T08:30:00");
   CallDelete "s1";
   CallImprove "s1" ["d2.jpg"; "wall.jpg"];
   CallVerify "probe.jpg";
   CallStats].

(** The same day, with direct writes to the store in between. *)
Definition day_with_direct_writes : list call :=
  day ++
  [CallAddStudent "Al" "s1" [] ["x.jpg"];
   CallAddStudent "Eve" "s5" [] [];
   CallUpdateEmbeddings "s5" [[0; 1; 0; 0]%float] ["e1.jpg"];
   CallDelete "s5"].

Definition run :=
  run_calls Campus.path_exists Campus.DeepFace_represent Campus.service.

(** Alice, and Mia written to the store with an embedding of dimension 2. *)
Definition db_mixed : MongoDB :=
  snd (add_student "Mia" "s6" [[1; 0]%float] ["m.jpg"] Campus.db_alice).

(** The folder of the loader: two students and a folder with no image. *)
Definition student_folders : list string := ["Alice Smith"; "notes"; "bob_JONES"].

Definition os_path_join (a b : string) : string := (a ++ "/" ++ b)%string.

Definition glob_glob (pattern : string) : list string :=
  if String.eqb pattern "students/Alice Smith/*.jpg"
  then ["students/Alice Smith/1.jpg"; "students/Alice Smith/2.jpg"]
  else if String.eqb pattern "students/Alice Smith/*.PNG"
  then ["students/Alice Smith/3.PNG"]
  else if String.eqb pattern "students/bob_JONES/*.jpeg"
  then ["students/bob_JONES/b.jpeg"]
  else [].

Definition discover_students : list initial_setup.student_data :=
  initial_setup.discover_students true student_folders os_path_join glob_glob.

End Deployment.
(** * Properties *)

(** ** Order facts on binary64 comparisons *)

Module FloatOrder.

Lemma SFcompare_refl f : f <> S754_nan -> SFcompare f f = Some Eq.
Proof.
  destruct f as [s|s| |s m e]; simpl; intros H; try congruence.
  - destruct s; reflexivity.
  - destruct s; rewrite Z.compare_refl;
      change (Pos.compare_cont Eq m m) with (Pos.compare m m);
      rewrite Pos.compare_refl; reflexivity.
Qed.

Lemma SFcompare_total f g :
  f <> S754_nan -> g <> S754_nan -> exists c, SFcompare f g = Some c.
Proof.
  destruct f, g; simpl; intros; try congruence; eauto.
Qed.

Ltac cmp_cases :=
  repeat match goal with
  | |- context [Z.compare ?a ?b] => destruct (Z.compare_spec a b); subst
  | |- context [Pos.compare_cont Eq ?a ?b] =>
      change (Pos.compare_cont Eq a b) with (Pos.compare a b);
      destruct (Pos.compare_spec a b); subst
  | H : context [Z.compare ?a ?b] |- _ => destruct (Z.compare_spec a b); subst
  | H : context [Pos.compare_cont Eq ?a ?b] |- _ =>
      change (Pos.compare_cont Eq a b) with (Pos.compare a b) in H;
      destruct (Pos.compare_spec a b); subst
  end.

Lemma SFcompare_antisym f g c :
  SFcompare f g = Some c -> SFcompare g f = Some (CompOpp c).
Proof.
  destruct f as [s|s| |s m e], g as [s'|s'| |s' m' e']; simpl;
    try destruct s; try destruct s'; simpl; intros H;
    try discriminate; try (injection H as <-; reflexivity).
  all: injection H as <-; f_equal.
  all: cmp_cases; simpl; try reflexivity; try lia.
Qed.

Lemma SFcompare_trans_lt f g h :
  SFcompare f g = Some Lt -> SFcompare g h = Some Lt -> SFcompare f h = Some Lt.
Proof.
  destruct f as [s|s| |s m e], g as [s'|s'| |s' m' e'], h as [s''|s''| |s'' m'' e''];
    simpl; try destruct s; try destruct s'; try destruct s''; simpl;
    intros H1 H2; try discriminate; try reflexivity.
  all: f_equal; injection H1 as H1; injection H2 as H2.
  all: cmp_cases; simpl in *; try reflexivity; try discriminate; try lia.
Qed.

Lemma SFcompare_eq_l f g h c :
  SFcompare f g = Some Eq -> SFcompare g h = Some c -> SFcompare f h = Some c.
Proof.
  destruct f as [s|s| |s m e], g as [s'|s'| |s' m' e'], h as [s''|s''| |s'' m'' e''];
    simpl; try destruct s; try destruct s'; try destruct s''; simpl;
    intros H1 H2; try discriminate; try assumption.
  all: injection H1 as H1; cmp_cases; simpl in *;
    try discriminate; try assumption; try lia.
Qed.

Lemma SFcompare_eq_r f g h c :
  SFcompare f g = Some c -> SFcompare g h = Some Eq -> SFcompare f h = Some c.
Proof.
  intros H1 H2.
  apply SFcompare_antisym in H1, H2. simpl in H2.
  pose proof (SFcompare_eq_l _ _ _ _ H2 H1) as H.
  apply SFcompare_antisym in H. now rewrite CompOpp_involutive in H.
Qed.

Definition fcmp (x y : float) : option comparison :=
  SFcompare (Prim2SF x) (Prim2SF y).

Lemma ltb_fcmp x y : (x <? y)%float = true <-> fcmp x y = Some Lt.
Proof.
  rewrite FloatAxioms.ltb_spec. unfold SFltb, fcmp.
  destruct (SFcompare _ _) as [[]|]; split; congruence.
Qed.

Lemma leb_fcmp x y :
  (x <=? y)%float = true <-> fcmp x y = Some Lt \/ fcmp x y = Some Eq.
Proof.
  rewrite FloatAxioms.leb_spec. unfold SFleb, fcmp.
  destruct (SFcompare _ _) as [[]|]; split; intros H; try congruence; auto;
    destruct H; congruence.
Qed.

Lemma eqb_fcmp x y : (x =? y)%float = true <-> fcmp x y = Some Eq.
Proof.
  rewrite FloatAxioms.eqb_spec. unfold SFeqb, fcmp.
  destruct (SFcompare _ _) as [[]|]; split; congruence.
Qed.

Lemma fcmp_nan_l x y c : fcmp x y = Some c -> Prim2SF x <> S754_nan.
Proof. unfold fcmp. intros H E. rewrite E in H. discriminate. Qed.

Lemma fcmp_nan_r x y c : fcmp x y = Some c -> Prim2SF y <> S754_nan.
Proof.
  unfold fcmp. intros H E. rewrite E in H.
  destruct (Prim2SF x); discriminate.
Qed.

Lemma proper_not_nan d : proper d = true -> Prim2SF d <> S754_nan.
Proof. unfold proper. rewrite ltb_fcmp. apply fcmp_nan_l. Qed.

Lemma ltb_leb x y : (x <? y)%float = true -> (x <=? y)%float = true.
Proof. rewrite ltb_fcmp, leb_fcmp. auto. Qed.

Lemma eqb_leb x y : (x =? y)%float = true -> (x <=? y)%float = true.
Proof. rewrite eqb_fcmp, leb_fcmp. auto. Qed.

Lemma leb_refl x : Prim2SF x <> S754_nan -> (x <=? x)%float = true.
Proof. intros H. rewrite leb_fcmp. right. now apply SFcompare_refl. Qed.

Lemma ltb_irrefl x : (x <? x)%float = false.
Proof.
  destruct (x <? x)%float eqn:E; [|reflexivity].
  apply ltb_fcmp in E. pose proof (SFcompare_antisym _ _ _ E) as E'.
  unfold fcmp in E. simpl in E'. congruence.
Qed.

(** On numbers (no NaN), [<] that fails means [>=]. *)
Lemma ltb_false_leb x y :
  Prim2SF x <> S754_nan -> Prim2SF y <> S754_nan ->
  (x <? y)%float = false -> (y <=? x)%float = true.
Proof.
  intros Hx Hy H. rewrite leb_fcmp.
  destruct (SFcompare_total _ _ Hy Hx) as [c Hc]. unfold fcmp. rewrite Hc.
  destruct c; auto.
  apply SFcompare_antisym in Hc. simpl in Hc.
  assert ((x <? y)%float = true) by now apply ltb_fcmp. congruence.
Qed.

Lemma ltb_trans x y z :
  (x <? y)%float = true -> (y <? z)%float = true -> (x <? z)%float = true.
Proof. rewrite !ltb_fcmp. apply SFcompare_trans_lt. Qed.

Lemma ltb_leb_trans x y z :
  (x <? y)%float = true -> (y <=? z)%float = true -> (x <? z)%float = true.
Proof.
  rewrite !ltb_fcmp, leb_fcmp. intros H [H'|H'].
  - eapply SFcompare_trans_lt; eauto.
  - eapply SFcompare_eq_r; eauto.
Qed.

Lemma leb_ltb_trans x y z :
  (x <=? y)%float = true -> (y <? z)%float = true -> (x <? z)%float = true.
Proof.
  rewrite !ltb_fcmp, leb_fcmp. intros [H|H] H'.
  - eapply SFcompare_trans_lt; eauto.
  - eapply SFcompare_eq_l; eauto.
Qed.

Lemma leb_trans x y z :
  (x <=? y)%float = true -> (y <=? z)%float = true -> (x <=? z)%float = true.
Proof.
  intros H H'. pose proof H as H0. rewrite leb_fcmp in H0. destruct H0 as [H0|H0].
  - apply ltb_leb. eapply ltb_leb_trans; eauto. now apply ltb_fcmp.
  - rewrite leb_fcmp in *. destruct H' as [H'|H'].
    + left. eapply SFcompare_eq_l; eauto.
    + right. eapply SFcompare_eq_l; eauto.
Qed.

(** [x == t] with [t] below [+inf] puts [x] below [+inf] too. *)
Lemma eqb_proper x t :
  (x =? t)%float = true -> proper t = true -> proper x = true.
Proof.
  unfold proper. rewrite eqb_fcmp, !ltb_fcmp. apply SFcompare_eq_l.
Qed.

Lemma ltb_proper x y : (x <? y)%float = true -> proper y = true -> proper x = true.
Proof. unfold proper. apply ltb_trans. Qed.

(** *** The running minimum of [min] *)

Lemma min_from_In m l : In (min_from m l) (m :: l).
Proof.
  revert m. induction l as [|x l IH]; intros m; simpl; auto.
  destruct (IH (if (x <? m)%float then x else m)) as [H|H]; auto.
  destruct (x <? m)%float; auto.
Qed.

Lemma min_from_le_init m l :
  Prim2SF m <> S754_nan -> Forall (fun x => Prim2SF x <> S754_nan) l ->
  (min_from m l <=? m)%float = true /\ Prim2SF (min_from m l) <> S754_nan.
Proof.
  revert m. induction l as [|x l IH]; intros m Hm Hl; simpl.
  - split; auto using leb_refl.
  - inversion Hl as [|? ? Hx Hl']; subst.
    destruct (x <? m)%float eqn:E.
    + destruct (IH x Hx Hl') as [H1 H2]. split; auto.
      eapply leb_trans; eauto using ltb_leb.
    + apply IH; auto.
Qed.

Lemma min_from_le m l :
  Prim2SF m <> S754_nan -> Forall (fun x => Prim2SF x <> S754_nan) l ->
  forall x, In x (m :: l) -> (min_from m l <=? x)%float = true.
Proof.
  revert m. induction l as [|y l IH]; intros m Hm Hl x Hx; simpl.
  - destruct Hx as [<-|[]]. now apply leb_refl.
  - inversion Hl as [|? ? Hy Hl']; subst.
    destruct (y <? m)%float eqn:E.
    + destruct Hx as [<-|[<-|Hx]].
      * eapply leb_trans; [apply min_from_le_init; auto|now apply ltb_leb].
      * apply min_from_le_init; auto.
      * apply IH; simpl; auto.
    + destruct Hx as [<-|[<-|Hx]].
      * apply min_from_le_init; auto.
      * eapply leb_trans; [apply min_from_le_init; auto|now apply ltb_false_leb].
      * apply IH; simpl; auto.
Qed.

End FloatOrder.

(** ** The loops of [verify_face] *)

Section Matching.

Variable input_embedding : ndarray.

Let measured (e : ndarray) : bool :=
  match cosine_distance input_embedding e with
  | Ok d => proper d
  | Raise _ => false
  end.

Lemma student_distances_loop_ok stored : forall acc,
  forallb measured stored = true ->
  exists ds,
    student_distances_loop input_embedding stored acc = Ok (acc ++ ds) /\
    Forall2 (fun e d => cosine_distance input_embedding e = Ok d) stored ds /\
    Forall (fun d => proper d = true) ds.
Proof.
  induction stored as [|e stored IH]; intros acc H; simpl in *.
  - exists []. rewrite app_nil_r. auto.
  - apply andb_prop in H as [He Hs]. unfold measured in He.
    destruct (cosine_distance input_embedding e) as [d|] eqn:Ed; [|discriminate].
    destruct (IH (acc ++ [d]) Hs) as (ds & E & F2 & F).
    exists (d :: ds). rewrite E, <- app_assoc. simpl. auto.
Qed.

Lemma Forall2_In_right {A B} (R : A -> B -> Prop) l1 l2 y :
  Forall2 R l1 l2 -> In y l2 -> exists x, In x l1 /\ R x y.
Proof.
  induction 1 as [|a b l1 l2 HR _ IH]; simpl; intros HI; [contradiction|].
  destruct HI as [<-|HI]; eauto. destruct (IH HI) as (x & ? & ?); eauto.
Qed.

Lemma Forall2_In_left {A B} (R : A -> B -> Prop) l1 l2 x :
  Forall2 R l1 l2 -> In x l1 -> exists y, In y l2 /\ R x y.
Proof.
  induction 1 as [|a b l1 l2 HR _ IH]; simpl; intros HI; [contradiction|].
  destruct HI as [<-|HI]; eauto. destruct (IH HI) as (y & ? & ?); eauto.
Qed.

(** On a measurable student the code's minimum is the aggregate distance of
    the specification. *)
Lemma min_student_distance_measurable s :
  measurable input_embedding s = true ->
  exists d,
    min_student_distance input_embedding s = Ok d /\
    proper d = true /\
    aggregate_distance input_embedding s d.
Proof.
  unfold measurable, min_student_distance, aggregate_distance.
  destruct (se_embeddings s) as [|e es] eqn:Es; [discriminate|]. intros H.
  destruct (student_distances_loop_ok (e :: es) [] H) as (ds & E & F2 & F).
  rewrite E. simpl. inversion F2 as [|? d0 ? ds' Hd0 F2']; subst. simpl.
  pose proof (FloatOrder.min_from_In d0 ds') as HI.
  assert (Hnan : Forall (fun x => Prim2SF x <> S754_nan) (d0 :: ds')).
  { eapply Forall_impl; [|exact F]. intros a Ha. now apply FloatOrder.proper_not_nan. }
  inversion Hnan as [|? ? Hn0 Hnr]; subst.
  exists (min_from d0 ds'). split; [reflexivity|]. split.
  - rewrite Forall_forall in F. now apply F.
  - split.
    + destruct (Forall2_In_right _ _ _ _ F2 HI) as (x & Hx & Hc). eauto.
    + intros x Hx. destruct (Forall2_In_left _ _ _ _ F2 Hx) as (y & Hy & Hc).
      exists y. split; [exact Hc|]. now apply FloatOrder.min_from_le.
Qed.

Lemma first_global_minimum_single s d :
  aggregate_distance input_embedding s d ->
  first_global_minimum input_embedding [s] s d.
Proof.
  intros H. exists [], []. simpl.
  split; [reflexivity|]. split; [exact H|]. split; intros ? [].
Qed.

(** A later student strictly closer than the running best takes over. *)
Lemma first_global_minimum_replace done s d x d' :
  first_global_minimum input_embedding done s d ->
  aggregate_distance input_embedding x d' ->
  (d' <? d)%float = true ->
  first_global_minimum input_embedding (done ++ [x]) x d'.
Proof.
  intros (before & after & -> & Hs & Hb & Ha) Hx Hlt.
  exists (before ++ s :: after), []. split; [reflexivity|]. split; [exact Hx|]. split.
  - intros s' Hs'. apply in_app_or in Hs' as [Hs'|[<-|Hs']].
    + destruct (Hb s' Hs') as (d1 & H1 & H2). exists d1. split; auto.
      eapply FloatOrder.ltb_trans; eauto.
    + eauto.
    + destruct (Ha s' Hs') as (d1 & H1 & H2). exists d1. split; auto.
      eapply FloatOrder.ltb_leb_trans; eauto.
  - intros ? [].
Qed.

(** A later student that is not strictly closer leaves the running best. *)
Lemma first_global_minimum_keep done s d x d' :
  first_global_minimum input_embedding done s d ->
  aggregate_distance input_embedding x d' ->
  proper d = true -> proper d' = true ->
  (d' <? d)%float = false ->
  first_global_minimum input_embedding (done ++ [x]) s d.
Proof.
  intros (before & after & -> & Hs & Hb & Ha) Hx Pd Pd' Hlt.
  exists before, (after ++ [x]).
  split; [now rewrite <- app_assoc|]. split; [exact Hs|]. split; [exact Hb|].
  intros s' Hs'. apply in_app_or in Hs' as [Hs'|[<-|[]]]; auto.
  exists d'. split; auto.
  apply FloatOrder.ltb_false_leb; auto using FloatOrder.proper_not_nan.
Qed.

Lemma compare_students_from_best rest : forall done s d all_distances,
  first_global_minimum input_embedding done s d ->
  proper d = true ->
  forallb (measurable input_embedding) rest = true ->
  exists s' d' all_distances',
    compare_students input_embedding rest (Some (candidate_of s d)) d all_distances
      = Ok (Some (candidate_of s' d'), d', all_distances') /\
    first_global_minimum input_embedding (done ++ rest) s' d' /\
    proper d' = true.
Proof.
  induction rest as [|x rest IH]; intros done s d alld Hmin Pd Hall; simpl in *.
  - exists s, d, alld. rewrite app_nil_r. auto.
  - apply andb_prop in Hall as [Hx Hrest].
    destruct (min_student_distance_measurable x Hx) as (d' & E & Pd' & Hagg).
    rewrite E.
    replace (done ++ x :: rest) with ((done ++ [x]) ++ rest)
      by (rewrite <- app_assoc; reflexivity).
    destruct (d' <? d)%float eqn:Hlt.
    + apply IH; auto. eapply first_global_minimum_replace; eauto.
    + apply IH; auto. eapply first_global_minimum_keep; eauto.
Qed.

(** From the initial [best_match = None], [best_distance = +inf]. *)
Lemma compare_students_measurable all_students :
  all_students <> [] ->
  forallb (measurable input_embedding) all_students = true ->
  exists s d all_distances,
    compare_students input_embedding all_students None infinity []
      = Ok (Some (candidate_of s d), d, all_distances) /\
    first_global_minimum input_embedding all_students s d /\
    proper d = true.
Proof.
  destruct all_students as [|x rest]; [congruence|]. intros _ Hall. simpl in *.
  apply andb_prop in Hall as [Hx Hrest].
  destruct (min_student_distance_measurable x Hx) as (d' & E & Pd' & Hagg).
  rewrite E. unfold proper in Pd'. rewrite Pd'.
  apply (compare_students_from_best rest [x]); auto.
  now apply first_global_minimum_single.
Qed.

(** The running best and its distance go together. *)
Lemma compare_students_best_distance all_students :
  forall best_match best_distance all_distances best_match' best_distance' all_distances',
  compare_students input_embedding all_students best_match best_distance all_distances
    = Ok (best_match', best_distance', all_distances') ->
  (best_match = None -> best_distance = infinity) ->
  (forall c, best_match = Some c -> c_distance c = best_distance) ->
  (best_match' = None -> best_distance' = infinity) /\
  (forall c, best_match' = Some c -> c_distance c = best_distance').
Proof.
  induction all_students as [|x rest IH]; intros bm bd alld bm' bd' alld' E H1 H2;
    simpl in E.
  - injection E as <- <- <-. auto.
  - destruct (min_student_distance input_embedding x) as [d|]; [|discriminate].
    destruct (d <? bd)%float.
    + apply IH in E; auto; [discriminate|]. now intros c [= <-].
    + apply IH in E; auto.
Qed.

(** A student with no stored embedding stops the loop: [min] raises. *)
Lemma compare_students_empty_embeddings all_students :
  forall best_match best_distance all_distances,
  (exists s, In s all_students /\ se_embeddings s = []) ->
  exists e,
    compare_students input_embedding all_students best_match best_distance all_distances
      = Raise e.
Proof.
  induction all_students as [|x rest IH]; intros bm bd alld (s & Hin & Hs); simpl in *.
  - contradiction.
  - destruct (min_student_distance input_embedding x) as [d|e] eqn:E; [|eauto].
    destruct Hin as [->|Hin].
    + unfold min_student_distance in E. rewrite Hs in E. simpl in E. discriminate.
    + destruct (d <? bd)%float; apply IH; eauto.
Qed.

End Matching.

(** ** The store *)

Lemma calm_nil n : calm n [] = true.
Proof. destruct n; reflexivity. Qed.

Lemma driver_call_frame db r db1 :
  driver_call db = (r, db1) ->
  students db1 = students db /\ attendance db1 = attendance db /\
  next_oid db1 = next_oid db.
Proof.
  unfold driver_call. destruct (faults db) as [|[msg|] fs]; intros [= <- <-]; auto.
Qed.

Lemma driver_call_calm n db :
  calm (S n) (faults db) = true ->
  exists db1,
    driver_call db = (Ok tt, db1) /\
    students db1 = students db /\ attendance db1 = attendance db /\
    next_oid db1 = next_oid db /\ calm n (faults db1) = true.
Proof.
  unfold driver_call. destruct (faults db) as [|[msg|] fs] eqn:E; simpl; intros H.
  - exists db. rewrite E. auto using calm_nil.
  - discriminate.
  - eexists. split; [reflexivity|]. simpl. auto.
Qed.

Lemma driver_call_fault db msg fs :
  faults db = Some msg :: fs ->
  exists db1,
    driver_call db = (Raise (PyMongoError msg), db1) /\
    students db1 = students db /\ attendance db1 = attendance db /\
    next_oid db1 = next_oid db.
Proof.
  unfold driver_call. intros ->. eexists. split; [reflexivity|]. simpl. auto.
Qed.

(** [driver_call] either raises a [PyMongoError] or answers. *)
Lemma driver_call_cases db :
  (exists db1, driver_call db = (Ok tt, db1) /\ calm 1 (faults db) = true) \/
  (exists msg db1, driver_call db = (Raise (PyMongoError msg), db1) /\
                   calm 1 (faults db) = false).
Proof.
  unfold driver_call. destruct (faults db) as [|[msg|] fs]; simpl; eauto.
Qed.

Lemma get_all_embeddings_calm db :
  calm 1 (faults db) = true ->
  exists db1,
    get_all_embeddings db = (Ok (active_identities db), db1) /\
    students db1 = students db /\ attendance db1 = attendance db /\
    next_oid db1 = next_oid db.
Proof.
  intros H. destruct (driver_call_calm 0 db H) as (db1 & E & Hs & Ha & Hn & _).
  exists db1. unfold get_all_embeddings, students_find_active, bind, ret.
  rewrite E. unfold active_identities. rewrite Hs. auto.
Qed.

Lemma get_all_embeddings_frame db r db1 :
  get_all_embeddings db = (r, db1) ->
  students db1 = students db /\ attendance db1 = attendance db /\
  next_oid db1 = next_oid db /\
  match r with
  | Ok all_students =>
      all_students = active_identities db /\ calm 1 (faults db) = true
  | Raise e => calm 1 (faults db) = false
  end.
Proof.
  unfold get_all_embeddings, students_find_active, bind, ret.
  destruct (driver_call_cases db) as [(d1 & E & C)|(msg & d1 & E & C)];
    rewrite E; destruct (driver_call_frame _ _ _ E) as (Hs & Ha & Hn);
    intros [= <- <-]; unfold active_identities; rewrite Hs; auto.
Qed.

Lemma find_has_student_id student_id l :
  existsb (has_student_id student_id) l = true <->
  exists d, find (has_student_id student_id) l = Some d.
Proof.
  induction l as [|x l IH]; simpl.
  - split; [discriminate|intros [? [=]]].
  - destruct (has_student_id student_id x); simpl; eauto. split; eauto.
Qed.

Lemma find_none_existsb student_id l :
  find (has_student_id student_id) l = None <->
  existsb (has_student_id student_id) l = false.
Proof.
  induction l as [|x l IH]; simpl; [tauto|].
  destruct (has_student_id student_id x); simpl; auto. split; discriminate.
Qed.

(** ** Verification *)

Section Verification.

Variable path_exists : string -> bool.
Variable DeepFace_represent : string -> string -> string -> res (list ndarray).
Variable self : FaceService.

Local Abbreviation generate := (generate_embedding path_exists DeepFace_represent self).
Local Abbreviation verify := (verify_face path_exists DeepFace_represent self).

(** [verify_face] always returns a dictionary, and leaves both collections
    as they were. *)
Lemma verify_face_total image_path db :
  exists r db1,
    verify image_path db = (Ok r, db1) /\
    students db1 = students db /\ attendance db1 = attendance db /\
    next_oid db1 = next_oid db.
Proof.
  unfold verify_face, try_except, bind, lift, ret.
  destruct (generate image_path) as [emb|e]; [|eauto 10].
  destruct (get_all_embeddings db) as [[all_students|e] db1] eqn:E;
    apply get_all_embeddings_frame in E as (Hs & Ha & Hn & _); [|eauto 10].
  destruct all_students as [|x rest]; [eauto 10|].
  destruct (compare_students emb (x :: rest) None infinity [])
    as [[[bm bd] alld]|e]; [|eauto 10].
  destruct bm as [c|]; [|eauto 10].
  destruct (bd <=? confidence_threshold self)%float; eauto 10.
Qed.

(** Where the selection holds. Whenever there is at least one active
    identity, each with at least one stored embedding and with distances to
    the probe that are numbers below [+inf], [verify_face] carries as best
    match the identity whose
    aggregate distance (the minimum over its stored embeddings) is globally
    minimal, and among identities of equal aggregate distance the first in
    iteration order: it is strictly closer than every identity before it,
    since the running best is replaced on strict [<] only. The result
    carries that distance, the confidence [1 - d], and is a match exactly
    when the distance is at most the threshold. *)
Theorem verify_selects_first_global_minimum image_path db input_embedding :
  generate image_path = Ok input_embedding ->
  calm 1 (faults db) = true ->
  active_identities db <> [] ->
  forallb (measurable input_embedding) (active_identities db) = true ->
  exists r db1 s d,
    verify image_path db = (Ok r, db1) /\
    first_global_minimum input_embedding (active_identities db) s d /\
    verify_best_match r = Some (candidate_of s d) /\
    verify_distance r = Some d /\
    verify_confidence r = Some (1 - d)%float /\
    verify_matched r = Some (d <=? confidence_threshold self)%float.
Proof.
  intros Hgen Hcalm Hne Hall.
  destruct (get_all_embeddings_calm db Hcalm) as (db1 & E & _).
  destruct (compare_students_measurable input_embedding _ Hne Hall)
    as (s & d & alld & Ecmp & Hmin & Pd).
  unfold verify_face, try_except, bind, lift, ret. rewrite Hgen, E.
  destruct (active_identities db) as [|x rest] eqn:Eact; [congruence|].
  rewrite Ecmp.
  destruct (d <=? confidence_threshold self)%float eqn:Hle;
    eexists _, db1, s, d; (split; [reflexivity|]);
    cbn [verify_best_match verify_distance verify_confidence verify_matched];
    rewrite Hle; auto 10.
Qed.


(** C10. If an active identity has no stored embedding, its aggregation is
    [min] over an empty list, which raises [ValueError], and [verify_face]
    returns the failure dictionary (success false, with the error), whatever
    the probe and the other identities are: no match or no-match decision
    comes out. *)
Theorem verify_fails_on_empty_embeddings image_path db s :
  In s (active_identities db) ->
  se_embeddings s = [] ->
  (forall input_embedding,
     min_student_distance input_embedding s
     = Raise (ValueError "min() arg is an empty sequence")) /\
  exists error db1,
    verify image_path db = (Ok (VerifyError error), db1) /\
    verify_success (VerifyError error) = false /\
    verify_matched (VerifyError error) = None.
Proof.
  intros Hin Hs. split.
  { intros emb. unfold min_student_distance. rewrite Hs. reflexivity. }
  assert (Hempty : exists s, In s (active_identities db) /\ se_embeddings s = [])
    by eauto.
  unfold verify_face, try_except, bind, lift, ret.
  destruct (generate image_path) as [emb|e]; [|eauto 10].
  destruct (get_all_embeddings db) as [[all_students|e] db1] eqn:E;
    apply get_all_embeddings_frame in E as (_ & _ & _ & H); [|eauto 10].
  destruct H as [-> _].
  destruct (compare_students_empty_embeddings emb _ None infinity [] Hempty)
    as [e Ecmp].
  destruct (active_identities db) as [|x rest] eqn:Eact.
  - destruct Hin.
  - rewrite Ecmp. eauto 10.
Qed.

(** The exceptions of a verification. [verify_face] always returns a
    dictionary and never raises. With no active identity it is the
    no-students notice: success true, matched false, the notice under the
    key ["error"]. Success is true only when the extraction, the query and
    every comparison raised nothing, each exception is returned as the
    failure dictionary with its message, and the notice is the one success
    that carries the key ["error"]. Matched false comes with success true
    only; the failure dictionary has no key ["matched"]. *)
Theorem verify_outcomes image_path db :
  exists r db1,
    verify image_path db = (Ok r, db1) /\
    (forall emb,
       generate image_path = Ok emb -> calm 1 (faults db) = true ->
       active_identities db = [] ->
       r = VerifyNoStudents /\ verify_success r = true /\
       verify_matched r = Some false) /\
    (verify_success r = true ->
       exists emb,
         generate image_path = Ok emb /\ calm 1 (faults db) = true /\
         exists out,
           compare_students emb (active_identities db) None infinity [] = Ok out) /\
    (forall e, generate image_path = Raise e -> r = VerifyError (str_exn e)) /\
    (forall emb msg fs,
       generate image_path = Ok emb -> faults db = Some msg :: fs ->
       r = VerifyError msg) /\
    (forall emb e,
       generate image_path = Ok emb -> calm 1 (faults db) = true ->
       compare_students emb (active_identities db) None infinity [] = Raise e ->
       r = VerifyError (str_exn e)) /\
    (forall msg,
       verify_success r = true -> verify_error r = Some msg ->
       r = VerifyNoStudents /\ active_identities db = []) /\
    (verify_matched r = Some false -> verify_success r = true) /\
    (verify_success r = false ->
       verify_matched r = None /\ exists error, r = VerifyError error).
Proof.
  unfold verify_face, try_except, bind, lift, ret.
  destruct (generate image_path) as [emb|e0].
  2:{ eexists _, _. split; [reflexivity|].
      cbn [verify_success verify_matched verify_error].
      repeat split; try discriminate; try congruence; eauto. }
  assert (Hgen : forall emb', Ok emb = Ok emb' -> emb' = emb) by congruence.
  destruct (get_all_embeddings db) as [[all_students|e1] db1] eqn:E;
    pose proof (get_all_embeddings_frame _ _ _ E) as (_ & _ & _ & H).
  2:{ eexists _, _. split; [reflexivity|].
      cbn [verify_success verify_matched verify_error].
      repeat split; try discriminate; try congruence; eauto.
      intros emb' msg fs _ Hf.
      destruct (driver_call_fault db msg fs Hf) as (d1 & Ed & _).
      unfold get_all_embeddings, students_find_active, bind in E.
      rewrite Ed in E. now injection E as <- <-. }
  destruct H as [-> Hcalm].
  assert (Hnofault : forall msg fs, faults db <> Some msg :: fs).
  { intros msg fs Hf. rewrite Hf in Hcalm. discriminate. }
  destruct (active_identities db) as [|x rest] eqn:Eact.
  { eexists _, _. split; [reflexivity|].
    cbn [verify_success verify_matched verify_error].
    repeat split; try discriminate; try congruence; eauto.
    all: try (intros _; exists emb; repeat split; auto; simpl; now eauto).
    all: try (intros emb' msg fs _ Hf; now apply Hnofault in Hf).
    all: try (intros emb' e2 He _ Hr; simpl in Hr; discriminate). }
  destruct (compare_students emb (x :: rest) None infinity [])
    as [[[bm bd] alld]|e2] eqn:Ecmp.
  2:{ eexists _, _. split; [reflexivity|].
      cbn [verify_success verify_matched verify_error].
      repeat split; try discriminate; try congruence; eauto.
      all: try (intros emb' msg fs _ Hf; now apply Hnofault in Hf).
      all: try (intros emb' e3 He _ Hr; apply Hgen in He; subst emb'; congruence). }
  destruct bm as [c|]; [destruct (bd <=? confidence_threshold self)%float|].
  all: eexists _, _; (split; [reflexivity|]);
    cbn [verify_success verify_matched verify_error].
  all: repeat split; try discriminate; try congruence; eauto.
  all: try (intros emb' msg fs _ Hf; now apply Hnofault in Hf).
  all: try (intros emb' e3 He _ Hr; apply Hgen in He; subst emb'; congruence).
Qed.

End Verification.

(** ** Attendance *)

(** The record [record_attendance] inserts under [attendance_id]. *)
Lemma record_attendance_outcome student_id check_in_time image_path db r db2 :
  record_attendance student_id check_in_time image_path db = (r, db2) ->
  students db2 = students db /\
  match r with
  | Ok attendance_id =>
      attendance_id = next_oid db /\
      exists record,
        attendance db2 = attendance db ++ [record] /\
        att_id record = attendance_id /\
        att_student_id record = student_id /\
        att_check_in record = check_in_time /\
        att_image_path record = image_path
  | Raise e =>
      attendance db2 = attendance db /\ calm 1 (faults db) = false
  end.
Proof.
  unfold record_attendance, attendance_insert_one, bind.
  destruct (driver_call_cases db) as [(d1 & E & C)|(msg & d1 & E & C)];
    rewrite E; destruct (driver_call_frame _ _ _ E) as (Hs & Ha & Hn);
    intros [= <- <-]; simpl; auto.
  rewrite Hs, Ha, Hn. split; auto. split; auto.
  eexists. split; [reflexivity|]. simpl. auto.
Qed.

Lemma record_attendance_calm student_id check_in_time image_path db :
  calm 1 (faults db) = true ->
  exists db2,
    record_attendance student_id check_in_time image_path db
      = (Ok (next_oid db), db2).
Proof.
  intros H. destruct (driver_call_calm 0 db H) as (d1 & E & _ & _ & Hn & _).
  unfold record_attendance, attendance_insert_one, bind. rewrite E, Hn. eauto.
Qed.

Section Attendance.

Variable path_exists : string -> bool.
Variable DeepFace_represent : string -> string -> string -> res (list ndarray).
Variable self : FaceService.

Local Abbreviation verify := (verify_face path_exists DeepFace_represent self).
Local Abbreviation mark := (mark_attendance path_exists DeepFace_represent self).

(** C7. [mark_attendance] always returns a dictionary and never touches the
    students. After a match, when the store takes the record, exactly one
    attendance record is appended (for the matched identity and the given
    time) and its handle is returned; when the store call raises, the result
    is the failure dictionary with the exception's message and no record is
    added: it is not the no-match result. Without a match the result is
    success true with attendance not marked, and no record is added. A
    failed verification is returned as the failure it is. *)
Theorem mark_attendance_atomic image_path timestamp db vr db1 :
  verify image_path db = (Ok vr, db1) ->
  exists r db2,
    mark image_path timestamp db = (Ok r, db2) /\
    students db2 = students db /\
    (forall student confidence distance all_matches,
       vr = VerifyMatched student confidence distance all_matches ->
       calm 1 (faults db1) = true ->
       r = AttendanceMarked (next_oid db) (c_student_id student)
             (c_name student) confidence /\
       exists record,
         attendance db2 = attendance db ++ [record] /\
         att_id record = next_oid db /\
         att_student_id record = c_student_id student /\
         att_check_in record = timestamp) /\
    (forall student confidence distance all_matches e dbx,
       vr = VerifyMatched student confidence distance all_matches ->
       record_attendance (c_student_id student) timestamp (Some image_path) db1
         = (Raise e, dbx) ->
       r = AttendanceError (str_exn e) /\
       attendance_success r = false /\
       attendance_marked r = None /\
       attendance db2 = attendance db) /\
    (verify_matched vr = Some false ->
       attendance_success r = true /\
       attendance_marked r = Some false /\
       attendance db2 = attendance db) /\
    (verify_success vr = false ->
       exists error,
         vr = VerifyError error /\ r = AttendanceError error /\
         attendance db2 = attendance db).
Proof.
  intros Ev.
  destruct (verify_face_total path_exists DeepFace_represent self image_path db)
    as (r0 & d0 & Ev' & Hs & Ha & Hn).
  rewrite Ev in Ev'. injection Ev' as <- <-.
  unfold mark_attendance, try_except, bind, ret. rewrite Ev.
  destruct vr as [|student confidence distance all_matches
                  |best_match confidence distance all_matches|error].
  - eexists _, _. split; [reflexivity|]. split; [exact Hs|].
    split; [|split; [|split]].
    + intros ? ? ? ? [=].
    + intros ? ? ? ? ? ? [=].
    + intros _. cbn. auto.
    + cbn. discriminate.
  - destruct (record_attendance (c_student_id student) timestamp (Some image_path) db1)
      as [[attendance_id|e] db2] eqn:Er;
      pose proof (record_attendance_outcome _ _ _ _ _ _ Er) as (Hs2 & H2).
    + destruct H2 as (-> & record & Hrec & Hid & Hsid & Hci & _).
      eexists _, _. split; [reflexivity|]. split; [congruence|].
      split; [|split; [|split]].
      * intros s c d am [= <- <- <- <-] _. split; [now rewrite Hn|].
        exists record. rewrite Hrec, Ha, Hid, Hn. auto.
      * intros s c d am e dbx [= <- <- <- <-] Hr. rewrite Er in Hr. discriminate.
      * cbn. discriminate.
      * cbn. discriminate.
    + destruct H2 as (Hatt & Hcalm).
      eexists _, _. split; [reflexivity|]. split; [congruence|].
      split; [|split; [|split]].
      * intros s c d am _ Hc. congruence.
      * intros s c d am e' dbx [= <- <- <- <-] Hr. rewrite Er in Hr.
        injection Hr as <- <-. cbn. repeat split; congruence.
      * cbn. discriminate.
      * cbn. discriminate.
  - eexists _, _. split; [reflexivity|]. split; [exact Hs|].
    split; [|split; [|split]].
    + intros ? ? ? ? [=].
    + intros ? ? ? ? ? ? [=].
    + intros _. cbn. auto.
    + cbn. discriminate.
  - eexists _, _. split; [reflexivity|]. split; [exact Hs|].
    split; [|split; [|split]].
    + intros ? ? ? ? [=].
    + intros ? ? ? ? ? ? [=].
    + cbn. discriminate.
    + intros _. eauto.
Qed.

End Attendance.

(** ** Registration and augmentation *)

Lemma deserialize_embeddings d :
  st_embeddings (_deserialize_student d)
  = map pickle_loads (match doc_embeddings d with Some l => l | None => [] end).
Proof. unfold _deserialize_student. simpl. now destruct (doc_embeddings d) as [[|]|]. Qed.

Lemma pickle_roundtrip l : map pickle_loads (map pickle_dumps l) = l.
Proof. induction l as [|x l IH]; simpl; congruence. Qed.

Lemma get_student_by_id_outcome student_id db r db1 :
  get_student_by_id student_id db = (r, db1) ->
  students db1 = students db /\ attendance db1 = attendance db /\
  next_oid db1 = next_oid db /\
  match r with
  | Ok found =>
      found = option_map _deserialize_student
                (find (has_student_id student_id) (students db)) /\
      calm 1 (faults db) = true /\
      (forall n, calm (S n) (faults db) = true -> calm n (faults db1) = true)
  | Raise _ => calm 1 (faults db) = false
  end.
Proof.
  unfold get_student_by_id, students_find_one, bind, ret.
  destruct (faults db) as [|[msg|] fs] eqn:Ef; unfold driver_call; rewrite Ef.
  - destruct (find _ _); intros [= <- <-]; rewrite Ef; auto 10 using calm_nil.
  - intros [= <- <-]. auto.
  - simpl. destruct (find _ _); intros [= <- <-]; simpl; auto 10.
Qed.

Lemma add_student_fresh name student_id embeddings image_paths db :
  identity_exists db student_id = false ->
  calm 1 (faults db) = true ->
  exists db1,
    add_student name student_id embeddings image_paths db = (Ok (next_oid db), db1) /\
    attendance db1 = attendance db /\
    students db1 = students db ++
      [{| doc_id := next_oid db;
          doc_name := name;
          doc_student_id := student_id;
          doc_embeddings := Some (map pickle_dumps embeddings);
          doc_image_count := length embeddings;
          doc_image_paths := image_paths;
          doc_is_active := true;
          doc_created_at := None |}].
Proof.
  intros Hfresh Hcalm.
  destruct (driver_call_calm 0 db Hcalm) as (d1 & E & Hs & Ha & Hn & _).
  unfold add_student, students_insert_one, bind. rewrite E.
  unfold identity_exists in Hfresh. rewrite Hs, Hfresh, Hn, Ha.
  eexists. split; [reflexivity|]. simpl. auto.
Qed.

Lemma add_student_raise name student_id embeddings image_paths db e db1 :
  add_student name student_id embeddings image_paths db = (Raise e, db1) ->
  students db1 = students db /\ attendance db1 = attendance db.
Proof.
  unfold add_student, students_insert_one, bind.
  destruct (driver_call db) as [[[]|e0] d1] eqn:E;
    destruct (driver_call_frame _ _ _ E) as (Hs & Ha & Hn).
  - destruct (existsb _ _); intros [= <- <-]; auto.
  - intros [= <- <-]. auto.
Qed.

Lemma find_app_fresh student_id l d :
  existsb (has_student_id student_id) l = false ->
  has_student_id student_id d = true ->
  find (has_student_id student_id) (l ++ [d]) = Some d.
Proof.
  induction l as [|x l IH]; simpl; intros H Hd.
  - now rewrite Hd.
  - apply orb_false_elim in H as [Hx Hl]. rewrite Hx. auto.
Qed.

Lemma has_student_id_refl student_id d :
  doc_student_id d = student_id -> has_student_id student_id d = true.
Proof. unfold has_student_id. intros ->. apply String.eqb_refl. Qed.

Section Registration.

Variable path_exists : string -> bool.
Variable DeepFace_represent : string -> string -> string -> res (list ndarray).
Variable self : FaceService.

Local Abbreviation generate := (generate_embedding path_exists DeepFace_represent self).
Local Abbreviation loop := (process_images path_exists DeepFace_represent self).
Local Abbreviation successes := (extracted path_exists DeepFace_represent self).
Local Abbreviation failed := (failures path_exists DeepFace_represent self).
Local Abbreviation register := (register_student path_exists DeepFace_represent self).

Lemma process_images_from image_paths : forall successful_embeddings failed_images,
  loop image_paths successful_embeddings failed_images
  = (successful_embeddings ++ successes image_paths,
     failed_images ++ failed image_paths).
Proof.
  induction image_paths as [|p rest IH]; intros acc_s acc_f; simpl.
  - now rewrite !app_nil_r.
  - destruct (generate p) as [emb|e]; rewrite IH; simpl;
      rewrite <- ?app_assoc; reflexivity.
Qed.

Lemma extracted_app l1 l2 : successes (l1 ++ l2) = successes l1 ++ successes l2.
Proof. apply flat_map_app. Qed.

Lemma failures_app l1 l2 : failed (l1 ++ l2) = failed l1 ++ failed l2.
Proof. apply flat_map_app. Qed.

Lemma extracted_failures_length image_paths :
  length (successes image_paths) + length (failed image_paths) = length image_paths.
Proof.
  induction image_paths as [|p rest IH]; simpl; [reflexivity|].
  destruct (generate p); simpl; rewrite ?length_app; simpl; lia.
Qed.

(** What [register_student] returns, case by case. *)
Lemma register_student_cases name student_id image_paths db :
  exists r db1,
    register name student_id image_paths db = (Ok r, db1) /\
    attendance db1 = attendance db /\
    ((students db1 = students db /\
      ((exists error, r = RegisterError error) \/
       (exists error, r = RegisterInsufficient error (failed image_paths) /\
                      length (successes image_paths) < 3))) \/
     (3 <= length (successes image_paths) /\
      identity_exists db student_id = false /\
      r = Registered student_id name (next_oid db) (length image_paths)
            (length (successes image_paths)) (failed image_paths)
            ("Student registered with "
             ++ str_nat (length (successes image_paths))
             ++ " face embeddings")%string /\
      exists d, students db1 = students db ++ [d] /\
                doc_student_id d = student_id /\
                doc_embeddings d = Some (map pickle_dumps (successes image_paths)))).
Proof.
  unfold register_student, try_except, bind, ret.
  destruct (String.eqb name "" || String.eqb student_id ""); [eauto 10|].
  destruct image_paths as [|p rest]; [eauto 10|].
  destruct (get_student_by_id student_id db) as [[found|e] d1] eqn:Eg;
    destruct (get_student_by_id_outcome _ _ _ _ Eg) as (Hs & Ha & Hn & Hr);
    [|eauto 10].
  destruct Hr as (-> & Hc & Hc').
  destruct (find (has_student_id student_id) (students db)) as [d|] eqn:Ef;
    cbn [option_map]; [eauto 10|].
  rewrite process_images_from. cbn [app].
  destruct (Nat.ltb_spec (length (successes (p :: rest))) 3) as [Hlt|Hge].
  - eexists _, _. split; [reflexivity|]. split; [exact Ha|]. left. eauto 10.
  - destruct (add_student name student_id (successes (p :: rest)) (p :: rest) d1)
      as [[oid|e] d2] eqn:Ea.
    + unfold add_student, students_insert_one, bind in Ea.
      destruct (driver_call d1) as [[[]|e0] d1'] eqn:Ed; [|discriminate].
      destruct (driver_call_frame _ _ _ Ed) as (Hs' & Ha' & Hn').
      apply find_none_existsb in Ef.
      rewrite Hs', Hs, Ef in Ea. injection Ea as <- <-.
      eexists _, _. split; [reflexivity|].
      cbn [students attendance next_oid]. split; [congruence|].
      right. split; [exact Hge|]. split; [exact Ef|].
      rewrite Hn', Hn. split; [reflexivity|].
      eexists. split; [reflexivity|]. auto.
    + apply add_student_raise in Ea as (Hs' & Ha').
      eexists _, _. split; [reflexivity|]. split; [congruence|].
      left. split; [congruence|]. eauto.
Qed.

Lemma register_student_validated name student_id image_paths db :
  name <> "" -> student_id <> "" -> image_paths <> [] ->
  calm 1 (faults db) = true ->
  exists d1,
    students d1 = students db /\ attendance d1 = attendance db /\
    next_oid d1 = next_oid db /\
    (forall n, calm (S n) (faults db) = true -> calm n (faults d1) = true) /\
    get_student_by_id student_id db
      = (Ok (option_map _deserialize_student
               (find (has_student_id student_id) (students db))), d1) /\
    register name student_id image_paths db
    = try_except
        (match option_map _deserialize_student
                 (find (has_student_id student_id) (students db)) with
         | Some _ =>
             ret (RegisterError ("Student ID " ++ student_id ++ " already exists")%string)
         | None =>
             if Nat.ltb (length (successes image_paths)) 3
             then ret (RegisterInsufficient
                         ("Only " ++ str_nat (length (successes image_paths))
                          ++ " images processed successfully. Need at least 3.")%string
                         (failed image_paths))
             else
               bind (add_student name student_id (successes image_paths) image_paths)
                 (fun student_db_id =>
                    ret (Registered student_id name student_db_id
                           (length image_paths) (length (successes image_paths))
                           (failed image_paths)
                           ("Student registered with "
                            ++ str_nat (length (successes image_paths))
                            ++ " face embeddings")%string))
         end)
        (fun e => ret (RegisterError (str_exn e))) d1.
Proof.
  intros Hname Hid Hpaths Hcalm.
  apply String.eqb_neq in Hname, Hid.
  destruct (get_student_by_id student_id db) as [[found|e] d1] eqn:Eg;
    destruct (get_student_by_id_outcome _ _ _ _ Eg) as (Hs & Ha & Hn & Hr);
    [|congruence].
  destruct Hr as (-> & _ & Hc').
  exists d1. repeat (split; [assumption|]). split; [reflexivity|].
  unfold register_student, try_except, bind. rewrite Hname, Hid. cbn [orb].
  destruct image_paths as [|p rest]; [congruence|].
  rewrite Eg. destruct (option_map _ _); [reflexivity|].
  rewrite process_images_from. cbn [app]. reflexivity.
Qed.

(** C6. The loop over the images of a registration never raises and goes
    through the whole list: it returns exactly the embeddings of the images
    that gave one and the failures (path and cause) of the others, each in
    the order of the list, so every image is accounted for once; the outcome
    of an image is recorded whatever happened to the images before it, and
    the images after a failing one are still processed. [register_student]
    itself never raises, and the failures it reports are the loop's. *)
Theorem process_images_tolerates_failures image_paths :
  loop image_paths [] [] = (successes image_paths, failed image_paths) /\
  length (successes image_paths) + length (failed image_paths)
    = length image_paths /\
  (forall before image_path after,
     image_paths = before ++ image_path :: after ->
     match generate image_path with
     | Ok embedding =>
         successes image_paths
           = successes before ++ embedding :: successes after /\
         failed image_paths = failed before ++ failed after
     | Raise e =>
         successes image_paths = successes before ++ successes after /\
         failed image_paths
           = failed before
             ++ {| fi_path := image_path; fi_error := str_exn e |} :: failed after
     end) /\
  (forall name student_id db,
     exists r db1,
       register name student_id image_paths db = (Ok r, db1) /\
       match r with
       | RegisterError _ => True
       | RegisterInsufficient _ failed_images => failed_images = failed image_paths
       | Registered _ _ _ total_images successful_embeddings failed_images _ =>
           total_images = length image_paths /\
           successful_embeddings = length (successes image_paths) /\
           failed_images = failed image_paths
       end).
Proof.
  split; [apply process_images_from|].
  split; [apply extracted_failures_length|]. split.
  - intros before p after ->. rewrite extracted_app, failures_app. simpl.
    destruct (generate p); auto.
  - intros name student_id db.
    destruct (register_student_cases name student_id image_paths db)
      as (r & db1 & E & _ & [(_ & [(error & ->)|(error & -> & _)])|(_ & _ & -> & _)]);
      eexists _, db1; (split; [exact E|]); cbn; auto.
Qed.

(** C4, as amended. A registration in which fewer than 3 embeddings are
    extracted creates no identity, whatever the call. When the call passes
    the checks made before the images are read (name, identifier and image
    list not empty, identifier not taken, store answering), fewer than 3
    extracted embeddings give the failure that reports their count and the
    per-image causes; 3 or more give the success, and the new identity holds
    all the extracted embeddings in their order. *)
Theorem register_minimum_embeddings name student_id image_paths db :
  exists r db1,
    register name student_id image_paths db = (Ok r, db1) /\
    attendance db1 = attendance db /\
    (length (successes image_paths) < 3 -> students db1 = students db) /\
    (name <> "" -> student_id <> "" -> image_paths <> [] ->
     identity_exists db student_id = false -> calm 1 (faults db) = true ->
     length (successes image_paths) < 3 ->
     r = RegisterInsufficient
           ("Only " ++ str_nat (length (successes image_paths))
            ++ " images processed successfully. Need at least 3.")%string
           (failed image_paths)) /\
    (name <> "" -> student_id <> "" ->
     identity_exists db student_id = false -> calm 2 (faults db) = true ->
     3 <= length (successes image_paths) ->
     r = Registered student_id name (next_oid db) (length image_paths)
           (length (successes image_paths)) (failed image_paths)
           ("Student registered with "
            ++ str_nat (length (successes image_paths))
            ++ " face embeddings")%string /\
     length (students db1) = S (length (students db)) /\
     stored_embeddings db1 student_id = Some (successes image_paths)).
Proof.
  destruct (register_student_cases name student_id image_paths db)
    as (r & db1 & E & Ha & Hcases).
  exists r, db1. split; [exact E|]. split; [exact Ha|]. split; [|split].
  - intros Hlt. destruct Hcases as [(Hs & _)|(Hge & _)]; [exact Hs|lia].
  - intros Hname Hid Hpaths Hfresh Hcalm Hlt.
    destruct (register_student_validated name student_id image_paths db
                Hname Hid Hpaths Hcalm) as (d1 & _ & _ & _ & _ & _ & E').
    rewrite E' in E. unfold identity_exists in Hfresh.
    apply find_none_existsb in Hfresh. rewrite Hfresh in E. cbn [option_map] in E.
    apply Nat.ltb_lt in Hlt. rewrite Hlt in E.
    unfold try_except, ret in E. now injection E as <- <-.
  - intros Hname Hid Hfresh Hcalm Hge.
    assert (Hpaths : image_paths <> []).
    { intros ->. simpl in Hge. lia. }
    assert (Hcalm1 : calm 1 (faults db) = true).
    { destruct (faults db) as [|[m|] fs]; [reflexivity|discriminate|reflexivity]. }
    destruct (register_student_validated name student_id image_paths db
                Hname Hid Hpaths Hcalm1) as (d1 & Hs1 & Ha1 & Hn1 & Hc1 & _ & E').
    rewrite E' in E. pose proof Hfresh as Hfind. unfold identity_exists in Hfind.
    apply find_none_existsb in Hfind. rewrite Hfind in E. cbn [option_map] in E.
    apply Nat.ltb_ge in Hge. rewrite Hge in E.
    assert (Hfresh1 : identity_exists d1 student_id = false).
    { unfold identity_exists. now rewrite Hs1. }
    destruct (add_student_fresh name student_id (successes image_paths) image_paths
                d1 Hfresh1 (Hc1 1 Hcalm)) as (d2 & Ea & Ha2 & Hs2).
    unfold try_except, bind, ret in E. rewrite Ea in E. injection E as <- <-.
    rewrite Hn1. split; [reflexivity|]. split.
    + rewrite Hs2, Hs1, length_app. simpl. lia.
    + unfold stored_embeddings. unfold identity_exists in Hfresh.
      rewrite Hs2, Hs1.
      rewrite (find_app_fresh _ _ _ Hfresh) by (now apply has_student_id_refl).
      rewrite deserialize_embeddings. simpl. now rewrite pickle_roundtrip.
Qed.

End Registration.

(** C5, as amended. A registration under an identifier that is already in
    the store, active or soft-deleted, fails and leaves the store as it was,
    and no image is read: the outcome is the same whatever the extraction
    would give. When the name, the identifier and the image list are not
    empty and the store answers, the failure is the conflict on the
    identifier. *)
Theorem register_duplicate_conflict
    path_exists DeepFace_represent self name student_id image_paths db :
  identity_exists db student_id = true ->
  exists error db1,
    register_student path_exists DeepFace_represent self
      name student_id image_paths db = (Ok (RegisterError error), db1) /\
    students db1 = students db /\ attendance db1 = attendance db /\
    next_oid db1 = next_oid db /\
    (forall path_exists' DeepFace_represent',
       register_student path_exists' DeepFace_represent' self
         name student_id image_paths db = (Ok (RegisterError error), db1)) /\
    (name <> "" -> student_id <> "" -> image_paths <> [] ->
     calm 1 (faults db) = true ->
     error = ("Student ID " ++ student_id ++ " already exists")%string).
Proof.
  intros Hex. unfold identity_exists in Hex.
  apply find_has_student_id in Hex as [d Hd].
  unfold register_student, try_except, bind, ret.
  destruct (String.eqb name "") eqn:Hname; cbn [orb].
  { eexists _, db. repeat (split; [reflexivity|]).
    intros Hn. apply String.eqb_eq in Hname. contradiction. }
  destruct (String.eqb student_id "") eqn:Hid.
  { eexists _, db. repeat (split; [reflexivity|]).
    intros _ Hn. apply String.eqb_eq in Hid. contradiction. }
  destruct image_paths as [|p rest].
  { eexists _, db. repeat (split; [reflexivity|]). congruence. }
  destruct (get_student_by_id student_id db) as [[found|e] d1] eqn:Eg;
    destruct (get_student_by_id_outcome _ _ _ _ Eg) as (Hs & Ha & Hn & Hr).
  - destruct Hr as (-> & _ & _). rewrite Hd. cbn [option_map].
    eexists _, d1. split; [reflexivity|]. auto 10.
  - eexists _, d1. split; [reflexivity|]. repeat (split; [assumption|]).
    split; [reflexivity|]. congruence.
Qed.

(** ** Augmentation *)

Lemma list_eqb_length {A} (eqb : A -> A -> bool) l1 : forall l2,
  list_eqb eqb l1 l2 = true -> length l1 = length l2.
Proof.
  induction l1 as [|x l1 IH]; destruct l2 as [|y l2]; simpl; try discriminate; auto.
  intros H. apply andb_prop in H as [_ H]. f_equal. auto.
Qed.

Lemma find_update_first p f (l : list student_doc) d :
  find p l = Some d -> p (f d) = true ->
  find p (update_first p f l) = Some (f d).
Proof.
  induction l as [|x l IH]; simpl; [discriminate|].
  destruct (p x) eqn:Hx; intros H Hf.
  - injection H as ->. simpl. now rewrite Hf.
  - simpl. rewrite Hx. auto.
Qed.

Lemma find_update_first_other p q f (l : list student_doc) :
  (forall d, p d = true -> q d = false /\ q (f d) = false) ->
  find q (update_first p f l) = find q l.
Proof.
  intros H. induction l as [|x l IH]; simpl; [reflexivity|].
  destruct (p x) eqn:Hx; simpl.
  - destruct (H x Hx) as [-> ->]. reflexivity.
  - now rewrite IH.
Qed.

Lemma update_first_length p f (l : list student_doc) :
  length (update_first p f l) = length l.
Proof.
  induction l as [|x l IH]; simpl; [reflexivity|].
  destruct (p x); simpl; congruence.
Qed.

Lemma has_student_id_other student_id other d :
  other <> student_id -> has_student_id student_id d = true ->
  has_student_id other d = false.
Proof.
  unfold has_student_id. intros Hne H. apply String.eqb_eq in H.
  apply String.eqb_neq. congruence.
Qed.

(** [update_student_embeddings] on an identity of the store, with at least
    one new embedding. *)
Lemma update_student_embeddings_appends student_id new_embeddings new_image_paths db old :
  stored_embeddings db student_id = Some old ->
  new_embeddings <> [] ->
  calm 2 (faults db) = true ->
  exists db1,
    update_student_embeddings student_id new_embeddings new_image_paths db
      = (Ok true, db1) /\
    stored_embeddings db1 student_id = Some (old ++ new_embeddings) /\
    (forall other, other <> student_id ->
       stored_embeddings db1 other = stored_embeddings db other) /\
    length (students db1) = length (students db) /\
    attendance db1 = attendance db.
Proof.
  unfold stored_embeddings at 1.
  destruct (find (has_student_id student_id) (students db)) as [cur|] eqn:Ef;
    [|discriminate].
  intros Hold Hnew Hcalm.
  assert (Eold : old = map pickle_loads
                         match doc_embeddings cur with Some l => l | None => [] end).
  { rewrite <- deserialize_embeddings. congruence. }
  clear Hold. subst old.
  destruct (driver_call_calm 1 db Hcalm) as (d1 & E1 & Hs1 & Ha1 & Hn1 & Hc1).
  destruct (driver_call_calm 0 d1 Hc1) as (d2 & E2 & Hs2 & Ha2 & Hn2 & _).
  unfold update_student_embeddings, students_find_one, students_update_one, bind, ret.
  rewrite E1, Hs1, Ef, E2, Hs2, Hs1, Ef.
  set (all := map pickle_loads
                match doc_embeddings cur with Some l => l | None => [] end
              ++ new_embeddings).
  assert (Hchanged :
    match doc_embeddings cur with
    | Some l => list_eqb Binary_eqb l (map pickle_dumps all)
    | None => false
    end = false).
  { destruct (doc_embeddings cur) as [l|] eqn:El; [|reflexivity].
    destruct (list_eqb Binary_eqb l (map pickle_dumps all)) eqn:Eq; [|reflexivity].
    apply list_eqb_length in Eq. subst all.
    rewrite length_map, length_app, length_map in Eq.
    destruct new_embeddings; [congruence|]. simpl in Eq. lia. }
  rewrite Hchanged. cbn [andb negb].
  eexists. split; [reflexivity|]. unfold stored_embeddings. cbn [students attendance].
  split; [|split; [|split]].
  - rewrite (find_update_first _ _ _ _ Ef).
    + rewrite deserialize_embeddings. cbn [doc_embeddings].
      now rewrite pickle_roundtrip.
    + exact (proj2 (find_some _ _ Ef)).
  - intros other Hne. rewrite find_update_first_other; [reflexivity|].
    intros d Hd. split; eapply has_student_id_other; eauto.
  - apply update_first_length.
  - congruence.
Qed.

Section Augmentation.

Variable path_exists : string -> bool.
Variable DeepFace_represent : string -> string -> string -> res (list ndarray).
Variable self : FaceService.

Local Abbreviation successes := (extracted path_exists DeepFace_represent self).
Local Abbreviation failed := (failures path_exists DeepFace_represent self).
Local Abbreviation improve := (improve_recognition path_exists DeepFace_represent self).

(** C8. An augmentation of an identity of the store (active or not) from
    which at least one embedding is extracted, the store answering, succeeds
    whatever the number extracted: the identity then holds its former
    embeddings, unchanged and in their order, followed by the new ones, so
    its count grows by exactly their number; the other identities and the
    attendance records are untouched. *)
Theorem augmentation_appends student_id temp_paths db old :
  stored_embeddings db student_id = Some old ->
  1 <= length (successes temp_paths) ->
  calm 2 (faults db) = true ->
  exists r db1,
    improve student_id temp_paths db = (Ok r, db1) /\
    ir_added_embeddings r = length (successes temp_paths) /\
    ir_failed_images r = failed temp_paths /\
    stored_embeddings db1 student_id = Some (old ++ successes temp_paths) /\
    length (old ++ successes temp_paths)
      = length old + length (successes temp_paths) /\
    (forall other, other <> student_id ->
       stored_embeddings db1 other = stored_embeddings db other) /\
    length (students db1) = length (students db) /\
    attendance db1 = attendance db.
Proof.
  intros Hold Hn Hcalm.
  assert (Hne : successes temp_paths <> []).
  { intros E. rewrite E in Hn. simpl in Hn. lia. }
  destruct (update_student_embeddings_appends student_id (successes temp_paths)
              temp_paths db old Hold Hne Hcalm) as (db1 & E & Hst & Hoth & Hlen & Hatt).
  unfold improve_recognition, try_except, bind, ret.
  rewrite process_images_from. cbn [app].
  destruct (successes temp_paths) as [|emb embs] eqn:Es; [congruence|].
  rewrite E. eexists _, db1. split; [reflexivity|]. cbn [ir_added_embeddings ir_failed_images].
  repeat (split; [solve [auto using length_app]|]). exact Hatt.
Qed.

End Augmentation.

(** ** The distance on a vector of norm zero *)

Module Degenerate.

Definition sf_degenerate (f : spec_float) : bool :=
  match f with
  | S754_nan | S754_infinity _ => true
  | _ => false
  end.

Lemma degenerate_spec d : sf_degenerate (Prim2SF d) = true -> degenerate d = true.
Proof.
  unfold degenerate, is_finite, is_nan, is_infinity. rewrite negb_involutive.
  rewrite !FloatAxioms.eqb_spec, abs_spec.
  change (Prim2SF infinity) with (S754_infinity false).
  destruct (Prim2SF d) as [s|s| |s m e]; simpl; try discriminate; intros _.
  - now destruct s.
  - reflexivity.
Qed.

Lemma eqb_zero_spec n : (n =? 0)%float = true -> exists s, Prim2SF n = S754_zero s.
Proof.
  rewrite FloatAxioms.eqb_spec. change (Prim2SF 0) with (S754_zero false).
  destruct (Prim2SF n) as [s|s| |s m e]; simpl; try discriminate; eauto;
    destruct s; discriminate.
Qed.

Lemma one_spec : exists m e, Prim2SF 1 = S754_finite false m e.
Proof. vm_compute. eauto. Qed.

(** [1 - x / (n1 * n2)] when one of the norms is zero. *)
Lemma sub_div_mul_zero x n1 n2 :
  (exists s, Prim2SF n1 = S754_zero s) \/ (exists s, Prim2SF n2 = S754_zero s) ->
  sf_degenerate (Prim2SF (1 - x / (n1 * n2))%float) = true.
Proof.
  rewrite sub_spec, div_spec, mul_spec.
  destruct one_spec as (m1 & e1 & ->).
  intros [[s ->]|[s ->]].
  - destruct (Prim2SF n2) as [s2|s2| |s2 m2 e2], (Prim2SF x) as [sx|sx| |sx mx ex];
      reflexivity.
  - destruct (Prim2SF n1) as [s2|s2| |s2 m2 e2], (Prim2SF x) as [sx|sx| |sx mx ex];
      reflexivity.
Qed.

(** On a vector of norm zero [cosine_distance] raises nothing: it returns a
    NaN or an infinity. *)
Lemma cosine_distance_zero_norm emb1 emb2 :
  length emb1 = length emb2 ->
  (np_linalg_norm emb1 =? 0)%float = true \/ (np_linalg_norm emb2 =? 0)%float = true ->
  exists d, cosine_distance emb1 emb2 = Ok d /\ degenerate d = true.
Proof.
  intros Hlen Hzero. unfold cosine_distance, np_dot.
  rewrite Hlen, Nat.eqb_refl. eexists. split; [reflexivity|].
  apply degenerate_spec, sub_div_mul_zero.
  destruct Hzero as [H|H]; [left|right]; now apply eqb_zero_spec.
Qed.

End Degenerate.

(** ** Worked examples on the small deployment *)

(** C3. The code at a vector of norm zero: [cosine_distance] raises nothing
    and returns NaN, where the distance is specified to fail (or to be
    [+inf]). Every vector of norm zero does so, up to an infinity
    ([Degenerate.cosine_distance_zero_norm]). *)
Theorem cosine_distance_zero_vector :
  cosine_distance [0; 0]%float [1; 2]%float = Ok nan /\
  degenerate nan = true /\
  proper nan = false.
Proof. vm_compute. auto. Qed.

(** C1. The code on a store where the first reference of Alice has norm
    zero and her second is the probe itself, at distance 0: her distances
    are NaN, 0 and 0.6, [min] keeps the leading NaN, and no NaN is ever
    below the running best. [verify_face] reports a match with Bob, at a
    distance above 0, where the aggregate distance of Alice is the global
    minimum. *)
Theorem verify_misses_closest_identity :
  exists all_matches db1 alice bob,
    Campus.verify "probe.jpg" Campus.db_alice_blank
      = (Ok (VerifyMatched
               {| c_student_id := "s2"; c_name := "Bob";
                  c_distance := 0x1.9999999999998p-3 |}
               0x1.999999999999ap-1 0x1.9999999999998p-3 all_matches), db1) /\
    active_identities Campus.db_alice_blank = [alice; bob] /\
    se_student_id alice = "s1" /\ se_student_id bob = "s2" /\
    se_embeddings alice
      = [[0; 0; 0; 0]%float; Campus.probe; [2; 4; 2; 1]%float] /\
    student_distances_loop Campus.probe (se_embeddings alice) []
      = Ok [nan; 0%float; 0x1.3333333333333p-1%float] /\
    min_student_distance Campus.probe alice = Ok nan /\
    min_student_distance Campus.probe bob = Ok 0x1.9999999999998p-3%float /\
    (0 <? 0x1.9999999999998p-3)%float = true.
Proof.
  eexists _, _, _, _.
  repeat (split; [vm_compute; reflexivity|]).
  vm_compute. reflexivity.
Qed.

(** C9. The code on a probe of norm zero: every comparison divides by zero
    and gives NaN, nothing raises, and [verify_face] reports success with
    no match, no best match and no key ["error"]: the degenerate input
    comes out as the normal not-matched result. *)
Theorem verify_hides_degenerate_probe :
  exists r all_matches db1,
    generate_embedding Campus.path_exists Campus.DeepFace_represent
      Campus.service "blank.jpg" = Ok [0; 0; 0; 0]%float /\
    length (active_identities Campus.db_alice_bob) = 2 /\
    Forall (fun s =>
              Forall (fun e => cosine_distance [0; 0; 0; 0]%float e = Ok nan)
                (se_embeddings s))
      (active_identities Campus.db_alice_bob) /\
    degenerate nan = true /\
    r = VerifyNotMatched None neg_infinity infinity all_matches /\
    Campus.verify "blank.jpg" Campus.db_alice_bob = (Ok r, db1) /\
    verify_success r = true /\
    verify_error r = None /\
    verify_matched r = Some false /\
    verify_best_match r = None.
Proof.
  eexists _, _, _.
  split; [vm_compute; reflexivity|].
  split; [vm_compute; reflexivity|].
  split; [vm_compute; repeat constructor|].
  split; [vm_compute; reflexivity|].
  split; [reflexivity|].
  repeat (split; [vm_compute; reflexivity|]).
  vm_compute. reflexivity.
Qed.

(** With a probe of norm zero every distance is NaN: [verify_face] reports
    success, no match and no best match. *)
Example verify_blank_probe :
  fst (Campus.verify "blank.jpg" Campus.db_alice_bob)
  = Ok (VerifyNotMatched None neg_infinity infinity
          [{| c_student_id := "s1"; c_name := "Alice"; c_distance := nan |};
           {| c_student_id := "s2"; c_name := "Bob"; c_distance := nan |}]).
Proof. vm_compute. reflexivity. Qed.

(** Bob, second in the collection, is the closest. *)
Example verify_closest_identity :
  option_map c_student_id
    (match fst (Campus.verify "probe.jpg" Campus.db_alice_bob) with
     | Ok r => verify_best_match r
     | Raise _ => None
     end) = Some "s2".
Proof. vm_compute. reflexivity. Qed.

(** Alice and Carol are at the same distance: Alice, seen first, wins. *)
Example verify_tie_first_seen :
  option_map c_student_id
    (match fst (Campus.verify "probe.jpg" Campus.db_alice_carol) with
     | Ok r => verify_best_match r
     | Raise _ => None
     end) = Some "s1".
Proof. vm_compute. reflexivity. Qed.

(** Eve has no embedding: the verification fails on [min]. *)
Example verify_empty_embeddings :
  fst (Campus.verify "probe.jpg" Campus.db_eve)
  = Ok (VerifyError "min() arg is an empty sequence").
Proof. vm_compute. reflexivity. Qed.

(** The store fails after the match: an error, and no record. *)
Example mark_attendance_store_failure :
  exists db2,
    Campus.mark "probe.jpg" (Some "2024-01-02T10:00:00") Campus.db_failing
      = (Ok (AttendanceError "connection reset by peer"), db2) /\
    attendance db2 = [].
Proof. eexists. vm_compute. split; reflexivity. Qed.

Lemma verify_selects_first_global_minimum_witness :
  exists r db1 s d,
    Campus.verify "probe.jpg" Campus.db_alice_bob = (Ok r, db1) /\
    first_global_minimum Campus.probe (active_identities Campus.db_alice_bob) s d /\
    verify_best_match r = Some (candidate_of s d) /\
    verify_distance r = Some d /\
    verify_confidence r = Some (1 - d)%float /\
    verify_matched r = Some (d <=? confidence_threshold Campus.service)%float.
Proof.
  apply (verify_selects_first_global_minimum
           Campus.path_exists Campus.DeepFace_represent Campus.service
           "probe.jpg" Campus.db_alice_bob Campus.probe).
  - vm_compute. reflexivity.
  - vm_compute. reflexivity.
  - vm_compute. discriminate.
  - vm_compute. reflexivity.
Defined.


Lemma verify_outcomes_witness :
  exists r db1,
    Campus.verify "probe.jpg" Campus.empty_db = (Ok r, db1) /\
    r = VerifyNoStudents /\ verify_success r = true /\
    verify_matched r = Some false.
Proof.
  destruct (verify_outcomes Campus.path_exists Campus.DeepFace_represent
              Campus.service "probe.jpg" Campus.empty_db)
    as (r & db1 & E & Hempty & _).
  exists r, db1. split; [exact E|].
  apply (Hempty Campus.probe); vm_compute; reflexivity.
Defined.

Lemma verify_fails_on_empty_embeddings_witness :
  (forall input_embedding,
     min_student_distance input_embedding
       {| se_student_id := "s5"; se_name := "Eve"; se_embeddings := [] |}
     = Raise (ValueError "min() arg is an empty sequence")) /\
  exists error db1,
    Campus.verify "probe.jpg" Campus.db_eve = (Ok (VerifyError error), db1) /\
    verify_success (VerifyError error) = false /\
    verify_matched (VerifyError error) = None.
Proof.
  apply (verify_fails_on_empty_embeddings
           Campus.path_exists Campus.DeepFace_represent Campus.service
           "probe.jpg" Campus.db_eve).
  - vm_compute. right. left. reflexivity.
  - reflexivity.
Defined.

Lemma mark_attendance_atomic_witness :
  exists r db2,
    Campus.mark "probe.jpg" (Some "2024-01-02T10:00:00") Campus.db_alice_bob
      = (Ok r, db2) /\
    r = AttendanceMarked 2 "s2" "Bob" 0x1.999999999999ap-1%float /\
    exists record,
      attendance db2 = [record] /\ att_id record = 2 /\
      att_student_id record = "s2" /\
      att_check_in record = Some "2024-01-02T10:00:00".
Proof.
  edestruct (mark_attendance_atomic
               Campus.path_exists Campus.DeepFace_represent Campus.service
               "probe.jpg" (Some "2024-01-02T10:00:00") Campus.db_alice_bob)
    as (r & db2 & E & _ & Hmatched & _).
  - vm_compute. reflexivity.
  - exists r, db2. split; [exact E|].
    destruct (Hmatched _ _ _ _ eq_refl) as (Hr & record & Hrec);
      [vm_compute; reflexivity|].
    split; [exact Hr|]. exists record. exact Hrec.
Defined.

Lemma process_images_tolerates_failures_witness :
  process_images Campus.path_exists Campus.DeepFace_represent Campus.service
    ["b1.jpg"; "blurred.jpg"; "missing.jpg"; "b2.jpg"; "wall.jpg"; "b3.jpg"] [] []
  = ([[3; 0; 4; 0]%float; [4; 0; 3; 0]%float; [0; 1; 0; 0]%float],
     [{| fi_path := "blurred.jpg"; fi_error := "Face could not be detected" |};
      {| fi_path := "missing.jpg"; fi_error := "Image not found: missing.jpg" |};
      {| fi_path := "wall.jpg"; fi_error := "No face detected in the image" |}]).
Proof.
  rewrite (proj1 (process_images_tolerates_failures
                    Campus.path_exists Campus.DeepFace_represent Campus.service _)).
  vm_compute. reflexivity.
Defined.

(** C4, as the claim words it, fails on a call with no image: fewer than 3
    embeddings are extracted, and the failure returned reports neither their
    count nor any per-image cause. *)
Lemma register_without_images_reports_no_count :
  length (extracted Campus.path_exists Campus.DeepFace_represent Campus.service [])
    < 3 /\
  fst (Campus.register "Zed" "s7" [] Campus.db_alice)
    = Ok (RegisterError "At least one image is required") /\
  ~ (exists error failed_images,
       fst (Campus.register "Zed" "s7" [] Campus.db_alice)
       = Ok (RegisterInsufficient error failed_images)).
Proof.
  split; [simpl; lia|]. split; [reflexivity|].
  intros (error & failed_images & H). vm_compute in H. discriminate.
Qed.

Lemma register_minimum_embeddings_witness :
  exists r db1,
    Campus.register "Bob" "s2" ["b1.jpg"; "blurred.jpg"; "b2.jpg"; "b3.jpg"]
      Campus.db_alice = (Ok r, db1) /\
    r = Registered "s2" "Bob" 1 4 3
          [{| fi_path := "blurred.jpg"; fi_error := "Face could not be detected" |}]
          "Student registered with 3 face embeddings" /\
    stored_embeddings db1 "s2"
      = Some [[3; 0; 4; 0]%float; [4; 0; 3; 0]%float; [0; 1; 0; 0]%float] /\
    (exists db2,
       Campus.register "Bob" "s2" ["b1.jpg"; "blurred.jpg"; "b2.jpg"]
         Campus.db_alice
       = (Ok (RegisterInsufficient
                "Only 2 images processed successfully. Need at least 3."
                [{| fi_path := "blurred.jpg";
                    fi_error := "Face could not be detected" |}]), db2) /\
       students db2 = students Campus.db_alice).
Proof.
  destruct (register_minimum_embeddings
              Campus.path_exists Campus.DeepFace_represent Campus.service
              "Bob" "s2" ["b1.jpg"; "blurred.jpg"; "b2.jpg"; "b3.jpg"] Campus.db_alice)
    as (r & db1 & E & _ & _ & _ & Hok).
  destruct (register_minimum_embeddings
              Campus.path_exists Campus.DeepFace_represent Campus.service
              "Bob" "s2" ["b1.jpg"; "blurred.jpg"; "b2.jpg"] Campus.db_alice)
    as (r' & db2 & E' & _ & Hnone & Hfew & _).
  exists r, db1. split; [exact E|].
  destruct Hok as (Hr & _ & Hst);
    [discriminate|discriminate|reflexivity|reflexivity|vm_compute; lia|].
  split; [exact Hr|]. split; [exact Hst|].
  exists db2. split.
  - unfold Campus.register. rewrite E'. f_equal. f_equal.
    apply Hfew; [discriminate|discriminate|discriminate|reflexivity|reflexivity|].
    vm_compute. lia.
  - apply Hnone. vm_compute. lia.
Defined.

(** C5, as the claim words it, fails on a call with an empty name: the
    identifier is taken, and the failure returned is the missing name, not
    the conflict on the identifier. *)
Lemma register_duplicate_with_empty_name :
  identity_exists Campus.db_alice "s1" = true /\
  fst (Campus.register "" "s1" ["a1.jpg"; "a2.jpg"; "a3.jpg"] Campus.db_alice)
    = Ok (RegisterError "Name and student ID are required") /\
  fst (Campus.register "" "s1" ["a1.jpg"; "a2.jpg"; "a3.jpg"] Campus.db_alice)
    <> Ok (RegisterError "Student ID s1 already exists").
Proof.
  split; [reflexivity|]. split; [reflexivity|].
  intros H. vm_compute in H. discriminate.
Qed.

(** Bob is soft-deleted in this store: his identifier is still taken. *)
Lemma register_duplicate_conflict_witness :
  exists error db1,
    Campus.register "Robert" "s2" ["b1.jpg"; "b2.jpg"; "b3.jpg"]
      Campus.db_alice_carol = (Ok (RegisterError error), db1) /\
    error = "Student ID s2 already exists" /\
    students db1 = students Campus.db_alice_carol /\
    active_identities db1 = active_identities Campus.db_alice_carol /\
    existsb (fun s => String.eqb (se_student_id s) "s2") (active_identities db1)
      = false.
Proof.
  destruct (register_duplicate_conflict
              Campus.path_exists Campus.DeepFace_represent Campus.service
              "Robert" "s2" ["b1.jpg"; "b2.jpg"; "b3.jpg"] Campus.db_alice_carol)
    as (error & db1 & E & Hs & _ & _ & _ & Hconflict);
    [reflexivity|].
  exists error, db1. split; [exact E|].
  split; [apply Hconflict; (discriminate || reflexivity)|].
  split; [exact Hs|]. unfold active_identities. rewrite Hs.
  split; reflexivity.
Defined.

Lemma augmentation_appends_witness :
  exists r db1,
    Campus.improve "s1" ["b1.jpg"; "blurred.jpg"] Campus.db_alice = (Ok r, db1) /\
    ir_added_embeddings r = 1 /\
    stored_embeddings db1 "s1"
      = Some [[2; 4; 2; 1]%float; [1; 1; 0; 0]%float; [1; 0; 0; 1]%float;
              [3; 0; 4; 0]%float].
Proof.
  destruct (augmentation_appends
              Campus.path_exists Campus.DeepFace_represent Campus.service
              "s1" ["b1.jpg"; "blurred.jpg"] Campus.db_alice
              [[2; 4; 2; 1]%float; [1; 1; 0; 0]%float; [1; 0; 0; 1]%float])
    as (r & db1 & E & Hadded & _ & Hst & _);
    [reflexivity|vm_compute; lia|reflexivity|].
  exists r, db1. split; [exact E|]. split; [exact Hadded|exact Hst].
Defined.

(** * The rest of the code *)

(** ** What each writer does to the collections *)

Lemma students_update_one_outcome student_id set changed db r db1 :
  students_update_one student_id set changed db = (r, db1) ->
  attendance db1 = attendance db /\ next_oid db1 = next_oid db /\
  match r with
  | Raise _ => students db1 = students db /\ calm 1 (faults db) = false
  | Ok 0 =>
      students db1 = students db /\ calm 1 (faults db) = true /\
      match find (has_student_id student_id) (students db) with
      | Some cur => changed cur = false
      | None => True
      end
  | Ok (S n) =>
      n = 0 /\ calm 1 (faults db) = true /\
      exists cur,
        find (has_student_id student_id) (students db) = Some cur /\
        changed cur = true /\
        students db1 = update_first (has_student_id student_id) set (students db)
  end.
Proof.
  unfold students_update_one, bind.
  destruct (driver_call_cases db) as [(d1 & E & C)|(msg & d1 & E & C)];
    rewrite E; cbv beta iota;
    destruct (driver_call_frame _ _ _ E) as (Hs & Ha & Hn).
  - rewrite Hs.
    destruct (find (has_student_id student_id) (students db)) as [cur|] eqn:Ef.
    + destruct (changed cur) eqn:Ec; intros [= <- <-];
        cbn [students attendance next_oid]; eauto 10.
    + intros [= <- <-]. auto.
  - intros [= <- <-]. auto.
Qed.

Lemma add_student_outcome name student_id embeddings image_paths db r db1 :
  add_student name student_id embeddings image_paths db = (r, db1) ->
  attendance db1 = attendance db /\
  match r with
  | Ok oid =>
      oid = next_oid db /\ identity_exists db student_id = false /\
      calm 1 (faults db) = true /\
      students db1 = students db ++
        [{| doc_id := oid;
            doc_name := name;
            doc_student_id := student_id;
            doc_embeddings := Some (map pickle_dumps embeddings);
            doc_image_count := length embeddings;
            doc_image_paths := image_paths;
            doc_is_active := true;
            doc_created_at := None |}]
  | Raise e =>
      students db1 = students db /\
      (calm 1 (faults db) = true -> identity_exists db student_id = true)
  end.
Proof.
  unfold add_student, students_insert_one, bind, identity_exists.
  destruct (driver_call_cases db) as [(d1 & E & C)|(msg & d1 & E & C)];
    rewrite E; cbv beta iota;
    destruct (driver_call_frame _ _ _ E) as (Hs & Ha & Hn).
  - rewrite Hs.
    destruct (existsb (has_student_id student_id) (students db)) eqn:Ex;
      intros [= <- <-]; cbn [students attendance]; rewrite ?Hn, ?Hs; auto.
  - intros [= <- <-]. split; [exact Ha|]. split; [exact Hs|]. congruence.
Qed.

(** The document [update_student_embeddings] writes over [cur]. *)
Lemma update_student_embeddings_outcome student_id new_embeddings new_image_paths
    db r db1 :
  update_student_embeddings student_id new_embeddings new_image_paths db = (r, db1) ->
  attendance db1 = attendance db /\
  (students db1 = students db \/
   exists cur,
     find (has_student_id student_id) (students db) = Some cur /\
     r = Ok true /\
     students db1
     = update_first (has_student_id student_id)
         (fun d =>
            {| doc_id := doc_id d;
               doc_name := doc_name d;
               doc_student_id := doc_student_id d;
               doc_embeddings :=
                 Some (map pickle_dumps
                         (st_embeddings (_deserialize_student cur) ++ new_embeddings));
               doc_image_count :=
                 length (st_embeddings (_deserialize_student cur) ++ new_embeddings);
               doc_image_paths := doc_image_paths cur ++ new_image_paths;
               doc_is_active := doc_is_active d;
               doc_created_at := doc_created_at d |})
         (students db)) /\
  (r = Ok false -> students db1 = students db) /\
  (forall e, r = Raise e -> students db1 = students db).
Proof.
  unfold update_student_embeddings, students_find_one, bind, ret.
  destruct (driver_call db) as [[[]|e] d1] eqn:E1;
    destruct (driver_call_frame _ _ _ E1) as (Hs1 & Ha1 & Hn1).
  2:{ intros [= <- <-]. repeat split; auto; try discriminate. }
  rewrite Hs1.
  destruct (find (has_student_id student_id) (students db)) as [cur|] eqn:Ef.
  2:{ intros [= <- <-]. repeat split; auto; try discriminate. }
  rewrite <- deserialize_embeddings.
  match goal with
  | |- context [students_update_one ?s ?f ?c d1] =>
      destruct (students_update_one s f c d1) as [[n|e] d2] eqn:E2;
      destruct (students_update_one_outcome _ _ _ _ _ _ E2) as (Ha2 & Hn2 & H2)
  end.
  - destruct n as [|n].
    + destruct H2 as (Hs2 & _). intros [= <- <-].
      split; [congruence|]. split; [left; congruence|].
      split; intros; congruence.
    + destruct H2 as (-> & _ & cur' & Ef' & _ & Hs2). intros [= <- <-].
      rewrite Hs1 in Ef', Hs2. split; [congruence|]. split.
      * right. exists cur. split; [reflexivity|]. split; [reflexivity|]. exact Hs2.
      * split; discriminate.
  - destruct H2 as (Hs2 & _). intros [= <- <-].
    split; [congruence|]. split; [left; congruence|].
    split; intros; congruence.
Qed.

Lemma delete_student_outcome student_id db r db1 :
  delete_student student_id db = (r, db1) ->
  attendance db1 = attendance db /\
  match r with
  | Ok true =>
      calm 1 (faults db) = true /\
      exists cur,
        find (has_student_id student_id) (students db) = Some cur /\
        doc_is_active cur = true /\
        students db1
        = update_first (has_student_id student_id)
            (fun d =>
               {| doc_id := doc_id d;
                  doc_name := doc_name d;
                  doc_student_id := doc_student_id d;
                  doc_embeddings := doc_embeddings d;
                  doc_image_count := doc_image_count d;
                  doc_image_paths := doc_image_paths d;
                  doc_is_active := false;
                  doc_created_at := doc_created_at d |})
            (students db)
  | Ok false =>
      students db1 = students db /\ calm 1 (faults db) = true /\
      match find (has_student_id student_id) (students db) with
      | Some cur => doc_is_active cur = false
      | None => True
      end
  | Raise _ => students db1 = students db /\ calm 1 (faults db) = false
  end.
Proof.
  unfold delete_student, bind, ret.
  match goal with
  | |- context [students_update_one ?s ?f ?c db] =>
      destruct (students_update_one s f c db) as [[n|e] d2] eqn:E2;
      destruct (students_update_one_outcome _ _ _ _ _ _ E2) as (Ha2 & Hn2 & H2)
  end.
  - destruct n as [|n]; intros [= <- <-]; (split; [exact Ha2|]).
    + exact H2.
    + destruct H2 as (-> & Hc & cur & Ef & Hact & Hs). simpl. eauto 10.
  - intros [= <- <-]. auto.
Qed.

(** ** The invariants of the store *)

Lemma In_update_first p f (l : list student_doc) cur d :
  find p l = Some cur ->
  In d (update_first p f l) -> In d l \/ d = f cur.
Proof.
  induction l as [|x l IH]; simpl; [discriminate|].
  destruct (p x) eqn:Hx.
  - intros [= ->] [<-|H]; auto.
  - intros Hf [<-|H]; auto. destruct (IH Hf H); auto.
Qed.

Lemma map_update_first {B} (g : student_doc -> B) p f (l : list student_doc) :
  (forall d, g (f d) = g d) ->
  map g (update_first p f l) = map g l.
Proof.
  intros H. induction l as [|x l IH]; simpl; [reflexivity|].
  destruct (p x); simpl; congruence.
Qed.

Lemma existsb_has_student_id student_id l :
  existsb (has_student_id student_id) l = false ->
  ~ In student_id (map doc_student_id l).
Proof.
  induction l as [|x l IH]; simpl; [tauto|].
  intros H. apply orb_false_elim in H as [Hx Hl]. intros [E|HI].
  - unfold has_student_id in Hx. rewrite E, String.eqb_refl in Hx. discriminate.
  - now apply IH.
Qed.

Lemma NoDup_snoc {A} (l : list A) x : NoDup l -> ~ In x l -> NoDup (l ++ [x]).
Proof.
  induction 1 as [|y l Hy Hl IH]; simpl; intros Hx.
  - constructor; [tauto|constructor].
  - constructor.
    + intros H. apply in_app_or in H as [H|[<-|[]]]; tauto.
    + apply IH. tauto.
Qed.

Lemma students_change_weaken k l l' :
  students_change k l l' -> students_change 0 l l'.
Proof.
  intros [ |d Hf Hc Hk|student_id cur f Hfind Hid Hc Hlen].
  - constructor.
  - constructor; auto. lia.
  - econstructor; eauto.
Qed.

Lemma students_change_unique k l l' :
  students_change k l l' ->
  NoDup (map doc_student_id l) -> NoDup (map doc_student_id l').
Proof.
  intros [ |d Hf Hc Hk|student_id cur f Hfind Hid Hc Hlen] Hnd.
  - exact Hnd.
  - rewrite map_app. simpl. apply NoDup_snoc; [exact Hnd|].
    now apply existsb_has_student_id.
  - now rewrite map_update_first.
Qed.

Lemma students_change_counts k l l' :
  students_change k l l' ->
  (forall d, In d l ->
     doc_image_count d = length (st_embeddings (_deserialize_student d))) ->
  (forall d, In d l' ->
     doc_image_count d = length (st_embeddings (_deserialize_student d))).
Proof.
  intros [ |d Hf Hc Hk|student_id cur f Hfind Hid Hc Hlen] Hall x Hx.
  - auto.
  - apply in_app_or in Hx as [Hx|[<-|[]]]; auto.
  - destruct (In_update_first _ _ _ _ _ Hfind Hx) as [H| ->]; auto.
    apply Hc, Hall. exact (proj1 (find_some _ _ Hfind)).
Qed.

Lemma students_change_references k l l' :
  students_change k l l' ->
  (forall d, In d l -> k <= length (st_embeddings (_deserialize_student d))) ->
  (forall d, In d l' -> k <= length (st_embeddings (_deserialize_student d))).
Proof.
  intros [ |d Hf Hc Hk|student_id cur f Hfind Hid Hc Hlen] Hall x Hx.
  - auto.
  - apply in_app_or in Hx as [Hx|[<-|[]]]; auto.
  - destruct (In_update_first _ _ _ _ _ Hfind Hx) as [H| ->]; auto.
    pose proof (Hall cur (proj1 (find_some _ _ Hfind))). lia.
Qed.

Lemma new_document_embeddings oid name student_id embeddings image_paths :
  st_embeddings
    (_deserialize_student
       {| doc_id := oid;
          doc_name := name;
          doc_student_id := student_id;
          doc_embeddings := Some (map pickle_dumps embeddings);
          doc_image_count := length embeddings;
          doc_image_paths := image_paths;
          doc_is_active := true;
          doc_created_at := None |}) = embeddings.
Proof. rewrite deserialize_embeddings. simpl. apply pickle_roundtrip. Qed.

Lemma pickled_embeddings d embeddings :
  doc_embeddings d = Some (map pickle_dumps embeddings) ->
  st_embeddings (_deserialize_student d) = embeddings.
Proof.
  intros H. rewrite deserialize_embeddings, H. apply pickle_roundtrip.
Qed.

Lemma add_student_change k name student_id embeddings image_paths db :
  k <= length embeddings ->
  students_change k (students db)
    (students (snd (add_student name student_id embeddings image_paths db))).
Proof.
  intros Hk.
  destruct (add_student name student_id embeddings image_paths db) as [r db1] eqn:E.
  destruct (add_student_outcome _ _ _ _ _ _ _ E) as (_ & H). simpl.
  destruct r as [oid|e].
  - destruct H as (-> & Hfresh & _ & ->).
    apply change_insert; rewrite ?new_document_embeddings; auto.
  - destruct H as (-> & _). constructor.
Qed.

Lemma update_student_embeddings_change k student_id new_embeddings new_image_paths db :
  students_change k (students db)
    (students (snd (update_student_embeddings student_id new_embeddings
                      new_image_paths db))).
Proof.
  destruct (update_student_embeddings student_id new_embeddings new_image_paths db)
    as [r db1] eqn:E.
  cbn [snd].
  destruct (update_student_embeddings_outcome _ _ _ _ _ _ E)
    as (_ & [->|(cur & Hfind & _ & ->)] & _); [constructor|].
  eapply change_rewrite; eauto.
  - intros _. cbn [doc_image_count]. symmetry. f_equal.
    now apply pickled_embeddings.
  - match goal with
    | |- _ <= length (st_embeddings (_deserialize_student ?D)) =>
        rewrite (pickled_embeddings D
                   (st_embeddings (_deserialize_student cur) ++ new_embeddings)
                   eq_refl)
    end.
    rewrite length_app. lia.
Qed.

Lemma delete_student_change k student_id db :
  students_change k (students db) (students (snd (delete_student student_id db))).
Proof.
  destruct (delete_student student_id db) as [r db1] eqn:E.
  destruct (delete_student_outcome _ _ _ _ E) as (_ & H). simpl.
  destruct r as [[|]|e].
  - destruct H as (_ & cur & Hfind & _ & ->).
    eapply change_rewrite; eauto.
  - destruct H as (-> & _). constructor.
  - destruct H as (-> & _). constructor.
Qed.

Lemma get_all_students_frame db r db1 :
  get_all_students db = (r, db1) ->
  students db1 = students db /\ attendance db1 = attendance db /\
  next_oid db1 = next_oid db /\
  match r with
  | Ok all_students =>
      all_students = map _deserialize_student (filter doc_is_active (students db)) /\
      calm 1 (faults db) = true
  | Raise e => exists msg, e = PyMongoError msg /\ calm 1 (faults db) = false
  end.
Proof.
  unfold get_all_students, students_find_active, bind, ret.
  destruct (driver_call_cases db) as [(d1 & E & C)|(msg & d1 & E & C)];
    rewrite E; cbv beta iota;
    destruct (driver_call_frame _ _ _ E) as (Hs & Ha & Hn);
    intros [= <- <-]; rewrite ?Hs; eauto 10.
Qed.

Lemma get_system_stats_frame self db :
  exists r db1,
    get_system_stats self db = (Ok r, db1) /\
    students db1 = students db /\ attendance db1 = attendance db /\
    next_oid db1 = next_oid db.
Proof.
  unfold get_system_stats, try_except, bind, ret.
  destruct (get_all_students db) as [[all_students|e] db1] eqn:E;
    destruct (get_all_students_frame _ _ _ E) as (Hs & Ha & Hn & _); eauto 10.
Qed.

Lemma get_attendance_by_date_frame date db r db1 :
  get_attendance_by_date date db = (r, db1) ->
  students db1 = students db /\ attendance db1 = attendance db /\
  next_oid db1 = next_oid db.
Proof.
  unfold get_attendance_by_date, attendance_find_date, bind, ret.
  destruct (driver_call db) as [[[]|e] d1] eqn:E;
    destruct (driver_call_frame _ _ _ E) as (Hs & Ha & Hn);
    intros [= <- <-]; auto.
Qed.

Section CallsKeepInvariants.

Variable path_exists : string -> bool.
Variable DeepFace_represent : string -> string -> string -> res (list ndarray).
Variable self : FaceService.

Local Abbreviation successes := (extracted path_exists DeepFace_represent self).
Local Abbreviation register := (register_student path_exists DeepFace_represent self).
Local Abbreviation verify := (verify_face path_exists DeepFace_represent self).
Local Abbreviation mark := (mark_attendance path_exists DeepFace_represent self).
Local Abbreviation improve := (improve_recognition path_exists DeepFace_represent self).
Local Abbreviation run := (run_call path_exists DeepFace_represent self).
Local Abbreviation runs := (run_calls path_exists DeepFace_represent self).

(** What a registration leaves in the store. *)
Lemma register_student_store name student_id image_paths db r db1 :
  register name student_id image_paths db = (r, db1) ->
  attendance db1 = attendance db /\
  ((students db1 = students db /\ exists x, r = Ok x /\ register_success x = false) \/
   (3 <= length (successes image_paths) /\
    identity_exists db student_id = false /\
    name <> "" /\ student_id <> "" /\
    (exists x, r = Ok x /\ register_success x = true) /\
    students db1 = students db ++
      [{| doc_id := next_oid db;
          doc_name := name;
          doc_student_id := student_id;
          doc_embeddings := Some (map pickle_dumps (successes image_paths));
          doc_image_count := length (successes image_paths);
          doc_image_paths := image_paths;
          doc_is_active := true;
          doc_created_at := None |}])).
Proof.
  unfold register_student, try_except, bind, ret.
  destruct (String.eqb name "") eqn:Hname; cbn [orb].
  { intros [= <- <-]. split; [reflexivity|]. left. eauto. }
  destruct (String.eqb student_id "") eqn:Hid.
  { intros [= <- <-]. split; [reflexivity|]. left. eauto. }
  apply String.eqb_neq in Hname, Hid.
  destruct image_paths as [|p rest].
  { intros [= <- <-]. split; [reflexivity|]. left. eauto. }
  destruct (get_student_by_id student_id db) as [[found|e] d1] eqn:Eg;
    destruct (get_student_by_id_outcome _ _ _ _ Eg) as (Hs & Ha & Hn & Hr).
  2:{ intros [= <- <-]. split; [exact Ha|]. left. eauto. }
  destruct Hr as (-> & Hc & Hc').
  destruct (find (has_student_id student_id) (students db)) as [d|] eqn:Ef;
    cbn [option_map].
  { intros [= <- <-]. split; [exact Ha|]. left. eauto. }
  rewrite process_images_from. cbn [app].
  destruct (Nat.ltb_spec (length (successes (p :: rest))) 3) as [Hlt|Hge].
  { intros [= <- <-]. split; [exact Ha|]. left. eauto. }
  destruct (add_student name student_id (successes (p :: rest)) (p :: rest) d1)
    as [[oid|e] d2] eqn:Ea;
    destruct (add_student_outcome _ _ _ _ _ _ _ Ea) as (Ha2 & H2).
  - destruct H2 as (-> & Hfresh & _ & Hs2). intros [= <- <-].
    split; [congruence|]. right. split; [exact Hge|].
    unfold identity_exists in *. rewrite Hs in Hfresh.
    split; [exact Hfresh|]. split; [exact Hname|]. split; [exact Hid|].
    split; [eauto|]. rewrite Hs2, Hs, Hn. reflexivity.
  - destruct H2 as (Hs2 & _). intros [= <- <-].
    split; [congruence|]. left. split; [congruence|]. eauto.
Qed.

Lemma register_student_change name student_id image_paths db :
  students_change 3 (students db)
    (students (snd (register name student_id image_paths db))).
Proof.
  destruct (register name student_id image_paths db) as [r db1] eqn:E.
  cbn [snd].
  destruct (register_student_store _ _ _ _ _ _ E)
    as (_ & [(-> & _)|(Hge & Hfresh & _ & _ & _ & ->)]); [constructor|].
  apply change_insert; rewrite ?new_document_embeddings; auto.
Qed.

Lemma mark_attendance_students image_path timestamp db :
  students (snd (mark image_path timestamp db)) = students db.
Proof.
  destruct (verify_face_total path_exists DeepFace_represent self image_path db)
    as (vr & d1 & Ev & Hs & _).
  unfold mark_attendance, try_except, bind, ret. rewrite Ev.
  destruct vr as [|student confidence distance all_matches| |]; simpl; auto.
  destruct (record_attendance (c_student_id student) timestamp (Some image_path) d1)
    as [[oid|e] d2] eqn:Er;
    destruct (record_attendance_outcome _ _ _ _ _ _ Er) as (Hs2 & _);
    simpl; congruence.
Qed.

Lemma improve_recognition_change student_id temp_paths db :
  students_change 3 (students db)
    (students (snd (improve student_id temp_paths db))).
Proof.
  unfold improve_recognition, try_except, bind, ret, raise.
  rewrite process_images_from. cbn [app].
  destruct (successes temp_paths) as [|emb embs]; [constructor|].
  pose proof (update_student_embeddings_change 3 student_id (emb :: embs)
                temp_paths db) as H.
  destruct (update_student_embeddings student_id (emb :: embs) temp_paths db)
    as [[[|]|e] d1]; simpl in *; try exact H.
  destruct e; exact H.
Qed.

(** A call of the callers changes the students in the three ways of
    [students_change], with at least 3 embeddings in a new document. *)
Lemma run_call_change c db :
  students_change (if caller_call c then 3 else 0)
    (students db) (students (run db c)).
Proof.
  destruct c as [name sid paths|path|path ts|sid paths|sid| |sid|date
                |name sid embs paths|sid embs paths]; cbn [caller_call run_call].
  - apply register_student_change.
  - destruct (verify_face_total path_exists DeepFace_represent self path db)
      as (r & d1 & -> & Hs & _). cbn [snd]. rewrite Hs. constructor.
  - rewrite mark_attendance_students. constructor.
  - apply improve_recognition_change.
  - apply delete_student_change.
  - destruct (get_system_stats_frame self db) as (r & d1 & -> & Hs & _).
    cbn [snd]. rewrite Hs. constructor.
  - destruct (get_student_by_id sid db) as [r d1] eqn:E. cbn [snd].
    destruct (get_student_by_id_outcome _ _ _ _ E) as (-> & _). constructor.
  - destruct (get_attendance_by_date date db) as [r d1] eqn:E. cbn [snd].
    destruct (get_attendance_by_date_frame _ _ _ _ E) as (-> & _). constructor.
  - apply add_student_change. lia.
  - apply update_student_embeddings_change.
Qed.

End CallsKeepInvariants.

Section StoreInvariants.

Variable path_exists : string -> bool.
Variable DeepFace_represent : string -> string -> string -> res (list ndarray).
Variable self : FaceService.

Local Abbreviation run := (run_call path_exists DeepFace_represent self).
Local Abbreviation runs := (run_calls path_exists DeepFace_represent self).

Lemma run_calls_snoc db calls c : runs db (calls ++ [c]) = run (runs db calls) c.
Proof. unfold run_calls. now rewrite fold_left_app. Qed.

(** X1. Whatever the calls on the service and on the store, whatever the
    extraction gives and whenever the driver fails, no two identities of the
    store, active or soft-deleted, ever share a [student_id]. *)
Theorem calls_keep_unique_ids calls db :
  unique_ids db -> unique_ids (runs db calls).
Proof.
  unfold unique_ids. revert db.
  induction calls as [|c calls IH]; intros db H; simpl; [exact H|].
  apply IH. eapply students_change_unique; [|exact H].
  apply run_call_change.
Qed.

(** X2. Whatever the calls, the field [image_count] of every identity stays
    the number of embeddings stored for it. *)
Theorem calls_keep_counts calls db :
  counts_consistent db -> counts_consistent (runs db calls).
Proof.
  unfold counts_consistent. revert db.
  induction calls as [|c calls IH]; intros db H; simpl; [exact H|].
  apply IH. eapply students_change_counts; [|exact H].
  apply run_call_change.
Qed.

(** X3. As long as students are written through [register_student] and
    [update_student_embeddings] only (no direct [add_student]), every
    identity keeps at least 3 embeddings, so no active identity ever has an
    empty list of embeddings. *)
Theorem caller_calls_keep_three_references calls db :
  forallb caller_call calls = true ->
  three_references db ->
  three_references (runs db calls) /\
  forall s, In s (active_identities (runs db calls)) ->
    3 <= length (se_embeddings s) /\ se_embeddings s <> [].
Proof.
  intros Hcalls Hdb.
  assert (H : three_references (runs db calls)).
  { unfold three_references. revert db Hcalls Hdb.
    induction calls as [|c calls IH]; intros db Hcalls H; simpl; [exact H|].
    simpl in Hcalls. apply andb_prop in Hcalls as [Hc Hcalls].
    apply IH; [exact Hcalls|].
    pose proof (run_call_change path_exists DeepFace_represent self c db) as Hch.
    rewrite Hc in Hch. unfold three_references. intros d Hd.
    exact (students_change_references 3 _ _ Hch H d Hd). }
  split; [exact H|].
  intros s Hs. unfold active_identities in Hs.
  apply in_map_iff in Hs as (d & <- & Hd). apply filter_In in Hd as [Hd _].
  cbn [se_embeddings]. pose proof (H d Hd) as H3. split; [exact H3|].
  intros E. rewrite E in H3. simpl in H3. lia.
Qed.

End StoreInvariants.

(** ** Insertion, lookup and soft deletion *)

Lemma calm_S n fs : calm (S n) fs = true -> calm 1 fs = true.
Proof. destruct fs as [|[m|] fs]; simpl; auto. Qed.

(** X4. An identity written by [add_student] under a free identifier is
    read back by [get_student_by_id] as it was written: its handle, name
    and identifier, the embeddings in their order (through the pickled
    blobs), their count as [image_count], the image paths, and active. *)
Theorem add_student_then_get_student_by_id
    name student_id embeddings image_paths db :
  identity_exists db student_id = false ->
  calm 2 (faults db) = true ->
  exists db1 db2,
    add_student name student_id embeddings image_paths db
      = (Ok (next_oid db), db1) /\
    get_student_by_id student_id db1
      = (Ok (Some {| st_id := next_oid db;
                     st_name := name;
                     st_student_id := student_id;
                     st_embeddings := embeddings;
                     st_image_count := length embeddings;
                     st_image_paths := image_paths;
                     st_is_active := true;
                     st_created_at := None |}), db2) /\
    students db2 = students db1 /\
    length (students db1) = S (length (students db)).
Proof.
  intros Hfresh Hcalm.
  destruct (add_student name student_id embeddings image_paths db)
    as [r db1] eqn:Ea.
  destruct (add_student_outcome _ _ _ _ _ _ _ Ea) as (_ & H).
  destruct r as [oid|e].
  2:{ destruct H as (_ & H). rewrite H in Hfresh; [discriminate|].
      now apply calm_S in Hcalm. }
  destruct H as (-> & _ & _ & Hs).
  assert (Hcalm1 : calm 1 (faults db1) = true).
  { unfold add_student, students_insert_one, bind in Ea.
    destruct (driver_call_calm 1 db Hcalm) as (d1 & E & _ & _ & _ & Hc).
    rewrite E in Ea. cbv beta iota in Ea.
    destruct (existsb _ _); injection Ea as _ <-; exact Hc. }
  destruct (get_student_by_id student_id db1) as [r2 db2] eqn:Eg.
  destruct (get_student_by_id_outcome _ _ _ _ Eg) as (Hs2 & _ & _ & Hr).
  destruct r2 as [found|e]; [|congruence].
  destruct Hr as (-> & _).
  exists db1, db2. split; [reflexivity|]. split; [|split; [exact Hs2|]].
  - rewrite Eg, Hs. unfold identity_exists in Hfresh.
    rewrite (find_app_fresh _ _ _ Hfresh) by (now apply has_student_id_refl).
    cbn [option_map]. unfold _deserialize_student. cbn.
    destruct embeddings as [|emb embs]; [reflexivity|].
    cbn. now rewrite pickle_roundtrip.
  - rewrite Hs, length_app. simpl. lia.
Qed.

Lemma filter_all {A} (p : A -> bool) l :
  (forall x, In x l -> p x = true) -> filter p l = l.
Proof.
  induction l as [|x l IH]; simpl; intros H; [reflexivity|].
  rewrite (H x) by auto. f_equal. auto.
Qed.

Lemma filter_map_commute {A B} (g : A -> B) (q : B -> bool) l :
  filter q (map g l) = map g (filter (fun x => q (g x)) l).
Proof.
  induction l as [|x l IH]; simpl; [reflexivity|].
  destruct (q (g x)); simpl; now rewrite IH.
Qed.

(** Deactivating the one document of an identifier removes that identifier
    from the active ones, and nothing else. *)
Lemma filter_active_deactivated student_id f (l : list student_doc) :
  NoDup (map doc_student_id l) ->
  (forall d, doc_is_active (f d) = false) ->
  filter doc_is_active (update_first (has_student_id student_id) f l)
  = filter (fun d => negb (has_student_id student_id d)) (filter doc_is_active l).
Proof.
  intros Hnd Hf. induction l as [|x l IH]; simpl; [reflexivity|].
  inversion Hnd as [|? ? Hx Hl]; subst.
  destruct (has_student_id student_id x) eqn:Hp; simpl.
  - rewrite Hf.
    assert (Hrest : filter (fun d => negb (has_student_id student_id d))
                      (filter doc_is_active l) = filter doc_is_active l).
    { apply filter_all. intros d Hd. apply filter_In in Hd as [Hd _].
      destruct (has_student_id student_id d) eqn:Hpd; [|reflexivity].
      exfalso. apply Hx. unfold has_student_id in Hp, Hpd.
      apply String.eqb_eq in Hp, Hpd. rewrite Hp, <- Hpd. now apply in_map. }
    destruct (doc_is_active x); simpl; rewrite ?Hp; simpl; now rewrite Hrest.
  - destruct (doc_is_active x); simpl; rewrite ?Hp; simpl; now rewrite IH.
Qed.

(** X5. [delete_student] on an active identity is a soft delete: it returns
    [True]; the identity leaves the active identities (the others stay, in
    their order) and is no longer compared by [verify_face]; it is still in
    the store with its embeddings, so its identifier stays taken; the other
    identities and the attendance records are untouched. *)
Theorem delete_student_soft_deletes student_id db cur :
  unique_ids db ->
  find (has_student_id student_id) (students db) = Some cur ->
  doc_is_active cur = true ->
  calm 1 (faults db) = true ->
  exists db1,
    delete_student student_id db = (Ok true, db1) /\
    active_identities db1
    = filter (fun s => negb (String.eqb (se_student_id s) student_id))
        (active_identities db) /\
    (forall s, In s (active_identities db1) -> se_student_id s <> student_id) /\
    identity_exists db1 student_id = true /\
    stored_embeddings db1 student_id = stored_embeddings db student_id /\
    (forall other, other <> student_id ->
       find (has_student_id other) (students db1)
       = find (has_student_id other) (students db)) /\
    length (students db1) = length (students db) /\
    attendance db1 = attendance db.
Proof.
  intros Hu Hfind Hact Hcalm.
  destruct (delete_student student_id db) as [r db1] eqn:E.
  destruct (delete_student_outcome _ _ _ _ E) as (Ha & H).
  destruct r as [[|]|e].
  2:{ destruct H as (_ & _ & H). rewrite Hfind in H. congruence. }
  2:{ destruct H as (_ & H). congruence. }
  destruct H as (_ & cur' & Hfind' & _ & Hs).
  rewrite Hfind in Hfind'. injection Hfind' as <-.
  exists db1. split; [reflexivity|].
  assert (Hactive :
    active_identities db1
    = filter (fun s => negb (String.eqb (se_student_id s) student_id))
        (active_identities db)).
  { unfold active_identities. rewrite Hs.
    rewrite filter_active_deactivated by auto.
    rewrite filter_map_commute. reflexivity. }
  split; [exact Hactive|]. split.
  { intros s Hin. rewrite Hactive in Hin. apply filter_In in Hin as [_ Hin].
    apply negb_true_iff, String.eqb_neq in Hin. exact Hin. }
  split.
  { unfold identity_exists. apply find_has_student_id. rewrite Hs.
    eexists. apply find_update_first; [exact Hfind|].
    exact (proj2 (find_some _ _ Hfind)). }
  split.
  { unfold stored_embeddings. rewrite Hs.
    rewrite (find_update_first _ _ _ _ Hfind) by exact (proj2 (find_some _ _ Hfind)).
    rewrite Hfind. now rewrite !deserialize_embeddings. }
  split.
  { intros other Hne. rewrite Hs. apply find_update_first_other.
    intros d Hd. split; eapply has_student_id_other; eauto. }
  split; [rewrite Hs; apply update_first_length|exact Ha].
Qed.

(** X6. [delete_student] on an identifier that is not in the store, or on
    an identity that is already soft-deleted, returns [False] and leaves the
    store as it was. *)
Theorem delete_student_nothing_to_do student_id db :
  match find (has_student_id student_id) (students db) with
  | Some cur => doc_is_active cur = false
  | None => True
  end ->
  calm 1 (faults db) = true ->
  exists db1,
    delete_student student_id db = (Ok false, db1) /\
    students db1 = students db /\ attendance db1 = attendance db.
Proof.
  intros Hnothing Hcalm.
  destruct (delete_student student_id db) as [r db1] eqn:E.
  destruct (delete_student_outcome _ _ _ _ E) as (Ha & H).
  destruct r as [[|]|e].
  - destruct H as (_ & cur & Hfind & Hact & _). rewrite Hfind in Hnothing. congruence.
  - destruct H as (Hs & _). eauto.
  - destruct H as (_ & H). congruence.
Qed.

(** ** What a verification reports *)

Section Candidates.

Variable input_embedding : ndarray.

(** The loop appends one candidate for each student, in order, and its
    running best is the fold of [best_step] over them. *)
Lemma compare_students_fold all_students :
  forall best_match best_distance all_distances best_match' best_distance' all_distances',
  compare_students input_embedding all_students best_match best_distance all_distances
    = Ok (best_match', best_distance', all_distances') ->
  exists new,
    all_distances' = all_distances ++ new /\
    Forall2 (fun s c =>
               min_student_distance input_embedding s = Ok (c_distance c) /\
               c = candidate_of s (c_distance c)) all_students new /\
    (best_match', best_distance') = fold_left best_step new (best_match, best_distance).
Proof.
  induction all_students as [|s rest IH]; intros bm bd alld bm' bd' alld' E;
    simpl in E.
  - injection E as <- <- <-. exists []. rewrite app_nil_r. auto.
  - destruct (min_student_distance input_embedding s) as [d|] eqn:Ed; [|discriminate].
    destruct (d <? bd)%float eqn:Hlt;
      apply IH in E as (new & -> & F2 & Hfold);
      exists (candidate_of s d :: new);
      (split; [now rewrite <- app_assoc|]);
      (split; [constructor; auto|]);
      simpl; unfold best_step at 2; simpl; rewrite Hlt; exact Hfold.
Qed.

(** A student whose comparison raises stops the loop. *)
Lemma compare_students_raises all_students :
  forall best_match best_distance all_distances,
  (exists s e, In s all_students /\ min_student_distance input_embedding s = Raise e) ->
  exists e,
    compare_students input_embedding all_students best_match best_distance all_distances
      = Raise e.
Proof.
  induction all_students as [|x rest IH]; intros bm bd alld (s & e & Hin & Hs);
    simpl in *; [contradiction|].
  destruct (min_student_distance input_embedding x) as [d|e'] eqn:E; [|eauto].
  destruct Hin as [->|Hin]; [congruence|].
  destruct (d <? bd)%float; apply IH; eauto.
Qed.

Lemma student_distances_loop_raises stored : forall acc,
  (exists e ex, In e stored /\ cosine_distance input_embedding e = Raise ex) ->
  exists ex, student_distances_loop input_embedding stored acc = Raise ex.
Proof.
  induction stored as [|x rest IH]; intros acc (e & ex & Hin & He);
    simpl in *; [contradiction|].
  destruct (cosine_distance input_embedding x) as [d|ex'] eqn:E; [|eauto].
  destruct Hin as [->|Hin]; [congruence|]. apply IH; eauto.
Qed.

End Candidates.

Lemma fold_best_step_In new : forall best best',
  fold_left best_step new best = best' ->
  forall c, fst best' = Some c -> fst best = Some c \/ In c new.
Proof.
  induction new as [|x new IH]; intros best best' E c Hc; simpl in E.
  - subst. auto.
  - destruct (IH _ _ E c Hc) as [H|H]; [|simpl; auto].
    unfold best_step in H. destruct (c_distance x <? snd best)%float; auto.
    simpl in H. injection H as ->. simpl. auto.
Qed.

(** The running best keeps its distance, and the distance of a best match
    is a number below [+inf]. *)
Lemma fold_best_step_proper new : forall best best',
  fold_left best_step new best = best' ->
  (fst best = None -> snd best = infinity) ->
  (forall c, fst best = Some c -> c_distance c = snd best /\ proper (snd best) = true) ->
  (fst best' = None -> snd best' = infinity) /\
  (forall c, fst best' = Some c -> c_distance c = snd best' /\ proper (snd best') = true).
Proof.
  induction new as [|x new IH]; intros best best' E Hnone Hsome; simpl in E.
  - subst. auto.
  - apply (IH _ _ E); unfold best_step;
      destruct (c_distance x <? snd best)%float eqn:Hlt; simpl; auto.
    + discriminate.
    + intros c [= <-]. split; [reflexivity|].
      destruct (fst best) as [b|] eqn:Eb.
      * destruct (Hsome b eq_refl) as [_ Hp].
        eapply FloatOrder.ltb_proper; eauto.
      * unfold proper. now rewrite <- (Hnone eq_refl).
Qed.

Lemma In_insert_sorted c x l : In c (insert_sorted x l) <-> c = x \/ In c l.
Proof.
  induction l as [|y l IH]; simpl; [intuition|].
  destruct (c_distance y <? c_distance x)%float; simpl; rewrite ?IH; intuition.
Qed.

Lemma In_sorted_by_distance c l : In c (sorted_by_distance l) <-> In c l.
Proof.
  induction l as [|x l IH]; simpl; [tauto|].
  rewrite In_insert_sorted, IH. intuition.
Qed.

Lemma insert_sorted_length x l : length (insert_sorted x l) = S (length l).
Proof.
  induction l as [|y l IH]; simpl; [reflexivity|].
  destruct (c_distance y <? c_distance x)%float; simpl; auto.
Qed.

Lemma sorted_by_distance_length l : length (sorted_by_distance l) = length l.
Proof.
  induction l as [|x l IH]; simpl; [reflexivity|].
  now rewrite insert_sorted_length, IH.
Qed.

Lemma In_firstn {A} n (l : list A) x : In x (firstn n l) -> In x l.
Proof.
  revert l. induction n as [|n IH]; intros [|y l]; simpl; try tauto.
  intros [H|H]; auto.
Qed.

Section Reports.

Variable path_exists : string -> bool.
Variable DeepFace_represent : string -> string -> string -> res (list ndarray).
Variable self : FaceService.

Local Abbreviation generate := (generate_embedding path_exists DeepFace_represent self).
Local Abbreviation verify := (verify_face path_exists DeepFace_represent self).

(** The decision of [verify_face], from the candidates of the active
    identities. *)
Lemma verify_face_decision image_path db r db1 :
  verify image_path db = (Ok r, db1) ->
  (exists error, r = VerifyError error) \/
  (r = VerifyNoStudents /\ active_identities db = []) \/
  exists input_embedding new best_match best_distance,
    generate image_path = Ok input_embedding /\
    active_identities db <> [] /\
    Forall2 (fun s c =>
               min_student_distance input_embedding s = Ok (c_distance c) /\
               c = candidate_of s (c_distance c)) (active_identities db) new /\
    (best_match, best_distance) = fold_left best_step new (None, infinity) /\
    verify_all_matches r = firstn 5 (sorted_by_distance new) /\
    verify_best_match r = best_match /\
    verify_distance r = Some best_distance /\
    verify_confidence r = Some (1 - best_distance)%float /\
    verify_matched r
    = Some (match best_match with
            | Some _ => (best_distance <=? confidence_threshold self)%float
            | None => false
            end).
Proof.
  unfold verify_face, try_except, bind, lift, ret.
  destruct (generate image_path) as [emb|e0]; [|intros [= <- <-]; eauto].
  destruct (get_all_embeddings db) as [[all_students|e1] d1] eqn:E;
    pose proof (get_all_embeddings_frame _ _ _ E) as (_ & _ & _ & H);
    [|intros [= <- <-]; eauto].
  destruct H as [-> _].
  destruct (active_identities db) as [|x rest] eqn:Eact;
    [intros [= <- <-]; auto|].
  destruct (compare_students emb (x :: rest) None infinity [])
    as [[[bm bd] alld]|e2] eqn:Ecmp; [|intros [= <- <-]; eauto].
  destruct (compare_students_fold _ _ _ _ _ _ _ _ Ecmp) as (new & Hnew & F2 & Hfold).
  simpl in Hnew. subst alld.
  intros Hr. right. right. exists emb, new, bm, bd.
  split; [reflexivity|]. split; [discriminate|]. split; [exact F2|].
  split; [exact Hfold|].
  destruct bm as [c|]; [destruct (bd <=? confidence_threshold self)%float eqn:Hle|];
    injection Hr as <- <-; cbn; rewrite ?Hle; auto 10.
Qed.

(** X7. Every identity a verification reports, as its best match or in the
    ranked list, is an active identity of the store, under its own
    identifier and name; the ranked list holds at most 5 entries, and at
    most one for each active identity. *)
Theorem verify_reports_active_identities image_path db r db1 :
  verify image_path db = (Ok r, db1) ->
  (forall c,
     verify_best_match r = Some c \/ In c (verify_all_matches r) ->
     exists s,
       In s (active_identities db) /\
       c_student_id c = se_student_id s /\ c_name c = se_name s) /\
  length (verify_all_matches r) <= 5 /\
  length (verify_all_matches r) <= length (active_identities db).
Proof.
  intros E.
  destruct (verify_face_decision _ _ _ _ E)
    as [(error & ->)|[(-> & _)|(emb & new & bm & bd & _ & _ & F2 & Hfold & Ham & Hbm & _)]].
  - simpl. split; [intros c [H|[]]; discriminate|]. split; lia.
  - simpl. split; [intros c [H|[]]; discriminate|]. split; lia.
  - assert (Hnew : forall c, In c new ->
              exists s, In s (active_identities db) /\
                        c_student_id c = se_student_id s /\ c_name c = se_name s).
    { intros c Hc. destruct (Forall2_In_right _ _ _ _ F2 Hc) as (s & Hs & _ & ->).
      exists s. auto. }
    split; [|split].
    + intros c [Hc|Hc].
      * symmetry in Hfold.
        destruct (fold_best_step_In _ _ _ Hfold c) as [H|H];
          [simpl; congruence|discriminate|now apply Hnew].
      * rewrite Ham in Hc. apply In_firstn in Hc.
        apply Hnew. now apply (proj1 (In_sorted_by_distance _ _)).
    + rewrite Ham. apply firstn_le_length.
    + rewrite Ham, length_firstn, sorted_by_distance_length.
      rewrite <- (Forall2_length F2). lia.
Qed.

(** X9. The decision agrees with the threshold and carries a sound
    distance: a best match is at the distance the result reports, a number
    below [+inf] (never a NaN), with confidence [1 - distance]; the result
    is a match exactly when there is a best match at a distance that is at
    most the threshold; with no best match the distance reported is
    [+inf]. *)
Theorem verify_decision_sound image_path db r db1 :
  verify image_path db = (Ok r, db1) ->
  (forall c,
     verify_best_match r = Some c ->
     verify_distance r = Some (c_distance c) /\
     verify_confidence r = Some (1 - c_distance c)%float /\
     proper (c_distance c) = true /\
     verify_matched r = Some (c_distance c <=? confidence_threshold self)%float) /\
  (verify_matched r = Some true -> exists c, verify_best_match r = Some c) /\
  (verify_success r = true -> r <> VerifyNoStudents ->
   verify_best_match r = None ->
   verify_distance r = Some infinity /\ verify_matched r = Some false).
Proof.
  intros E.
  destruct (verify_face_decision _ _ _ _ E)
    as [(error & ->)|[(-> & _)|(emb & new & bm & bd & _ & _ & _ & Hfold & _ &
                                Hbm & Hd & Hc & Hm)]].
  - simpl. split; [intros c [=]|]. split; discriminate.
  - simpl. split; [intros c [=]|]. split; [discriminate|congruence].
  - symmetry in Hfold.
    destruct (fold_best_step_proper _ _ _ Hfold) as [Hnone Hsome];
      [reflexivity|discriminate|]. simpl in Hnone, Hsome. subst bm.
    split; [|split].
    + intros c Hbest. destruct (Hsome c Hbest) as [<- Hp].
      rewrite Hm, Hbest. auto.
    + intros Hmatched. rewrite Hm in Hmatched.
      destruct (verify_best_match r) as [c|]; [eauto|discriminate].
    + intros _ _ Hbest. rewrite Hd, Hm, Hbest, (Hnone Hbest). auto.
Qed.

Lemma verify_candidates_active image_path db r db1 c :
  verify image_path db = (Ok r, db1) ->
  verify_best_match r = Some c \/ In c (verify_all_matches r) ->
  exists s,
    In s (active_identities db) /\
    c_student_id c = se_student_id s /\ c_name c = se_name s.
Proof.
  intros E.
  destruct (verify_face_decision _ _ _ _ E)
    as [(error & ->)|[(-> & _)|(emb & new & bm & bd & _ & _ & F2 & Hfold & Ham & Hbm & _)]].
  - intros [H|[]]; discriminate.
  - intros [H|[]]; discriminate.
  - assert (Hnew : forall c, In c new ->
              exists s, In s (active_identities db) /\
                        c_student_id c = se_student_id s /\ c_name c = se_name s).
    { intros x Hx. destruct (Forall2_In_right _ _ _ _ F2 Hx) as (s & Hs & _ & ->).
      exists s. auto. }
    intros [Hc|Hc].
    + symmetry in Hfold.
      destruct (fold_best_step_In _ _ _ Hfold c) as [H|H];
        [simpl; congruence|discriminate|now apply Hnew].
    + rewrite Ham in Hc. apply In_firstn in Hc.
      apply Hnew. now apply (proj1 (In_sorted_by_distance _ _)).
Qed.

End Reports.

Lemma NoDup_map_injective {A B} (f : A -> B) l a b :
  NoDup (map f l) -> In a l -> In b l -> f a = f b -> a = b.
Proof.
  induction l as [|x l IH]; simpl; [tauto|].
  intros Hnd Ha Hb E. inversion Hnd as [|? ? Hx Hl]; subst.
  destruct Ha as [->|Ha], Hb as [->|Hb]; auto.
  - exfalso. apply Hx. rewrite E. now apply in_map.
  - exfalso. apply Hx. rewrite <- E. now apply in_map.
Qed.

(** Under unique identifiers, an identity whose document is inactive is not
    among the active identities. *)
Lemma inactive_not_among_active db student_id cur :
  unique_ids db ->
  find (has_student_id student_id) (students db) = Some cur ->
  doc_is_active cur = false ->
  forall s, In s (active_identities db) -> se_student_id s <> student_id.
Proof.
  intros Hu Hfind Hinactive s Hs E.
  unfold active_identities in Hs. apply in_map_iff in Hs as (d & <- & Hd).
  apply filter_In in Hd as [Hd Hact]. cbn in E.
  destruct (find_some _ _ Hfind) as [Hcur Hid].
  unfold has_student_id in Hid. apply String.eqb_eq in Hid.
  assert (d = cur) by (eapply NoDup_map_injective; eauto; congruence).
  congruence.
Qed.

Section Deleted.

Variable path_exists : string -> bool.
Variable DeepFace_represent : string -> string -> string -> res (list ndarray).
Variable self : FaceService.

Local Abbreviation verify := (verify_face path_exists DeepFace_represent self).

(** X8. Once [delete_student] has soft-deleted an identity, a verification
    never reports it, neither as best match nor in the ranked list, however
    close the probe is to its embeddings. *)
Theorem deleted_identity_is_never_reported student_id db db1 image_path r db2 :
  unique_ids db ->
  delete_student student_id db = (Ok true, db1) ->
  verify image_path db1 = (Ok r, db2) ->
  forall c,
    verify_best_match r = Some c \/ In c (verify_all_matches r) ->
    c_student_id c <> student_id.
Proof.
  intros Hu Ed Ev c Hc.
  destruct (delete_student_outcome _ _ _ _ Ed) as (_ & _ & cur & Hfind & _ & Hs).
  assert (Hu1 : unique_ids db1).
  { unfold unique_ids in *. rewrite Hs. now rewrite map_update_first. }
  destruct (verify_candidates_active path_exists DeepFace_represent self
              _ _ _ _ _ Ev Hc) as (s & Hin & -> & _).
  refine (inactive_not_among_active db1 student_id _ Hu1 _ _ s Hin).
  - rewrite Hs. apply find_update_first; [exact Hfind|].
    exact (proj2 (find_some _ _ Hfind)).
  - reflexivity.
Qed.

End Deleted.

(** ** The ranked list *)

Lemma leb_not_ltb x y : (x <=? y)%float = true -> (y <? x)%float = false.
Proof.
  intros H. destruct (y <? x)%float eqn:E; [|reflexivity].
  apply FloatOrder.ltb_fcmp in E. apply FloatOrder.SFcompare_antisym in E.
  apply FloatOrder.leb_fcmp in H. unfold FloatOrder.fcmp in H. simpl in E.
  destruct H; congruence.
Qed.

Lemma ascending_cons a l :
  ascending (a :: l) = true <->
  (forall h, hd_error l = Some h -> (c_distance a <=? c_distance h)%float = true) /\
  ascending l = true.
Proof.
  destruct l as [|b l]; simpl.
  - split; [intros _; split; [discriminate|reflexivity]|reflexivity].
  - rewrite andb_true_iff. split.
    + intros [H1 H2]. split; [intros h [= <-]; exact H1|exact H2].
    + intros [H1 H2]. split; [now apply H1|exact H2].
Qed.

Lemma insert_sorted_ascending x l :
  number x -> Forall number l -> ascending l = true ->
  ascending (insert_sorted x l) = true.
Proof.
  intros Hx. induction l as [|y l IH]; intros Hl Hasc; [reflexivity|].
  inversion Hl as [|? ? Hy Hl']; subst. cbn [insert_sorted].
  apply ascending_cons in Hasc as [Hhead Hasc].
  destruct (c_distance y <? c_distance x)%float eqn:Hlt.
  - apply ascending_cons. split; [|now apply IH].
    intros h Hh. destruct l as [|z l]; cbn [insert_sorted] in Hh.
    + injection Hh as <-. now apply FloatOrder.ltb_leb.
    + destruct (c_distance z <? c_distance x)%float; injection Hh as <-.
      * now apply Hhead.
      * now apply FloatOrder.ltb_leb.
  - apply ascending_cons. split.
    + intros h [= <-]. now apply FloatOrder.ltb_false_leb.
    + apply ascending_cons. auto.
Qed.

Lemma insert_sorted_number x l :
  number x -> Forall number l -> Forall number (insert_sorted x l).
Proof.
  intros Hx Hl. apply Forall_forall. intros c Hc.
  apply In_insert_sorted in Hc as [->|Hc]; [exact Hx|].
  rewrite Forall_forall in Hl. auto.
Qed.

Lemma sorted_by_distance_ascending l :
  Forall number l ->
  ascending (sorted_by_distance l) = true /\ Forall number (sorted_by_distance l).
Proof.
  induction 1 as [|x l Hx Hl [IH1 IH2]]; simpl; [auto|].
  split; [now apply insert_sorted_ascending|now apply insert_sorted_number].
Qed.

Lemma ascending_firstn n : forall l,
  ascending l = true -> ascending (firstn n l) = true.
Proof.
  induction n as [|n IH]; intros [|a l] H; try reflexivity.
  cbn [firstn]. apply ascending_cons in H as [Hhead Hasc].
  apply ascending_cons. split; [|now apply IH].
  intros h Hh. apply Hhead. destruct n, l; simpl in *; congruence.
Qed.

(** The stable sort puts the first of the closest candidates at the head. *)
Lemma sorted_by_distance_head l c :
  closest_first l c -> exists rest, sorted_by_distance l = c :: rest.
Proof.
  intros (before & after & -> & Hb & Ha).
  induction before as [|x before IH]; simpl.
  - destruct (sorted_by_distance after) as [|h t] eqn:E; simpl; [eauto|].
    assert (Hh : In h after).
    { apply In_sorted_by_distance. rewrite E. simpl. auto. }
    rewrite (leb_not_ltb _ _ (Ha h Hh)). eauto.
  - destruct IH as [rest E]; [intros y Hy; apply Hb; simpl; auto|].
    rewrite E. simpl. rewrite (Hb x) by (simpl; auto). eauto.
Qed.

(** On candidates at distances that are numbers below [+inf], the running
    best ends on the first of the closest. *)
Lemma fold_best_step_closest new : forall done b,
  closest_first done b -> proper (c_distance b) = true ->
  Forall (fun c => proper (c_distance c) = true) new ->
  exists c,
    fold_left best_step new (Some b, c_distance b) = (Some c, c_distance c) /\
    closest_first (done ++ new) c.
Proof.
  induction new as [|x new IH]; intros done b Hmin Pb Hnew; simpl.
  - exists b. rewrite app_nil_r. auto.
  - inversion Hnew as [|? ? Px Hnew']; subst.
    replace (done ++ x :: new) with ((done ++ [x]) ++ new)
      by (rewrite <- app_assoc; reflexivity).
    destruct Hmin as (before & after & -> & Hb & Ha).
    unfold best_step at 2. cbn [snd].
    destruct (c_distance x <? c_distance b)%float eqn:Hlt.
    + apply IH; auto. exists (before ++ b :: after), [].
      split; [reflexivity|]. split; [|intros ? []].
      intros y Hy. apply in_app_or in Hy as [Hy|[<-|Hy]].
      * eapply FloatOrder.ltb_trans; eauto.
      * exact Hlt.
      * eapply FloatOrder.ltb_leb_trans; eauto.
    + apply IH; auto. exists before, (after ++ [x]).
      split; [now rewrite <- app_assoc|]. split; [exact Hb|].
      intros y Hy. apply in_app_or in Hy as [Hy|[<-|[]]]; auto.
      apply FloatOrder.ltb_false_leb; auto using FloatOrder.proper_not_nan.
Qed.

Lemma fold_best_step_first new :
  new <> [] ->
  Forall (fun c => proper (c_distance c) = true) new ->
  exists c,
    fold_left best_step new (None, infinity) = (Some c, c_distance c) /\
    closest_first new c.
Proof.
  destruct new as [|x new]; [congruence|]. intros _ Hnew.
  inversion Hnew as [|? ? Px Hnew']; subst. simpl.
  unfold best_step at 2. cbn [snd]. unfold proper in Px. rewrite Px.
  apply (fold_best_step_closest new [x] x); auto.
  exists [], []. split; [reflexivity|]. split; intros ? [].
Qed.

Section Ranking.

Variable path_exists : string -> bool.
Variable DeepFace_represent : string -> string -> string -> res (list ndarray).
Variable self : FaceService.

Local Abbreviation generate := (generate_embedding path_exists DeepFace_represent self).
Local Abbreviation verify := (verify_face path_exists DeepFace_represent self).

(** X10. When every active identity is measurable, the ranked list of a
    verification is in ascending order of distance, holds the 5 closest
    identities (all of them when there are fewer), and starts with the best
    match. *)
Theorem verify_ranks_closest_first image_path db input_embedding :
  generate image_path = Ok input_embedding ->
  calm 1 (faults db) = true ->
  active_identities db <> [] ->
  forallb (measurable input_embedding) (active_identities db) = true ->
  exists r db1 best rest,
    verify image_path db = (Ok r, db1) /\
    verify_best_match r = Some best /\
    verify_all_matches r = best :: rest /\
    ascending (verify_all_matches r) = true /\
    length (verify_all_matches r) = Nat.min 5 (length (active_identities db)).
Proof.
  intros Hgen Hcalm Hne Hall.
  destruct (verify_face_total path_exists DeepFace_represent self image_path db)
    as (r & db1 & E & _).
  destruct (verify_face_decision path_exists DeepFace_represent self _ _ _ _ E)
    as [(error & ->)|[(-> & Hempty)|(emb & new & bm & bd & Hgen' & _ & F2 & Hfold &
                                     Ham & Hbm & _)]].
  - exfalso.
    destruct (get_all_embeddings_calm db Hcalm) as (d1 & Eg & _).
    destruct (compare_students_measurable input_embedding _ Hne Hall)
      as (s & d & alld & Ecmp & _).
    unfold verify_face, try_except, bind, lift, ret in E.
    rewrite Hgen, Eg in E.
    destruct (active_identities db) as [|x l]; [congruence|].
    rewrite Ecmp in E.
    destruct (d <=? confidence_threshold self)%float; discriminate.
  - congruence.
  - rewrite Hgen in Hgen'. injection Hgen' as <-.
    assert (Hproper : Forall (fun c => proper (c_distance c) = true) new).
    { rewrite forallb_forall in Hall. apply Forall_forall. intros c Hc.
      destruct (Forall2_In_right _ _ _ _ F2 Hc) as (s & Hs & Hd & _).
      destruct (min_student_distance_measurable input_embedding s (Hall s Hs))
        as (d & Hd' & Pd & _).
      congruence. }
    assert (Hnew : new <> []).
    { intros ->. inversion F2. congruence. }
    destruct (fold_best_step_first new Hnew Hproper) as (c & Hc & Hmin).
    rewrite Hc in Hfold. injection Hfold as -> ->.
    destruct (sorted_by_distance_head _ _ Hmin) as (rest & Hsorted).
    exists r, db1, c, (firstn 4 rest).
    split; [exact E|]. split; [exact Hbm|].
    split; [rewrite Ham, Hsorted; reflexivity|].
    assert (Hnum : Forall number new).
    { eapply Forall_impl; [|exact Hproper].
      intros a Ha. now apply FloatOrder.proper_not_nan. }
    split.
    + rewrite Ham. apply ascending_firstn. now apply sorted_by_distance_ascending.
    + rewrite Ham, length_firstn, sorted_by_distance_length.
      now rewrite (Forall2_length F2).
Qed.

(** X11. When the probe and a stored embedding of an active identity have
    different dimensions, [np.dot] raises a [ValueError] and [verify_face]
    returns the failure dictionary: no decision comes out, whatever the
    other identities are; the store is as it was. *)
Theorem verify_fails_on_dimension_mismatch image_path db input_embedding s e :
  generate image_path = Ok input_embedding ->
  In s (active_identities db) ->
  In e (se_embeddings s) ->
  length e <> length input_embedding ->
  (exists msg, cosine_distance input_embedding e = Raise (ValueError msg)) /\
  exists error db1,
    verify image_path db = (Ok (VerifyError error), db1) /\
    students db1 = students db /\ attendance db1 = attendance db.
Proof.
  intros Hgen Hs He Hlen.
  assert (Hcos : exists msg,
             cosine_distance input_embedding e = Raise (ValueError msg)).
  { unfold cosine_distance, np_dot.
    destruct (Nat.eqb_spec (length input_embedding) (length e)); [congruence|].
    eauto. }
  split; [exact Hcos|]. destruct Hcos as [msg Hcos].
  assert (Hmin : exists ex, min_student_distance input_embedding s = Raise ex).
  { unfold min_student_distance.
    destruct (student_distances_loop_raises input_embedding (se_embeddings s) [])
      as [ex ->]; eauto. }
  destruct Hmin as [ex Hmin].
  destruct (verify_face_total path_exists DeepFace_represent self image_path db)
    as (r & db1 & E & Hst & Hatt & _).
  unfold verify_face, try_except, bind, lift, ret in *. rewrite Hgen in *.
  destruct (get_all_embeddings db) as [[all_students|e1] d1] eqn:Eg;
    pose proof (get_all_embeddings_frame _ _ _ Eg) as (_ & _ & _ & H).
  2:{ injection E as <- <-. eauto 10. }
  destruct H as [-> _].
  destruct (compare_students_raises input_embedding (active_identities db)
              None infinity [])
    as [ex' Ecmp]; [eauto|].
  destruct (active_identities db) as [|x rest]; [destruct Hs|].
  rewrite Ecmp in *. injection E as <- <-. eauto 10.
Qed.

End Ranking.

(** ** Attendance by date *)

Lemma get_attendance_by_date_calm date db :
  calm 1 (faults db) = true ->
  exists db1,
    get_attendance_by_date date db = (Ok (attendance_on db date), db1) /\
    students db1 = students db /\ attendance db1 = attendance db.
Proof.
  intros H. destruct (driver_call_calm 0 db H) as (d1 & E & Hs & Ha & _).
  exists d1. unfold get_attendance_by_date, attendance_find_date, bind, ret.
  rewrite E. cbv beta iota. unfold attendance_on. rewrite Ha. auto.
Qed.

Lemma get_attendance_by_date_fault date db :
  calm 1 (faults db) = false ->
  exists msg db1, get_attendance_by_date date db = (Raise (PyMongoError msg), db1).
Proof.
  intros H. destruct (driver_call_cases db) as [(d1 & _ & C)|(msg & d1 & E & _)];
    [congruence|].
  exists msg, d1. unfold get_attendance_by_date, attendance_find_date, bind.
  now rewrite E.
Qed.

Lemma attendance_on_snoc db db1 record date :
  attendance db1 = attendance db ++ [record] ->
  attendance_on db1 date =
  attendance_on db date ++
  (if has_date date record
   then [{| ar_id := att_id record;
            ar_student_id := att_student_id record;
            ar_check_in := att_check_in record;
            ar_image_path := att_image_path record |}]
   else []).
Proof.
  intros H. unfold attendance_on. rewrite H, filter_app, map_app.
  cbn [filter]. now destruct (has_date date record).
Qed.

Lemma record_attendance_record student_id check_in_time image_path db :
  calm 1 (faults db) = true ->
  exists db1,
    record_attendance student_id check_in_time image_path db
      = (Ok (next_oid db), db1) /\
    students db1 = students db /\
    faults db1 = tl (faults db) /\
    attendance db1 = attendance db ++
      [{| att_id := next_oid db;
          att_student_id := student_id;
          att_check_in := check_in_time;
          att_date := match check_in_time with
                      | Some (String c t) => Some (before_T (String c t))
                      | _ => None
                      end;
          att_image_path := image_path;
          att_verified := true |}].
Proof.
  intros H. unfold record_attendance, attendance_insert_one, bind, driver_call.
  destruct (faults db) as [|[msg|] fs] eqn:E; [| discriminate |];
    eexists; (split; [reflexivity|]); cbn [students attendance faults next_oid];
    rewrite ?E; auto.
Qed.

(** X13. A record written by [record_attendance] with a check-in time is
    listed by [get_attendance_by_date] under the part of that time before its
    first ['T'], after the records that date already had and as it was
    written; the list of every other date is unchanged. *)
Theorem record_attendance_then_get_attendance_by_date
    student_id check_in_time image_path db :
  check_in_time <> "" ->
  calm 2 (faults db) = true ->
  exists db1 db2,
    record_attendance student_id (Some check_in_time) image_path db
      = (Ok (next_oid db), db1) /\
    get_attendance_by_date (before_T check_in_time) db1
      = (Ok (attendance_on db (before_T check_in_time) ++
             [{| ar_id := next_oid db;
                 ar_student_id := student_id;
                 ar_check_in := Some check_in_time;
                 ar_image_path := image_path |}]), db2) /\
    forall date, date <> before_T check_in_time ->
      attendance_on db1 date = attendance_on db date.
Proof.
  intros Hne Hcalm.
  destruct (record_attendance_record student_id (Some check_in_time) image_path db
              (calm_S _ _ Hcalm)) as (db1 & E & _ & Hf & Ha).
  assert (Hcalm1 : calm 1 (faults db1) = true).
  { rewrite Hf. destruct (faults db) as [|[m|] fs]; [reflexivity|discriminate|].
    exact Hcalm. }
  destruct (get_attendance_by_date_calm (before_T check_in_time) db1 Hcalm1)
    as (db2 & E2 & _).
  exists db1, db2. split; [exact E|].
  destruct check_in_time as [|c t]; [congruence|].
  split.
  - rewrite E2. f_equal.
    rewrite (attendance_on_snoc db db1 _ _ Ha). unfold has_date. cbn [att_date].
    now rewrite String.eqb_refl.
  - intros date Hd. rewrite (attendance_on_snoc db db1 _ _ Ha).
    unfold has_date. cbn [att_date].
    destruct (String.eqb_spec (before_T (String c t)) date); [congruence|].
    apply app_nil_r.
Qed.

(** X14. A record written without a check-in time ([None] or the empty
    string) is stored with no date: it is appended to the collection, and the
    list of no date changes. *)
Theorem record_attendance_without_time_is_unlisted
    student_id check_in_time image_path db :
  check_in_time = None \/ check_in_time = Some "" ->
  calm 1 (faults db) = true ->
  exists db1,
    record_attendance student_id check_in_time image_path db
      = (Ok (next_oid db), db1) /\
    length (attendance db1) = S (length (attendance db)) /\
    forall date, attendance_on db1 date = attendance_on db date.
Proof.
  intros Hnone Hcalm.
  destruct (record_attendance_record student_id check_in_time image_path db Hcalm)
    as (db1 & E & _ & _ & Ha).
  exists db1. split; [exact E|]. split.
  - rewrite Ha, length_app. simpl. lia.
  - intros date. rewrite (attendance_on_snoc db db1 _ _ Ha).
    unfold has_date. cbn [att_date].
    destruct Hnone as [->| ->]; apply app_nil_r.
Qed.

(** ** The statistics *)

Lemma sum_image_count_from (docs : list student_doc) : forall acc,
  (forall d, In d docs ->
     doc_image_count d = length (st_embeddings (_deserialize_student d))) ->
  fold_left (fun total s => total + st_image_count s)
            (map _deserialize_student docs) acc
  = acc + length (concat (map (fun d => st_embeddings (_deserialize_student d)) docs)).
Proof.
  induction docs as [|d docs IH]; intros acc H; simpl; [lia|].
  rewrite IH by (intros; apply H; simpl; auto).
  rewrite length_app, (H d) by (simpl; auto). simpl. lia.
Qed.

(** X15. [get_system_stats] never raises and leaves the store as it is.
    When the driver answers, it counts the active identities only, and (on a
    store whose [image_count]s are consistent) the embeddings they hold; the
    average is the integer 0 exactly when there is no active identity. When
    the driver fails, the failure dictionary is returned. *)
Theorem get_system_stats_counts_active self db :
  counts_consistent db ->
  exists r db1,
    get_system_stats self db = (Ok r, db1) /\
    students db1 = students db /\ attendance db1 = attendance db /\
    match r with
    | Stats total_students total_embeddings model threshold average =>
        calm 1 (faults db) = true /\
        total_students = length (active_identities db) /\
        total_embeddings
          = length (concat (map se_embeddings (active_identities db))) /\
        model = model_name self /\
        threshold = confidence_threshold self /\
        (average = PyInt 0 <-> active_identities db = [])
    | StatsError error => calm 1 (faults db) = false
    end.
Proof.
  intros Hc. unfold get_system_stats, try_except, bind, ret.
  destruct (get_all_students db) as [[all_students|e] db1] eqn:E;
    destruct (get_all_students_frame _ _ _ E) as (Hs & Ha & _ & H).
  - destruct H as [-> Hcalm]. eexists _, db1. split; [reflexivity|].
    split; [exact Hs|]. split; [exact Ha|]. split; [exact Hcalm|].
    unfold active_identities. rewrite !length_map.
    split; [reflexivity|]. split.
    + unfold sum_image_count. rewrite sum_image_count_from.
      * rewrite map_map. reflexivity.
      * intros d Hd. apply Hc. now apply filter_In in Hd.
    + split; [reflexivity|]. split; [reflexivity|].
      destruct (filter doc_is_active (students db)) as [|d l]; simpl.
      * split; reflexivity.
      * split; discriminate.
  - destruct H as (msg & -> & Hcalm). eexists _, db1. split; [reflexivity|]. auto.
Qed.

(** ** Augmentations that fail *)

Lemma driver_call_raises db e db1 :
  driver_call db = (Raise e, db1) -> exists msg, e = PyMongoError msg.
Proof.
  unfold driver_call. destruct (faults db) as [|[msg|] fs]; intros [= <- <-]; eauto.
Qed.

Lemma update_student_embeddings_raises student_id new_embeddings new_image_paths
    db e db1 :
  update_student_embeddings student_id new_embeddings new_image_paths db
    = (Raise e, db1) ->
  exists msg, e = PyMongoError msg.
Proof.
  unfold update_student_embeddings, students_find_one, students_update_one, bind, ret.
  destruct (driver_call db) as [[[]|e1] d1] eqn:E1.
  2:{ intros [= <- <-]. eapply driver_call_raises; eauto. }
  destruct (find (has_student_id student_id) (students d1)) as [cur|];
    [|discriminate].
  destruct (driver_call d1) as [[[]|e2] d2] eqn:E2.
  2:{ intros [= <- <-]. eapply driver_call_raises; eauto. }
  destruct (find (has_student_id student_id) (students d2)) as [d|];
    [|discriminate].
  match goal with |- context [if ?c then _ else _] => destruct c end; discriminate.
Qed.

Section AugmentationFailures.

Variable path_exists : string -> bool.
Variable DeepFace_represent : string -> string -> string -> res (list ndarray).
Variable self : FaceService.

Local Abbreviation successes := (extracted path_exists DeepFace_represent self).
Local Abbreviation improve := (improve_recognition path_exists DeepFace_represent self).

(** X16. An augmentation for an identifier the store does not know, with at
    least one usable image, is answered by 404 "Student not found": the
    students and the attendance records are as they were. *)
Theorem improve_recognition_unknown_identity student_id temp_paths db :
  successes temp_paths <> [] ->
  identity_exists db student_id = false ->
  calm 1 (faults db) = true ->
  exists db1,
    improve student_id temp_paths db
      = (Raise (HTTPException 404 "Student not found"), db1) /\
    students db1 = students db /\ attendance db1 = attendance db.
Proof.
  intros Hne Hfree Hcalm.
  destruct (driver_call_calm 0 db Hcalm) as (d1 & E & Hs & Ha & _).
  unfold improve_recognition, try_except, bind, ret, raise.
  rewrite process_images_from. cbn [app].
  destruct (successes temp_paths) as [|emb embs]; [congruence|].
  unfold update_student_embeddings, students_find_one, bind, ret.
  rewrite E. cbv beta iota. rewrite Hs.
  apply find_none_existsb in Hfree. rewrite Hfree. eauto.
Qed.

(** X17. Whatever makes an augmentation fail, the answer is an HTTP error
    with status 400, 404 or 500, and the students and the attendance records
    are as they were. The status is 400 exactly when no image gave an
    embedding; then the store is not even called. *)
Theorem improve_recognition_failure_keeps_store student_id temp_paths db e db1 :
  improve student_id temp_paths db = (Raise e, db1) ->
  students db1 = students db /\ attendance db1 = attendance db /\
  exists status_code detail,
    e = HTTPException status_code detail /\
    (status_code = 400 \/ status_code = 404 \/ status_code = 500) /\
    (status_code = 400 <-> successes temp_paths = []) /\
    (status_code = 400 -> db1 = db).
Proof.
  unfold improve_recognition, try_except, bind, ret, raise.
  rewrite process_images_from. cbn [app].
  destruct (successes temp_paths) as [|emb embs].
  - intros [= <- <-]. split; [reflexivity|]. split; [reflexivity|].
    eexists _, _. split; [reflexivity|]. repeat split; auto.
  - destruct (update_student_embeddings student_id (emb :: embs) temp_paths db)
      as [[[|]|ex] d1] eqn:E;
      destruct (update_student_embeddings_outcome _ _ _ _ _ _ E)
        as (Ha & _ & Hfalse & Hraise).
    + discriminate.
    + intros [= <- <-]. split; [now apply Hfalse|]. split; [exact Ha|].
      eexists _, _. split; [reflexivity|].
      repeat split; auto; try discriminate; intros; lia.
    + specialize (Hraise ex eq_refl).
      destruct (update_student_embeddings_raises _ _ _ _ _ _ E) as [msg ->].
      intros [= <- <-]. split; [exact Hraise|]. split; [exact Ha|].
      eexists _, _. split; [reflexivity|].
      repeat split; auto; try discriminate; intros; lia.
Qed.

End AugmentationFailures.

(** ** The endpoints of [app.py] *)

Lemma record_attendance_result student_id check_in_time image_path db r db1 :
  record_attendance student_id check_in_time image_path db = (r, db1) ->
  students db1 = students db /\
  match r with
  | Ok attendance_id =>
      attendance db1 = attendance db ++
        [{| att_id := attendance_id;
            att_student_id := student_id;
            att_check_in := check_in_time;
            att_date := match check_in_time with
                        | Some (String c t) => Some (before_T (String c t))
                        | _ => None
                        end;
            att_image_path := image_path;
            att_verified := true |}]
  | Raise e => attendance db1 = attendance db
  end.
Proof.
  unfold record_attendance, attendance_insert_one, bind.
  destruct (driver_call db) as [[[]|e] d1] eqn:E;
    destruct (driver_call_frame _ _ _ E) as (Hs & Ha & Hn);
    intros [= <- <-]; cbn [students attendance]; rewrite ?Ha, ?Hn; auto.
Qed.

Section Endpoints.

Variable path_exists : string -> bool.
Variable DeepFace_represent : string -> string -> string -> res (list ndarray).
Variable face_service : FaceService.
Variable now : string.
Variable round4 : float -> float.

Local Abbreviation generate := (generate_embedding path_exists DeepFace_represent face_service).
Local Abbreviation successes := (extracted path_exists DeepFace_represent face_service).
Local Abbreviation verify := (verify_face path_exists DeepFace_represent face_service).
Local Abbreviation mark := (mark_attendance path_exists DeepFace_represent face_service).
Local Abbreviation register := (register_student path_exists DeepFace_represent face_service).
Local Abbreviation post_register :=
  (app.register_student path_exists DeepFace_represent face_service).
Local Abbreviation post_attendance :=
  (app.mark_attendance path_exists DeepFace_represent face_service now round4).

(** What [mark_attendance] of the service does to the attendance records. *)
Lemma mark_attendance_outcome image_path timestamp db :
  exists r db1,
    mark image_path timestamp db = (Ok r, db1) /\
    students db1 = students db /\
    match r with
    | AttendanceMarked attendance_id student_id name confidence =>
        attendance db1 = attendance db ++
          [{| att_id := attendance_id;
              att_student_id := student_id;
              att_check_in := timestamp;
              att_date := match timestamp with
                          | Some (String c t) => Some (before_T (String c t))
                          | _ => None
                          end;
              att_image_path := Some image_path;
              att_verified := true |}]
    | AttendanceNotMarked best_match confidence all_matches =>
        attendance db1 = attendance db /\
        (confidence = None ->
         exists input_embedding,
           generate image_path = Ok input_embedding /\ active_identities db = [])
    | AttendanceError error => attendance db1 = attendance db
    end.
Proof.
  unfold mark_attendance, try_except, bind, ret.
  destruct (verify image_path db) as [rv d1] eqn:Ev.
  pose proof Ev as Ev'.
  unfold verify_face, try_except, bind, lift, ret in Ev'.
  destruct (verify_face_total path_exists DeepFace_represent face_service
              image_path db) as (vr & d1' & Ev2 & Hs & Ha & _).
  rewrite Ev in Ev2. injection Ev2 as -> <-.
  destruct vr as [|student confidence distance all_matches
                  |best_match confidence distance all_matches|error].
  - eexists _, d1. split; [reflexivity|]. split; [exact Hs|].
    split; [exact Ha|]. intros _.
    destruct (generate image_path) as [emb|e]; [|discriminate].
    exists emb. split; [reflexivity|].
    destruct (get_all_embeddings db) as [[all_students|e] d2] eqn:Eg;
      pose proof (get_all_embeddings_frame _ _ _ Eg) as (_ & _ & _ & H);
      [|discriminate].
    destruct H as [-> _].
    destruct (active_identities db) as [|x rest]; [reflexivity|].
    destruct (compare_students emb (x :: rest) None infinity [])
      as [[[bm bd] alld]|e]; [|discriminate].
    destruct bm as [c|]; [|discriminate].
    destruct (bd <=? confidence_threshold face_service)%float; discriminate.
  - destruct (record_attendance (c_student_id student) timestamp (Some image_path) d1)
      as [[oid|e] d2] eqn:Er;
      destruct (record_attendance_result _ _ _ _ _ _ Er) as (Hs2 & Ha2);
      eexists _, d2; (split; [reflexivity|]); (split; [congruence|]);
      rewrite Ha2; congruence.
  - eexists _, d1. split; [reflexivity|]. split; [exact Hs|].
    split; [exact Ha|]. discriminate.
  - eexists _, d1. split; [reflexivity|]. split; [exact Hs|]. exact Ha.
Qed.

(** X18. Once the uploads are saved, [POST /register] never answers 500. A
    201 answer means that the identifier was free, that at least 3 of the
    uploads gave an embedding, and that exactly these, in order, are now
    stored under the identifier; every other answer is a 400 and leaves the
    students as they were, and with fewer than 3 uploads the service and the
    store are not called at all. The attendance records are never touched. *)
Theorem post_register_outcome name student_id temp_paths db r db1 :
  post_register name student_id temp_paths db = (r, db1) ->
  attendance db1 = attendance db /\
  match r with
  | Ok response =>
      3 <= length temp_paths /\
      app.rr_student_id response = student_id /\
      app.rr_name response = name /\
      app.rr_total_images response = length temp_paths /\
      app.rr_successful_embeddings response = length (successes temp_paths) /\
      3 <= app.rr_successful_embeddings response <= app.rr_total_images response /\
      identity_exists db student_id = false /\
      stored_embeddings db1 student_id = Some (successes temp_paths) /\
      length (students db1) = S (length (students db))
  | Raise e =>
      (exists detail, e = HTTPException 400 detail) /\
      students db1 = students db /\
      (length temp_paths < 3 -> db1 = db)
  end.
Proof.
  unfold app.register_student, try_except, bind, ret, raise, app.reraise_as_500.
  destruct temp_paths as [|p rest] eqn:Ep.
  { intros [= <- <-]. split; [reflexivity|]. eauto. }
  rewrite <- Ep.
  destruct (Nat.ltb_spec (length temp_paths) 3) as [Hlt|Hge].
  { intros [= <- <-]. split; [reflexivity|]. eauto. }
  destruct (register_student_cases path_exists DeepFace_represent face_service
              name student_id temp_paths db)
    as (rr & d1 & E & Ha & [(Hs & [(error & ->)|(error & -> & _)])
                           |(H3 & Hfree & -> & d & Hs & Hid & Hemb)]);
    rewrite E; intros [= <- <-]; (split; [exact Ha|]).
  - split; [eauto|]. split; [exact Hs|]. lia.
  - split; [eauto|]. split; [exact Hs|]. lia.
  - cbn [app.rr_student_id app.rr_name app.rr_total_images
         app.rr_successful_embeddings].
    pose proof (extracted_failures_length path_exists DeepFace_represent
                  face_service temp_paths) as Hlen.
    repeat (split; [solve [auto | lia]|]).
    split.
    + unfold stored_embeddings. rewrite Hs.
      rewrite (find_app_fresh student_id (students db) d Hfree
                 (has_student_id_refl _ _ Hid)).
      f_equal. now apply pickled_embeddings.
    + rewrite Hs, length_app. simpl. lia.
Qed.

(** X19. [POST /attendance] for an image with a face, when there is no
    active identity, answers 500 (the confidence it rounds is [None]), not
    the "no match" answer; nothing is written. *)
Theorem post_attendance_without_students
    content_type temp_path timestamp db input_embedding :
  String.prefix "image/" content_type = true ->
  generate temp_path = Ok input_embedding ->
  active_identities db = [] ->
  calm 1 (faults db) = true ->
  exists db1,
    post_attendance (Some content_type) temp_path timestamp db
      = (Raise (HTTPException 500
                  "Attendance marking failed: type NoneType doesn't define __round__ method"),
         db1) /\
    students db1 = students db /\ attendance db1 = attendance db.
Proof.
  intros Hct Hgen Hnone Hcalm.
  destruct (get_all_embeddings_calm db Hcalm) as (d1 & Eg & Hs & Ha & _).
  unfold app.mark_attendance, try_except, bind, ret, raise, app.reraise_as_500.
  rewrite Hct. cbn [negb].
  unfold mark_attendance, verify_face, try_except, bind, lift, ret.
  rewrite Hgen, Eg, Hnone. exists d1. split; [reflexivity|]. auto.
Qed.

(** X20. [POST /attendance] writes at most one attendance record, and only
    with the "marked" answer: the record then carries the identifier and the
    handle of the answer, the timestamp of the answer (the one sent, or the
    current time when none or an empty one was sent), and is listed under
    the date part of that timestamp, after the records that date already
    had. Every other answer leaves the attendance records as they were. The
    students are never touched. *)
Theorem post_attendance_outcome content_type temp_path timestamp db r db1 :
  now <> "" ->
  post_attendance content_type temp_path timestamp db = (r, db1) ->
  students db1 = students db /\
  match r with
  | Ok (app.Marked student_id name confidence attendance_id timestamp' message) =>
      timestamp' = match timestamp with
                   | Some (String c t) => String c t
                   | _ => now
                   end /\
      length (attendance db1) = S (length (attendance db)) /\
      attendance_on db1 (before_T timestamp')
        = attendance_on db (before_T timestamp') ++
          [{| ar_id := attendance_id;
              ar_student_id := student_id;
              ar_check_in := Some timestamp';
              ar_image_path := Some temp_path |}] /\
      forall date, date <> before_T timestamp' ->
        attendance_on db1 date = attendance_on db date
  | _ => attendance db1 = attendance db
  end.
Proof.
  intros Hnow.
  unfold app.mark_attendance, try_except, bind, ret, raise, app.reraise_as_500.
  destruct content_type as [ct|]; [|intros [= <- <-]; auto].
  destruct (String.prefix "image/" ct); cbn [negb]; [|intros [= <- <-]; auto].
  set (ts := match timestamp with Some (String c t) => String c t | _ => now end).
  assert (Hts : ts <> "").
  { subst ts. destruct timestamp as [[|c t]|]; auto; discriminate. }
  destruct (mark_attendance_outcome temp_path (Some ts) db)
    as (ra & d1 & E & Hs & H).
  rewrite E.
  destruct ra as [attendance_id student_id name confidence
                 |best_match [confidence|] all_matches|error];
    intros [= <- <-]; (split; [exact Hs|]); try tauto.
  split; [reflexivity|].
  split; [rewrite H, length_app; simpl; lia|].
  destruct ts as [|c t] eqn:Ets; [congruence|]. rewrite <- Ets in *.
  split.
  - rewrite (attendance_on_snoc db d1 _ _ H). unfold has_date. cbn [att_date].
    now rewrite String.eqb_refl.
  - intros date Hd. rewrite (attendance_on_snoc db d1 _ _ H).
    unfold has_date. cbn [att_date].
    destruct (String.eqb_spec (before_T ts) date); [congruence|].
    apply app_nil_r.
Qed.

End Endpoints.

(** X21. [GET /students] lists exactly the active identities, the ones a
    verification compares against, in the order of the store, and counts
    them; a soft-deleted identity is not listed. It answers 500 exactly when
    the store call fails, and never changes the store. *)
Theorem get_students_lists_active_identities db r db1 :
  app.get_all_students db = (r, db1) ->
  students db1 = students db /\ attendance db1 = attendance db /\
  match r with
  | Ok response =>
      calm 1 (faults db) = true /\
      app.sr_count response = length (active_identities db) /\
      map app.ss_student_id (app.sr_students response)
        = map se_student_id (active_identities db) /\
      map app.ss_name (app.sr_students response)
        = map se_name (active_identities db) /\
      Forall (fun s => app.ss_is_active s = true) (app.sr_students response)
  | Raise e =>
      calm 1 (faults db) = false /\ exists detail, e = HTTPException 500 detail
  end.
Proof.
  unfold app.get_all_students, try_except, bind, ret, raise.
  destruct (get_all_students db) as [[all_students|e] d1] eqn:E;
    destruct (get_all_students_frame _ _ _ E) as (Hs & Ha & _ & H);
    intros [= <- <-]; (split; [exact Hs|]); (split; [exact Ha|]).
  - destruct H as [-> Hcalm]. split; [exact Hcalm|].
    cbn [app.sr_count app.sr_students]. unfold active_identities.
    rewrite !length_map, !map_map. repeat split.
    apply Forall_forall. intros s Hin.
    apply in_map_iff in Hin as (d & <- & Hd).
    apply filter_In in Hd as [_ Hact]. exact Hact.
  - destruct H as (msg & _ & Hcalm). eauto.
Qed.

(** ** The one-time loader *)

Lemma lower_char_idempotent c : lower_char (lower_char c) = lower_char c.
Proof. destruct c as [[] [] [] [] [] [] [] []]; reflexivity. Qed.

Lemma lower_char_keeps_separators c :
  (Ascii.eqb (lower_char c) " " = Ascii.eqb c " ") /\
  (Ascii.eqb (lower_char c) "_" = Ascii.eqb c "_").
Proof. destruct c as [[] [] [] [] [] [] [] []]; split; reflexivity. Qed.

Lemma lower_replace_char old new s :
  lower_char new = new ->
  (forall c, Ascii.eqb (lower_char c) old = Ascii.eqb c old) ->
  lower (replace_char old new s) = replace_char old new (lower s).
Proof.
  intros Hnew Hc. induction s as [|c s IH]; simpl; [reflexivity|].
  rewrite IH, Hc. destruct (Ascii.eqb c old); [now rewrite Hnew|reflexivity].
Qed.

Lemma lower_idempotent s : lower (lower s) = lower s.
Proof.
  induction s as [|c s IH]; simpl; [reflexivity|].
  now rewrite lower_char_idempotent, IH.
Qed.

Lemma replace_char_idempotent old new s :
  old <> new ->
  replace_char old new (replace_char old new s) = replace_char old new s.
Proof.
  intros H. induction s as [|c s IH]; simpl; [reflexivity|]. rewrite IH.
  destruct (Ascii.eqb_spec c old) as [->|Hc].
  - destruct (Ascii.eqb_spec new old); congruence.
  - destruct (Ascii.eqb_spec c old); congruence.
Qed.

Lemma replace_char_absorbs a b s :
  replace_char a b (replace_char b a s) = replace_char a b s.
Proof.
  induction s as [|c s IH]; simpl; [reflexivity|]. rewrite IH. f_equal.
  destruct (Ascii.eqb_spec c b) as [->|Hc].
  - rewrite Ascii.eqb_refl. now destruct (Ascii.eqb b a).
  - reflexivity.
Qed.

Lemma count_success_cons r l :
  count_success (r :: l) = (if register_success r then 1 else 0) + count_success l.
Proof. unfold count_success. cbn [filter]. now destruct (register_success r). Qed.

Section Loader.

Variable students_dir_exists : bool.
Variable student_folders : list string.
Variable os_path_join : string -> string -> string.
Variable glob_glob : string -> list string.
Variable path_exists : string -> bool.
Variable DeepFace_represent : string -> string -> string -> res (list ndarray).
Variable face_service : FaceService.

Local Abbreviation folder_images := (initial_setup.folder_images os_path_join glob_glob).
Local Abbreviation discover_loop := (initial_setup.discover_loop os_path_join glob_glob).
Local Abbreviation discover_students :=
  (initial_setup.discover_students students_dir_exists student_folders
     os_path_join glob_glob).
Local Abbreviation register_student_batch :=
  (initial_setup.register_student_batch path_exists DeepFace_represent face_service).
Local Abbreviation setup_loop :=
  (initial_setup.setup_loop path_exists DeepFace_represent face_service).
Local Abbreviation run_initial_setup :=
  (initial_setup.run_initial_setup students_dir_exists student_folders
     os_path_join glob_glob path_exists DeepFace_represent face_service).

Lemma register_student_batch_outcome sd db :
  exists r db1,
    register_student_batch sd db = (Ok r, db1) /\
    attendance db1 = attendance db /\
    length (students db1)
      = length (students db) + (if register_success r then 1 else 0).
Proof.
  unfold initial_setup.register_student_batch, try_except.
  destruct (register_student_cases path_exists DeepFace_represent face_service
              (initial_setup.sd_name sd) (initial_setup.sd_student_id sd)
              (initial_setup.sd_image_paths sd) db)
    as (r & d1 & E & Ha & [(Hs & [(error & ->)|(error & -> & _)])
                          |(_ & _ & -> & d & Hs & _)]);
    rewrite E; eexists _, d1; (split; [reflexivity|]); (split; [exact Ha|]);
    rewrite Hs, ?length_app; simpl; lia.
Qed.

Lemma setup_loop_accounting students_data :
  forall total_success total_failed results db,
  exists new db1,
    setup_loop students_data total_success total_failed results db
      = (Ok (total_success + count_success new,
             total_failed + (length new - count_success new),
             results ++ new), db1) /\
    length new = length students_data /\
    count_success new <= length new /\
    length (students db1) = length (students db) + count_success new /\
    attendance db1 = attendance db.
Proof.
  induction students_data as [|sd rest IH]; intros ts tf results db.
  - exists [], db. cbn. unfold ret. rewrite !Nat.add_0_r, app_nil_r. auto.
  - cbn [initial_setup.setup_loop]. unfold bind.
    destruct (register_student_batch_outcome sd db) as (r & d1 & E & Ha & Hs).
    rewrite E. destruct (register_success r) eqn:Hr.
    + destruct (IH (ts + 1) tf (results ++ [r]) d1)
        as (new & d2 & E2 & Hlen & Hle & Hs2 & Ha2).
      exists (r :: new), d2. rewrite E2, count_success_cons, Hr. cbn [length].
      replace (results ++ r :: new) with ((results ++ [r]) ++ new)
        by (rewrite <- app_assoc; reflexivity).
      replace (ts + (1 + count_success new)) with (ts + 1 + count_success new)
        by lia.
      replace (S (length new) - (1 + count_success new))
        with (length new - count_success new) by lia.
      split; [reflexivity|]. repeat split; try lia; congruence.
    + destruct (IH ts (tf + 1) (results ++ [r]) d1)
        as (new & d2 & E2 & Hlen & Hle & Hs2 & Ha2).
      exists (r :: new), d2. rewrite E2, count_success_cons, Hr. cbn [length].
      replace (results ++ r :: new) with ((results ++ [r]) ++ new)
        by (rewrite <- app_assoc; reflexivity).
      replace (ts + (0 + count_success new)) with (ts + count_success new) by lia.
      replace (tf + (S (length new) - (0 + count_success new)))
        with (tf + 1 + (length new - count_success new)) by lia.
      split; [reflexivity|]. repeat split; try lia; congruence.
Qed.


Lemma discover_loop_entries folders : forall students_data sd,
  In sd (discover_loop folders students_data) ->
  In sd students_data \/
  exists folder,
    In folder folders /\
    initial_setup.sd_name sd = initial_setup.student_name folder /\
    initial_setup.sd_student_id sd = initial_setup.student_id folder /\
    initial_setup.sd_folder_path sd = os_path_join initial_setup.students_dir folder /\
    initial_setup.sd_image_paths sd = folder_images (initial_setup.sd_folder_path sd) /\
    initial_setup.sd_image_paths sd <> [].
Proof.
  induction folders as [|folder rest IH]; intros acc sd Hin; [left; exact Hin|].
  cbn [initial_setup.discover_loop] in Hin.
  destruct (folder_images (os_path_join initial_setup.students_dir folder))
    as [|p ps] eqn:Ei.
  - destruct (IH _ _ Hin) as [H|(f & Hf & H)]; [auto|].
    right. exists f. split; [right; exact Hf|exact H].
  - destruct (IH _ _ Hin) as [H|(f & Hf & H)].
    + apply in_app_or in H as [H|[<-|[]]]; [auto|].
      right. exists folder.
      cbn [initial_setup.sd_name initial_setup.sd_student_id
           initial_setup.sd_folder_path initial_setup.sd_image_paths].
      rewrite Ei. repeat split; auto using in_eq. discriminate.
    + right. exists f. split; [right; exact Hf|exact H].
Qed.

Lemma discover_loop_length folders : forall students_data,
  length (discover_loop folders students_data)
    <= length students_data + length folders.
Proof.
  induction folders as [|folder rest IH]; intros acc; simpl; [lia|].
  destruct (folder_images (os_path_join initial_setup.students_dir folder))
    as [|s l]; [specialize (IH acc); lia|].
  specialize (IH (acc ++ [{|
    initial_setup.sd_name := initial_setup.student_name folder;
    initial_setup.sd_student_id := initial_setup.student_id folder;
    initial_setup.sd_folder_path := os_path_join initial_setup.students_dir folder;
    initial_setup.sd_image_paths := s :: l |}])).
  rewrite length_app in IH. simpl in IH. lia.
Qed.

(** X23. Every student [discover_students] finds comes from a listed folder
    with at least one image, and there are no more students than folders.
    The identifier of a student is in normal form (lowering it or replacing
    its spaces changes nothing), and it is also the identifier its displayed
    name would give: folder names that differ only by case or by spaces
    against underscores get the same identifier. *)
Theorem discover_students_entries sd :
  In sd discover_students ->
  length discover_students <= length student_folders /\
  students_dir_exists = true /\
  initial_setup.sd_image_paths sd <> [] /\
  (exists folder,
     In folder student_folders /\
     initial_setup.sd_name sd = initial_setup.student_name folder /\
     initial_setup.sd_student_id sd = initial_setup.student_id folder /\
     initial_setup.sd_folder_path sd = os_path_join initial_setup.students_dir folder /\
     initial_setup.sd_image_paths sd = folder_images (initial_setup.sd_folder_path sd)) /\
  lower (initial_setup.sd_student_id sd) = initial_setup.sd_student_id sd /\
  replace_char " " "_" (initial_setup.sd_student_id sd) = initial_setup.sd_student_id sd /\
  initial_setup.student_id (initial_setup.sd_name sd) = initial_setup.sd_student_id sd.
Proof.
  unfold initial_setup.discover_students.
  destruct students_dir_exists; cbn [negb]; [|intros []].
  destruct student_folders as [|f fs] eqn:Ef; [intros []|]. rewrite <- Ef.
  intros Hin. split; [apply (discover_loop_length student_folders [])|].
  split; [reflexivity|].
  destruct (discover_loop_entries _ _ _ Hin)
    as [[]|(folder & Hf & Hname & Hid & Hpath & Himg & Hne)].
  split; [exact Hne|]. split; [eauto 10|].
  rewrite Hid, Hname. unfold initial_setup.student_id, initial_setup.student_name.
  split; [|split].
  - rewrite lower_replace_char; [now rewrite lower_idempotent|reflexivity|].
    intros c. apply lower_char_keeps_separators.
  - apply replace_char_idempotent. discriminate.
  - rewrite lower_replace_char; [apply replace_char_absorbs|reflexivity|].
    intros c. apply lower_char_keeps_separators.
Qed.

End Loader.

(** ** The further properties on the examples *)

Lemma calls_keep_unique_ids_witness :
  unique_ids (Deployment.run Campus.db_alice Deployment.day_with_direct_writes).
Proof.
  apply (calls_keep_unique_ids
           Campus.path_exists Campus.DeepFace_represent Campus.service
           Deployment.day_with_direct_writes Campus.db_alice).
  unfold unique_ids. vm_compute. constructor; [intros []|constructor].
Defined.

Lemma calls_keep_counts_witness :
  counts_consistent (Deployment.run Campus.db_alice Deployment.day_with_direct_writes).
Proof.
  apply (calls_keep_counts
           Campus.path_exists Campus.DeepFace_represent Campus.service
           Deployment.day_with_direct_writes Campus.db_alice).
  intros d Hd. vm_compute in Hd. destruct Hd as [<-|[]]. reflexivity.
Defined.

Lemma caller_calls_keep_three_references_witness :
  forallb caller_call Deployment.day = true /\
  three_references (Deployment.run Campus.db_alice Deployment.day) /\
  forall s, In s (active_identities (Deployment.run Campus.db_alice Deployment.day)) ->
    3 <= length (se_embeddings s) /\ se_embeddings s <> [].
Proof.
  split; [reflexivity|].
  apply (caller_calls_keep_three_references
           Campus.path_exists Campus.DeepFace_represent Campus.service
           Deployment.day Campus.db_alice).
  - reflexivity.
  - intros d Hd. vm_compute in Hd. destruct Hd as [<-|[]]. vm_compute. lia.
Defined.

Lemma add_student_then_get_student_by_id_witness :
  exists db1 db2,
    add_student "Mia" "s6" [[1; 0]%float] ["m.jpg"] Campus.db_alice = (Ok 1, db1) /\
    get_student_by_id "s6" db1
      = (Ok (Some {| st_id := 1;
                     st_name := "Mia";
                     st_student_id := "s6";
                     st_embeddings := [[1; 0]%float];
                     st_image_count := 1;
                     st_image_paths := ["m.jpg"];
                     st_is_active := true;
                     st_created_at := None |}), db2) /\
    students db2 = students db1 /\
    length (students db1) = 2.
Proof.
  apply (add_student_then_get_student_by_id
           "Mia" "s6" [[1; 0]%float] ["m.jpg"] Campus.db_alice).
  - vm_compute. reflexivity.
  - vm_compute. reflexivity.
Defined.

Lemma delete_student_soft_deletes_witness :
  exists db1,
    delete_student "s2" Campus.db_alice_bob = (Ok true, db1) /\
    (forall s, In s (active_identities db1) -> se_student_id s <> "s2") /\
    identity_exists db1 "s2" = true /\
    stored_embeddings db1 "s2" = stored_embeddings Campus.db_alice_bob "s2".
Proof.
  edestruct (delete_student_soft_deletes "s2" Campus.db_alice_bob)
    as (db1 & E & _ & Hgone & Htaken & Hkept & _).
  - unfold unique_ids. vm_compute.
    constructor; [intros [H|[]]; discriminate H|].
    constructor; [intros []|constructor].
  - vm_compute. reflexivity.
  - vm_compute. reflexivity.
  - vm_compute. reflexivity.
  - exists db1. auto.
Defined.

Lemma delete_student_nothing_to_do_witness :
  exists db1,
    delete_student "s2" (snd (delete_student "s2" Campus.db_alice_bob))
      = (Ok false, db1) /\
    students db1 = students (snd (delete_student "s2" Campus.db_alice_bob)) /\
    attendance db1 = attendance (snd (delete_student "s2" Campus.db_alice_bob)).
Proof.
  apply (delete_student_nothing_to_do
           "s2" (snd (delete_student "s2" Campus.db_alice_bob))).
  - vm_compute. reflexivity.
  - vm_compute. reflexivity.
Defined.

Lemma verify_reports_active_identities_witness :
  exists r db1,
    Campus.verify "probe.jpg" Campus.db_alice_carol = (Ok r, db1) /\
    (forall c,
       verify_best_match r = Some c \/ In c (verify_all_matches r) ->
       exists s,
         In s (active_identities Campus.db_alice_carol) /\
         c_student_id c = se_student_id s /\ c_name c = se_name s) /\
    length (verify_all_matches r) <= 5 /\
    length (verify_all_matches r) <= length (active_identities Campus.db_alice_carol).
Proof.
  eexists _, _. split; [vm_compute; reflexivity|].
  eapply (verify_reports_active_identities
           Campus.path_exists Campus.DeepFace_represent Campus.service
           "probe.jpg" Campus.db_alice_carol _ _).
  vm_compute. reflexivity.
Defined.

Lemma verify_decision_sound_witness :
  exists r db1,
    Campus.verify "probe.jpg" Campus.db_alice_bob = (Ok r, db1) /\
    (forall c,
       verify_best_match r = Some c ->
       verify_distance r = Some (c_distance c) /\
       verify_confidence r = Some (1 - c_distance c)%float /\
       proper (c_distance c) = true /\
       verify_matched r
         = Some (c_distance c <=? confidence_threshold Campus.service)%float).
Proof.
  eexists _, _. split; [vm_compute; reflexivity|].
  refine (proj1 (verify_decision_sound
                   Campus.path_exists Campus.DeepFace_represent Campus.service
                   "probe.jpg" Campus.db_alice_bob _ _ _)).
  vm_compute. reflexivity.
Defined.

Lemma deleted_identity_is_never_reported_witness :
  exists db1 r db2,
    delete_student "s2" Campus.db_alice_bob = (Ok true, db1) /\
    Campus.verify "probe.jpg" db1 = (Ok r, db2) /\
    forall c,
      verify_best_match r = Some c \/ In c (verify_all_matches r) ->
      c_student_id c <> "s2".
Proof.
  eexists _, _, _. split; [vm_compute; reflexivity|].
  split; [vm_compute; reflexivity|].
  eapply (deleted_identity_is_never_reported
           Campus.path_exists Campus.DeepFace_represent Campus.service
           "s2" Campus.db_alice_bob _ "probe.jpg" _ _).
  - unfold unique_ids. vm_compute.
    constructor; [intros [H|[]]; discriminate H|].
    constructor; [intros []|constructor].
  - vm_compute. reflexivity.
  - vm_compute. reflexivity.
Defined.

Lemma verify_ranks_closest_first_witness :
  exists r db1 best rest,
    Campus.verify "probe.jpg" Campus.db_alice_bob = (Ok r, db1) /\
    verify_best_match r = Some best /\
    verify_all_matches r = best :: rest /\
    ascending (verify_all_matches r) = true /\
    length (verify_all_matches r)
      = Nat.min 5 (length (active_identities Campus.db_alice_bob)).
Proof.
  apply (verify_ranks_closest_first
           Campus.path_exists Campus.DeepFace_represent Campus.service
           "probe.jpg" Campus.db_alice_bob Campus.probe).
  - vm_compute. reflexivity.
  - vm_compute. reflexivity.
  - vm_compute. discriminate.
  - vm_compute. reflexivity.
Defined.

Lemma verify_fails_on_dimension_mismatch_witness :
  exists error db1,
    Campus.verify "probe.jpg" Deployment.db_mixed = (Ok (VerifyError error), db1) /\
    students db1 = students Deployment.db_mixed /\
    attendance db1 = attendance Deployment.db_mixed.
Proof.
  edestruct (verify_fails_on_dimension_mismatch
               Campus.path_exists Campus.DeepFace_represent Campus.service
               "probe.jpg" Deployment.db_mixed Campus.probe)
    as (_ & H).
  - vm_compute. reflexivity.
  - vm_compute. right. left. reflexivity.
  - vm_compute. left. reflexivity.
  - vm_compute. discriminate.
  - exact H.
Defined.

Lemma record_attendance_then_get_attendance_by_date_witness :
  exists db1 db2,
    record_attendance "s1" (Some "2024-03-05T08:30:00") (Some "probe.jpg")
      Campus.db_alice = (Ok 1, db1) /\
    get_attendance_by_date "2024-03-05" db1
      = (Ok [{| ar_id := 1;
                ar_student_id := "s1";
                ar_check_in := Some "2024-03-05T08:30:00";
                ar_image_path := Some "probe.jpg" |}], db2) /\
    forall date, date <> "2024-03-05" ->
      attendance_on db1 date = attendance_on Campus.db_alice date.
Proof.
  apply (record_attendance_then_get_attendance_by_date
           "s1" "2024-03-05T08:30:00" (Some "probe.jpg") Campus.db_alice).
  - discriminate.
  - vm_compute. reflexivity.
Defined.

Lemma record_attendance_without_time_is_unlisted_witness :
  exists db1,
    record_attendance "s1" (Some "") (Some "probe.jpg") Campus.db_alice
      = (Ok 1, db1) /\
    length (attendance db1) = 1 /\
    forall date, attendance_on db1 date = attendance_on Campus.db_alice date.
Proof.
  apply (record_attendance_without_time_is_unlisted
           "s1" (Some "") (Some "probe.jpg") Campus.db_alice).
  - right. reflexivity.
  - vm_compute. reflexivity.
Defined.

Lemma get_system_stats_counts_active_witness :
  exists r db1,
    get_system_stats Campus.service Campus.db_alice_carol = (Ok r, db1) /\
    students db1 = students Campus.db_alice_carol /\
    attendance db1 = attendance Campus.db_alice_carol /\
    exists model threshold average, r = Stats 2 6 model threshold average.
Proof.
  edestruct (get_system_stats_counts_active Campus.service Campus.db_alice_carol)
    as (r & db1 & E & Hs & Ha & H).
  - intros d Hd. vm_compute in Hd.
    destruct Hd as [<-|[<-|[<-|[]]]]; reflexivity.
  - exists r, db1. split; [exact E|]. split; [exact Hs|]. split; [exact Ha|].
    destruct r as [ts te model threshold average|error].
    + destruct H as (_ & -> & -> & _). eauto.
    + vm_compute in H. discriminate H.
Defined.

Lemma improve_recognition_unknown_identity_witness :
  exists db1,
    Campus.improve "s9" ["d2.jpg"; "blurred.jpg"] Campus.db_alice
      = (Raise (HTTPException 404 "Student not found"), db1) /\
    students db1 = students Campus.db_alice /\
    attendance db1 = attendance Campus.db_alice.
Proof.
  apply (improve_recognition_unknown_identity
           Campus.path_exists Campus.DeepFace_represent Campus.service
           "s9" ["d2.jpg"; "blurred.jpg"] Campus.db_alice).
  - vm_compute. discriminate.
  - vm_compute. reflexivity.
  - vm_compute. reflexivity.
Defined.

Lemma improve_recognition_failure_keeps_store_witness :
  exists e db1,
    Campus.improve "s1" ["blurred.jpg"; "missing.jpg"] Campus.db_alice
      = (Raise e, db1) /\
    students db1 = students Campus.db_alice /\
    attendance db1 = attendance Campus.db_alice /\
    exists status_code detail,
      e = HTTPException status_code detail /\
      (status_code = 400 \/ status_code = 404 \/ status_code = 500).
Proof.
  eexists _, _. split; [vm_compute; reflexivity|].
  edestruct (improve_recognition_failure_keeps_store
               Campus.path_exists Campus.DeepFace_represent Campus.service
               "s1" ["blurred.jpg"; "missing.jpg"] Campus.db_alice)
    as (Hs & Ha & status_code & detail & He & Hcode & _).
  - vm_compute. reflexivity.
  - split; [exact Hs|]. split; [exact Ha|]. eauto.
Defined.

Lemma post_register_outcome_witness :
  exists response db1,
    Deployment.post_register "Bob" "s2"
      ["b1.jpg"; "blurred.jpg"; "b2.jpg"; "b3.jpg"] Campus.db_alice
      = (Ok response, db1) /\
    attendance db1 = attendance Campus.db_alice /\
    app.rr_total_images response = 4 /\
    app.rr_successful_embeddings response = 3 /\
    length (students db1) = 2.
Proof.
  eexists _, _. split; [vm_compute; reflexivity|].
  edestruct (post_register_outcome
               Campus.path_exists Campus.DeepFace_represent Campus.service
               "Bob" "s2" ["b1.jpg"; "blurred.jpg"; "b2.jpg"; "b3.jpg"]
               Campus.db_alice)
    as (Ha & H).
  - vm_compute. reflexivity.
  - cbv beta iota in H.
    destruct H as (_ & _ & _ & Htotal & Hsucc & _ & _ & _ & Hlen).
    split; [exact Ha|]. split; [exact Htotal|]. split; [exact Hsucc|exact Hlen].
Defined.

Lemma post_attendance_without_students_witness :
  exists db1,
    Deployment.post_attendance (Some "image/jpeg") "probe.jpg" None Campus.empty_db
      = (Raise (HTTPException 500
                  "Attendance marking failed: type NoneType doesn't define __round__ method"),
         db1) /\
    students db1 = students Campus.empty_db /\
    attendance db1 = attendance Campus.empty_db.
Proof.
  apply (post_attendance_without_students
           Campus.path_exists Campus.DeepFace_represent Campus.service
           Deployment.now Deployment.round4
           "image/jpeg" "probe.jpg" None Campus.empty_db Campus.probe).
  - vm_compute. reflexivity.
  - vm_compute. reflexivity.
  - vm_compute. reflexivity.
  - vm_compute. reflexivity.
Defined.

Lemma post_attendance_outcome_witness :
  exists student_id name confidence attendance_id message db1,
    Deployment.post_attendance (Some "image/jpeg") "probe.jpg" (Some "")
      Campus.db_alice_bob
      = (Ok (app.Marked student_id name confidence attendance_id
               Deployment.now message), db1) /\
    students db1 = students Campus.db_alice_bob /\
    attendance_on db1 "2024-03-05"
      = [{| ar_id := attendance_id;
            ar_student_id := student_id;
            ar_check_in := Some Deployment.now;
            ar_image_path := Some "probe.jpg" |}].
Proof.
  eexists _, _, _, _, _, _. split; [vm_compute; reflexivity|].
  edestruct (post_attendance_outcome
               Campus.path_exists Campus.DeepFace_represent Campus.service
               Deployment.now Deployment.round4
               (Some "image/jpeg") "probe.jpg" (Some "") Campus.db_alice_bob)
    as (Hs & H).
  - discriminate.
  - vm_compute. reflexivity.
  - cbv beta iota in H. destruct H as (_ & _ & Hon & _).
    split; [exact Hs|exact Hon].
Defined.

Lemma get_students_lists_active_identities_witness :
  exists response db1,
    app.get_all_students Campus.db_alice_carol = (Ok response, db1) /\
    app.sr_count response = 2 /\
    map app.ss_student_id (app.sr_students response) = ["s1"; "s3"].
Proof.
  eexists _, _. split; [vm_compute; reflexivity|].
  edestruct (get_students_lists_active_identities Campus.db_alice_carol)
    as (_ & _ & H).
  - vm_compute. reflexivity.
  - cbv beta iota in H. destruct H as (_ & Hcount & Hids & _).
    split; [exact Hcount|exact Hids].
Defined.

Lemma discover_students_entries_witness :
  exists sd,
    In sd Deployment.discover_students /\
    initial_setup.sd_name sd = "bob JONES" /\
    initial_setup.sd_student_id sd = "bob_jones" /\
    initial_setup.student_id (initial_setup.sd_name sd)
      = initial_setup.sd_student_id sd /\
    length Deployment.discover_students <= 3.
Proof.
  eexists. split; [vm_compute; right; left; reflexivity|].
  edestruct (discover_students_entries
               true Deployment.student_folders Deployment.os_path_join
               Deployment.glob_glob)
    as (Hlen & _ & _ & _ & _ & _ & Hid).
  - vm_compute. right. left. reflexivity.
  - split; [reflexivity|]. split; [reflexivity|]. split; [exact Hid|exact Hlen].
Defined.
